(** * Baserow file-upload MCP server: field resolution, upload-and-attach,
      structure walk

    A shallow embedding of the three asynchronous functions of
    [mcp_baserow_image.js] ([getFieldId], [uploadImageUrl] / [uploadFile],
    [readBaserowStructure]) together with the fragment of JavaScript they
    rely on: dynamically typed JSON values, truthiness, property access,
    [isNaN], [parseInt], template strings, [for ... of], exceptions and
    [try]/[catch].  Network access goes through a host-provided [fetch]
    whose every call is recorded in a trace. *)

From Stdlib Require Import ZArith List String Ascii Bool Lia.
From Stdlib Require Import DecimalString DecimalPos.
Import ListNotations.
Local Open Scope string_scope.
Local Open Scope Z_scope.

Set Implicit Arguments.
Set Warnings "-register-all".

(* ================================================================== *)
(** ** JavaScript values *)

(** The Numbers that occur here are identifiers, counts and HTTP status
    codes: [Num z] is the Number with integer value [z] (for [|z| > 2^53]
    the double nearest to [z]; [-0] is [Num 0]). *)
Inductive JsNumber : Type :=
| NaN
| Num (z : Z).

(** Values as [JSON.parse] produces them, plus [undefined].  An object is
    the list of its own properties; a string is a sequence of code units
    below 256. *)
Inductive Value : Type :=
| VUndefined
| VNull
| VBool (b : bool)
| VNum (n : JsNumber)
| VStr (s : string)
| VArr (items : list Value)
| VObj (props : list (string * Value)).

(** Thrown values are [Error] objects; only [message] is ever read.
    [TypeError]s are raised by the engine, with engine-defined text. *)
Inductive Exn : Type :=
| Error (msg : string)
| TypeError (msg : string).

Definition message (e : Exn) : string :=
  match e with Error m => m | TypeError m => m end.

(** Completion of an evaluation: a value, or an abrupt [throw]. *)
Inductive Completion (A : Type) : Type :=
| Normal (a : A)
| Throw (e : Exn).
Arguments Normal {A} a.
Arguments Throw {A} e.

(** [ToBoolean]. *)
Definition truthy (v : Value) : bool :=
  match v with
  | VUndefined | VNull => false
  | VBool b => b
  | VNum NaN => false
  | VNum (Num z) => negb (z =? 0)
  | VStr s => negb (s =? "")%string
  | VArr _ | VObj _ => true
  end.

(** [a || b] *)
Definition js_or (a b : Value) : Value := if truthy a then a else b.

Definition is_nullish (v : Value) : bool :=
  match v with VUndefined | VNull => true | _ => false end.

Fixpoint lookup (k : string) (props : list (string * Value)) : Value :=
  match props with
  | [] => VUndefined
  | (k', v) :: rest => if (k =? k')%string then v else lookup k rest
  end.

Definition zlength {A} (l : list A) : Z := Z.of_nat (List.length l).
Definition zstrlen (s : string) : Z := Z.of_nat (String.length s).

(** [v.k] for the property names the program reads ([id], [name], [type],
    [length], [results], ...): none of them is inherited from a prototype
    except [length] of arrays and strings. *)
Definition get_prop (v : Value) (k : string) : Completion Value :=
  match v with
  | VUndefined =>
      Throw (TypeError ("Cannot read properties of undefined (reading '" ++ k ++ "')"))
  | VNull =>
      Throw (TypeError ("Cannot read properties of null (reading '" ++ k ++ "')"))
  | VObj props => Normal (lookup k props)
  | VArr items =>
      Normal (if (k =? "length")%string then VNum (Num (zlength items)) else VUndefined)
  | VStr s =>
      Normal (if (k =? "length")%string then VNum (Num (zstrlen s)) else VUndefined)
  | VBool _ | VNum _ => Normal VUndefined
  end.

(** [v?.k] *)
Definition get_prop_opt (v : Value) (k : string) : Completion Value :=
  if is_nullish v then Normal VUndefined else get_prop v k.

(** [v === 'literal'] *)
Definition strict_eq_string (v : Value) (s : string) : bool :=
  match v with VStr s' => (s' =? s)%string | _ => false end.

(** The sequence a [for (const x of v)] loop visits: the elements of an
    array, the characters of a string; anything else is not iterable. *)
Fixpoint chars (s : string) : list Value :=
  match s with
  | EmptyString => []
  | String c rest => VStr (String c EmptyString) :: chars rest
  end.

Definition iterate (v : Value) : Completion (list Value) :=
  match v with
  | VArr items => Normal items
  | VStr s => Normal (chars s)
  | _ => Throw (TypeError "value is not iterable")
  end.

(* ================================================================== *)
(** ** Strings and numbers *)

Definition code (c : ascii) : nat := nat_of_ascii c.

(** [StrWhiteSpaceChar], for code units below 256: TAB, LF, VT, FF, CR,
    SP, NBSP. *)
Definition is_ws (c : ascii) : bool :=
  let n := code c in
  ((n =? 9) || (n =? 10) || (n =? 11) || (n =? 12) || (n =? 13) || (n =? 32)
   || (n =? 160))%nat.

Definition is_digit (c : ascii) : bool :=
  let n := code c in ((48 <=? n) && (n <=? 57))%nat.

Definition digit_val (c : ascii) : Z := Z.of_nat (code c) - 48.

(** Value of a hexadecimal digit, if it is one. *)
Definition hex_val (c : ascii) : option Z :=
  let n := code c in
  if ((48 <=? n) && (n <=? 57))%nat then Some (Z.of_nat n - 48)
  else if ((97 <=? n) && (n <=? 102))%nat then Some (Z.of_nat n - 87)
  else if ((65 <=? n) && (n <=? 70))%nat then Some (Z.of_nat n - 55)
  else None.

Definition radix_val (radix : Z) (c : ascii) : option Z :=
  match hex_val c with
  | Some d => if d <? radix then Some d else None
  | None => None
  end.

Fixpoint trim_start (s : string) : string :=
  match s with
  | String c rest => if is_ws c then trim_start rest else s
  | EmptyString => EmptyString
  end.

Fixpoint rev_string (s acc : string) : string :=
  match s with
  | EmptyString => acc
  | String c rest => rev_string rest (String c acc)
  end.

Definition trim_end (s : string) : string :=
  rev_string (trim_start (rev_string s "")) "".

Definition trim (s : string) : string := trim_end (trim_start s).

(** Longest prefix of radix-[r] digits: (was some digit read, its value,
    the rest). *)
Fixpoint span_radix (r : Z) (s : string) (seen : bool) (acc : Z)
  : bool * Z * string :=
  match s with
  | EmptyString => (seen, acc, EmptyString)
  | String c rest =>
      match radix_val r c with
      | Some d => span_radix r rest true (acc * r + d)
      | None => (seen, acc, s)
      end
  end.

(** [^\d+$] *)
Fixpoint all_digits (s : string) : bool :=
  match s with
  | EmptyString => true
  | String c rest => is_digit c && all_digits rest
  end.

Definition regex_digits (s : string) : bool :=
  negb (s =? "")%string && all_digits s.

(** [ExponentPart], optional: empty, or [e]/[E], optional sign, digits. *)
Definition exponent_ok (s : string) : bool :=
  match s with
  | EmptyString => true
  | String c rest =>
      if ((c =? "e") || (c =? "E"))%char then
        match rest with
        | String s' rest' =>
            if ((s' =? "+") || (s' =? "-"))%char then regex_digits rest'
            else regex_digits rest
        | EmptyString => false
        end
      else false
  end.

(** [StrUnsignedDecimalLiteral] *)
Definition unsigned_decimal (s : string) : bool :=
  if (s =? "Infinity")%string then true
  else
    let '(int_seen, _, r1) := span_radix 10 s false 0 in
    match r1 with
    | String "." r2 =>
        let '(frac_seen, _, r3) := span_radix 10 r2 false 0 in
        (int_seen || frac_seen) && exponent_ok r3
    | _ => int_seen && exponent_ok r1
    end.

(** [NonDecimalIntegerLiteral]: 0x.., 0o.., 0b.. *)
Definition non_decimal_integer (s : string) : bool :=
  match s with
  | String "0" (String p rest) =>
      let radix :=
        if ((p =? "x") || (p =? "X"))%char then Some 16
        else if ((p =? "o") || (p =? "O"))%char then Some 8
        else if ((p =? "b") || (p =? "B"))%char then Some 2
        else None in
      match radix with
      | Some r =>
          let '(seen, _, r1) := span_radix r rest false 0 in
          seen && (r1 =? "")%string
      | None => false
      end
  | _ => false
  end.

(** [StrNumericLiteral] *)
Definition str_numeric_literal (s : string) : bool :=
  match s with
  | String "+" rest => unsigned_decimal rest
  | String "-" rest => unsigned_decimal rest
  | _ => unsigned_decimal s || non_decimal_integer s
  end.

(** [isNaN(s)] for a string: [StringToNumber] fails to read it.  Blank
    strings convert to 0. *)
Definition isNaN_string (s : string) : bool :=
  let t := trim s in
  negb ((t =? "")%string || str_numeric_literal t).

(** [parseInt(s)] with no radix argument. *)
Definition parseInt_string (s : string) : JsNumber :=
  let t := trim_start s in
  let '(negative, t1) :=
    match t with
    | String "-" rest => (true, rest)
    | String "+" rest => (false, rest)
    | _ => (false, t)
    end in
  let '(radix, t2) :=
    match t1 with
    | String "0" (String p rest) =>
        if ((p =? "x") || (p =? "X"))%char then (16, rest) else (10, t1)
    | _ => (10, t1)
    end in
  let '(seen, n, _) := span_radix radix t2 false 0 in
  if seen then Num (if negative then - n else n) else NaN.

Fixpoint strip_prefix (p s : string) : option string :=
  match p with
  | EmptyString => Some s
  | String a p' =>
      match s with
      | String b s' => if (a =? b)%char then strip_prefix p' s' else None
      | EmptyString => None
      end
  end.

(** [s.startsWith(p)] *)
Definition startsWith (s p : string) : bool :=
  match strip_prefix p s with Some _ => true | None => false end.

(** [s.replace(pat, rep)] with a string pattern: the first occurrence. *)
Fixpoint replace (pat rep s : string) : string :=
  match strip_prefix pat s with
  | Some rest => rep ++ rest
  | None =>
      match s with
      | EmptyString => EmptyString
      | String c s' => String c (replace pat rep s')
      end
  end.

(** Decimal rendering of an integer, as [Number::toString] prints safe
    integers. *)
Definition decimal (z : Z) : string := NilZero.string_of_int (Z.to_int z).

Definition dquote : string := String (ascii_of_nat 34) EmptyString.

(* ================================================================== *)
(** ** The host: network, file system, number formatting *)

Inductive Method : Type := GET | POST | PATCH.

(** The REST resources addressed; a component is the text interpolated
    into the URL. *)
Inductive Endpoint : Type :=
| EpWorkspaces
| EpApplications (workspaceId : string)
| EpTables (applicationId : string)
| EpFields (tableId : string)
| EpRows (tableId : string) (size : string)
| EpUploadViaUrl
| EpUploadFile
| EpRow (tableId rowId : string).

Definition path_of (ep : Endpoint) : string :=
  match ep with
  | EpWorkspaces => "/api/workspaces/"
  | EpApplications w => "/api/applications/workspace/" ++ w ++ "/"
  | EpTables a => "/api/database/tables/database/" ++ a ++ "/"
  | EpFields t => "/api/database/fields/table/" ++ t ++ "/"
  | EpRows t n => "/api/database/rows/table/" ++ t ++ "/?size=" ++ n
  | EpUploadViaUrl => "/api/user-files/upload-via-url/"
  | EpUploadFile => "/api/user-files/upload-file/"
  | EpRow t r => "/api/database/rows/table/" ++ t ++ "/" ++ r ++ "/"
  end.

(** A request body before serialisation: the value handed to
    [JSON.stringify], or the one file part of a multipart form. *)
Inductive Body : Type :=
| NoBody
| JsonBody (payload : Value)
| FormBody (file : list Byte.byte) (filename : Value).

Record Request : Type := mkRequest {
  method : Method;
  base_url : string;
  endpoint : Endpoint;
  token : string;             (* Authorization: Token <token> *)
  json_content_type : bool;   (* Content-Type: application/json *)
  body : Body
}.

Definition url_of (r : Request) : string := base_url r ++ path_of (endpoint r).

(** What the program reads of a [Response]: [ok], [status], [statusText]
    and the outcome of [await r.json()] and [await r.text()]. *)
Record Response : Type := mkResponse {
  ok : bool;
  status : Z;
  statusText : string;
  json : Completion Value;
  text : Completion string
}.

(** [await fetch(...)]: the promise rejects (transport failure) or resolves
    to a response, whatever its status. *)
Inductive FetchOutcome : Type :=
| Rejected (e : Exn)
| Resolved (r : Response).

Class Host : Type := {
  World : Type;
  fetch : Request -> World -> FetchOutcome * World;
  (** [Number::toString] on [Num z] *)
  number_to_string : Z -> string;
  existsSync : string -> bool;
  readFileSync : string -> Completion (list Byte.byte);
  basename : string -> string
}.

(** [process.env], which each exported function reads on entry: the
    first argument of its model. *)
Record Env : Type := mkEnv {
  BASEROW_API_URL : option string;
  BASEROW_API_TOKEN : option string
}.

Definition env_value (o : option string) : Value :=
  match o with Some s => VStr s | None => VUndefined end.

Definition env_string (o : option string) : string :=
  match o with Some s => s | None => "undefined" end.

Section Program.
Context {H : Host}.

(** *** Conversions that print numbers *)

(** [ToString]; nullish array elements print as the empty string. *)
Fixpoint to_string (v : Value) : string :=
  match v with
  | VUndefined => "undefined"
  | VNull => "null"
  | VBool true => "true"
  | VBool false => "false"
  | VNum NaN => "NaN"
  | VNum (Num z) => number_to_string z
  | VStr s => s
  | VArr items =>
      (fix join (l : list Value) : string :=
         match l with
         | [] => ""
         | [x] => if is_nullish x then "" else to_string x
         | x :: rest =>
             (if is_nullish x then "" else to_string x) ++ "," ++ join rest
         end) items
  | VObj _ => "[object Object]"
  end.

(** [isNaN(v)] *)
Definition isNaN (v : Value) : bool :=
  match v with
  | VUndefined => true
  | VNull | VBool _ => false
  | VNum NaN => true
  | VNum (Num _) => false
  | VStr s => isNaN_string s
  | VArr _ | VObj _ => isNaN_string (to_string v)
  end.

(** [parseInt(v)] *)
Definition parseInt (v : Value) : JsNumber := parseInt_string (to_string v).

Definition to_number_primitive (v : Value) : JsNumber :=
  match v with
  | VUndefined => NaN
  | VNull => Num 0
  | VBool b => Num (if b then 1 else 0)
  | VNum n => n
  | _ => NaN
  end.

Definition is_textual (v : Value) : bool :=
  match v with VStr _ | VArr _ | VObj _ => true | _ => false end.

(** [a + b] *)
Definition js_add (a b : Value) : Value :=
  if is_textual a || is_textual b then VStr (to_string a ++ to_string b)
  else
    match to_number_primitive a, to_number_primitive b with
    | Num x, Num y => VNum (Num (x + y))
    | _, _ => VNum NaN
    end.

(** *** Effects: the backend, the request trace and the console *)

Record State : Type := mkState {
  world : World;
  trace : list (Request * FetchOutcome);
  console : list string
}.

Definition M (A : Type) : Type := State -> Completion A * State.

Definition ret {A} (a : A) : M A := fun st => (Normal a, st).

Definition throw {A} (e : Exn) : M A := fun st => (Throw e, st).

Definition bind {A B} (m : M A) (k : A -> M B) : M B :=
  fun st =>
    match m st with
    | (Normal a, st') => k a st'
    | (Throw e, st') => (Throw e, st')
    end.

Definition lift {A} (c : Completion A) : M A := fun st => (c, st).

(** [try { m } catch (error) { handler }] *)
Definition try_catch {A} (m : M A) (handler : Exn -> M A) : M A :=
  fun st =>
    match m st with
    | (Normal a, st') => (Normal a, st')
    | (Throw e, st') => handler e st'
    end.

(** [console.warn(line)] *)
Definition warn (line : string) : M unit :=
  fun st => (Normal tt, mkState (world st) (trace st) (console st ++ [line])).

(** [await fetch(...)] *)
Definition do_fetch (req : Request) : M Response :=
  fun st =>
    let '(outcome, w) := fetch req (world st) in
    let st' := mkState w (trace st ++ [(req, outcome)]) (console st) in
    match outcome with
    | Rejected e => (Throw e, st')
    | Resolved r => (Normal r, st')
    end.

End Program.

Declare Scope js_scope.
Delimit Scope js_scope with js.
Notation "x <- m ;; k" := (bind m (fun x => k))
  (at level 61, m at next level, right associativity) : js_scope.
Notation "' pat <- m ;; k" := (bind m (fun pat => k))
  (at level 61, pat pattern, m at next level, right associativity) : js_scope.
Notation "m ;;; k" := (bind m (fun _ => k))
  (at level 61, right associativity) : js_scope.
Local Open Scope js_scope.

Section Resolver.
Context {H : Host}.

(** Headers of the JSON requests: bearer token and JSON content type. *)
Definition json_request (m : Method) (apiUrl apiToken : string)
  (ep : Endpoint) (b : Body) : Request :=
  mkRequest m apiUrl ep apiToken true b.

(** [fields.find(f => f.name === name)] on the elements of an array. *)
Fixpoint find_by_name (items : list Value) (name : string) : Completion Value :=
  match items with
  | [] => Normal VUndefined
  | f :: rest =>
      match get_prop f "name" with
      | Throw e => Throw e
      | Normal n =>
          if strict_eq_string n name then Normal f else find_by_name rest name
      end
  end.

Definition array_find (fields : Value) (name : string) : Completion Value :=
  match fields with
  | VArr items => find_by_name items name
  | VUndefined | VNull => get_prop fields "find"
  | _ => Throw (TypeError "fields.find is not a function")
  end.

(** The prefixed form: [field_] followed by something [isNaN] accepts. *)
Definition prefixed_id (s : string) : option JsNumber :=
  if startsWith s "field_" then
    let idPart := replace "field_" "" s in
    if negb (isNaN_string idPart) then Some (parseInt_string idPart) else None
  else None.

(** The name form: one request for the table's fields, then the first
    field of that name. *)
Definition resolve_by_name (tableId : Value) (name : string)
  (apiUrl apiToken : string) : M Value :=
  fieldsResponse <-
    do_fetch (json_request GET apiUrl apiToken (EpFields (to_string tableId)) NoBody) ;;
  if negb (ok fieldsResponse) then
    throw (Error ("Failed to get fields: " ++ number_to_string (status fieldsResponse)))
  else
    fields <- lift (json fieldsResponse) ;;
    field <- lift (array_find fields name) ;;
    if negb (truthy field) then
      throw (Error ("Field " ++ dquote ++ name ++ dquote ++ " not found in table "
                    ++ to_string tableId))
    else lift (get_prop field "id").

(** [getFieldId(tableId, fieldNameOrId, apiUrl, apiToken)] *)
Definition getFieldId (tableId fieldNameOrId : Value) (apiUrl apiToken : string)
  : M Value :=
  try_catch
    (if negb (isNaN fieldNameOrId) || regex_digits (to_string fieldNameOrId) then
       ret (VNum (parseInt fieldNameOrId))
     else
       match fieldNameOrId with
       | VStr s =>
           match prefixed_id s with
           | Some n => ret (VNum n)
           | None => resolve_by_name tableId s apiUrl apiToken
           end
       | VUndefined | VNull => lift (get_prop fieldNameOrId "startsWith")
       | _ => throw (TypeError "fieldNameOrId.startsWith is not a function")
       end)
    (fun error =>
       warn ("Field resolution failed: " ++ message error) ;;;
       ret VNull).

End Resolver.

(* ================================================================== *)
(** ** Upload and attach *)

(** The object the two upload functions return; an absent key is [None]. *)
Record OperationResult : Type := mkResult {
  success : bool;
  uploaded_file : Value;
  updated_row : option Value;
  row_update_error : option string
}.

Section Orchestrator.
Context {H : Host}.

Definition env_missing (env : Env) : bool :=
  negb (truthy (env_value (BASEROW_API_URL env)))
  || negb (truthy (env_value (BASEROW_API_TOKEN env))).

Definition env_error : Exn :=
  Error "BASEROW_API_URL and BASEROW_API_TOKEN environment variables are required".

(** [{ [`field_${fieldId}`]: [uploadResult] }] *)
Definition updatePayload (fieldId uploadResult : Value) : Value :=
  VObj [("field_" ++ to_string fieldId, VArr [uploadResult])].

Definition update_request (apiUrl apiToken : string)
  (tableId rowId fieldId uploadResult : Value) : Request :=
  json_request PATCH apiUrl apiToken
    (EpRow (to_string tableId) (to_string rowId))
    (JsonBody (updatePayload fieldId uploadResult)).

(** Step 2 of both upload functions, whose text is the same in the two:
    from [if (tableId && rowId && fieldName)] to the final [return]. *)
Definition update_row (apiUrl apiToken : string)
  (uploadResult tableId rowId fieldName : Value) : M OperationResult :=
  if truthy tableId && truthy rowId && truthy fieldName then
    fieldId <- getFieldId tableId fieldName apiUrl apiToken ;;
    if negb (truthy fieldId) then
      ret (mkResult true uploadResult None
             (Some ("Failed to resolve field " ++ dquote ++ to_string fieldName
                    ++ dquote ++ " in table " ++ to_string tableId)))
    else
      updateResponse <-
        do_fetch (update_request apiUrl apiToken tableId rowId fieldId uploadResult) ;;
      if negb (ok updateResponse) then
        errorText <- lift (text updateResponse) ;;
        warn ("Row update failed: " ++ number_to_string (status updateResponse)
              ++ " " ++ statusText updateResponse ++ ". " ++ errorText) ;;;
        ret (mkResult true uploadResult None
               (Some ("Failed to update row: "
                      ++ number_to_string (status updateResponse)
                      ++ " " ++ statusText updateResponse)))
      else
        updateResult <- lift (json updateResponse) ;;
        ret (mkResult true uploadResult (Some updateResult) None)
  else
    ret (mkResult true uploadResult None None).

(** Step 1, after the request: status check and body. *)
Definition upload_result (uploadResponse : Response) : M Value :=
  if negb (ok uploadResponse) then
    errorText <- lift (text uploadResponse) ;;
    throw (Error ("Upload failed: " ++ number_to_string (status uploadResponse)
                  ++ " " ++ statusText uploadResponse ++ ". " ++ errorText))
  else lift (json uploadResponse).

(** [{ url }], with [filename] added when truthy. *)
Definition uploadPayload (url filename : Value) : Value :=
  VObj (("url", url) :: if truthy filename then [("filename", filename)] else []).

Definition upload_url_request (apiUrl apiToken : string) (url filename : Value)
  : Request :=
  json_request POST apiUrl apiToken EpUploadViaUrl
    (JsonBody (uploadPayload url filename)).

(** [uploadImageUrl(url, filename, tableId, rowId, fieldName)] *)
Definition uploadImageUrl (env : Env) (url filename tableId rowId fieldName : Value)
  : M OperationResult :=
  if env_missing env then throw env_error
  else
    let apiUrl := env_string (BASEROW_API_URL env) in
    let apiToken := env_string (BASEROW_API_TOKEN env) in
    try_catch
      (uploadResponse <- do_fetch (upload_url_request apiUrl apiToken url filename) ;;
       uploadResult <- upload_result uploadResponse ;;
       update_row apiUrl apiToken uploadResult tableId rowId fieldName)
      (fun error => throw (Error ("Upload failed: " ++ message error))).

Definition upload_file_request (apiUrl apiToken : string)
  (fileBuffer : list Byte.byte) (originalFilename : Value) : Request :=
  mkRequest POST apiUrl EpUploadFile apiToken false
    (FormBody fileBuffer originalFilename).

(** [uploadFile(filePath, filename, tableId, rowId, fieldName)] *)
Definition uploadFile (env : Env) (filePath : string)
  (filename tableId rowId fieldName : Value) : M OperationResult :=
  if env_missing env then throw env_error
  else
    let apiUrl := env_string (BASEROW_API_URL env) in
    let apiToken := env_string (BASEROW_API_TOKEN env) in
    try_catch
      (if negb (existsSync filePath) then
         throw (Error ("File not found: " ++ filePath))
       else
         fileBuffer <- lift (readFileSync filePath) ;;
         let originalFilename := js_or filename (VStr (basename filePath)) in
         uploadResponse <-
           do_fetch (upload_file_request apiUrl apiToken fileBuffer originalFilename) ;;
         uploadResult <- upload_result uploadResponse ;;
         update_row apiUrl apiToken uploadResult tableId rowId fieldName)
      (fun error => throw (Error ("File upload failed: " ++ message error))).

End Orchestrator.

(* ================================================================== *)
(** ** Structure walk *)

Definition cbind {A B} (c : Completion A) (k : A -> Completion B) : Completion B :=
  match c with
  | Normal a => k a
  | Throw e => Throw e
  end.

Notation "x <~ c ;; k" := (cbind c (fun x => k))
  (at level 61, c at next level, right associativity) : js_scope.

(** The objects the walk builds.  A field carries, after its six fixed
    keys, the keys spread in for its type. *)
Record FieldInfo : Type := mkField {
  fld_id : Value;
  fld_name : Value;
  fld_type : Value;
  fld_primary : Value;
  fld_order : Value;
  fld_description : Value;
  fld_extra : list (string * Value)
}.

Record TableInfo : Type := mkTable {
  tbl_id : Value;
  tbl_name : Value;
  tbl_order : Value;
  fields : list FieldInfo;
  rowCount : Value;
  sampleRows : Value
}.

Record AppInfo : Type := mkApp {
  app_id : Value;
  app_name : Value;
  app_type : Value;
  tables : list TableInfo
}.

Record WorkspaceInfo : Type := mkWorkspace {
  ws_id : Value;
  ws_name : Value;
  applications : list AppInfo
}.

Record Summary : Type := mkSummary {
  totalWorkspaces : Value;
  totalApplications : Value;
  totalTables : Value;
  totalFields : Value
}.

Record Structure : Type := mkStructure {
  workspaces : list WorkspaceInfo;
  summary : Summary
}.

Record StructureResult : Type := mkStructureResult {
  read_success : bool;
  structure : Structure;
  read_message : string
}.

(** [x.length || 0] *)
Definition length_or_0 (x : Value) : Completion Value :=
  len <~ get_prop x "length" ;;
  Normal (js_or len (VNum (Num 0))).

(** [...(field.type === tag && { ... })] *)
Definition spread_when (type : Value) (tag : string)
  (props : Completion (list (string * Value))) : Completion (list (string * Value)) :=
  if strict_eq_string type tag then props else Normal [].

(** The callback of [fieldsData.map]. *)
Definition field_info (field : Value) : Completion FieldInfo :=
  id <~ get_prop field "id" ;;
  name <~ get_prop field "name" ;;
  type <~ get_prop field "type" ;;
  primary <~ get_prop field "primary" ;;
  order <~ get_prop field "order" ;;
  description <~ get_prop field "description" ;;
  file <~ spread_when type "file"
    (file_types <~ get_prop field "file_types" ;;
     multiple_files <~ get_prop field "multiple_files" ;;
     Normal [("fileTypes", js_or file_types VNull);
             ("multipleFiles", js_or multiple_files (VBool false))]) ;;
  single <~ spread_when type "single_select"
    (select_options <~ get_prop field "select_options" ;;
     Normal [("selectOptions", js_or select_options (VArr []))]) ;;
  multiple <~ spread_when type "multiple_select"
    (select_options <~ get_prop field "select_options" ;;
     Normal [("selectOptions", js_or select_options (VArr []))]) ;;
  link <~ spread_when type "link_row"
    (link_row_table <~ get_prop field "link_row_table" ;;
     link_row_table_id <~ get_prop field "link_row_table_id" ;;
     Normal [("linkRowTable", js_or link_row_table VNull);
             ("linkRowTableId", js_or link_row_table_id VNull)]) ;;
  Normal (mkField id name type (js_or primary (VBool false)) order
            (js_or description VNull) (file ++ single ++ multiple ++ link)).

Fixpoint map_fields (items : list Value) : Completion (list FieldInfo) :=
  match items with
  | [] => Normal []
  | f :: rest =>
      info <~ field_info f ;;
      infos <~ map_fields rest ;;
      Normal (info :: infos)
  end.

(** [fieldsData.map(field => ...)] *)
Definition array_map_fields (fieldsData : Value) : Completion (list FieldInfo) :=
  match fieldsData with
  | VArr items => map_fields items
  | VUndefined | VNull => f <~ get_prop fieldsData "map" ;; Normal []
  | _ => Throw (TypeError "fieldsData.map is not a function")
  end.

Section Walker.
Context {H : Host}.

(** [for (const x of items) body], the state of the enclosing objects
    being threaded through the iterations. *)
Fixpoint for_of {S : Type} (items : list Value) (body : Value -> S -> M S) (s : S)
  : M S :=
  match items with
  | [] => ret s
  | x :: rest => s' <- body x s ;; for_of rest body s'
  end.

(** The requests of the walk name no method: they are GET requests. *)
Definition get_request (apiUrl apiToken : string) (ep : Endpoint) : Request :=
  json_request GET apiUrl apiToken ep NoBody.

Definition add_fields (n : Value) (s : Summary) : Summary :=
  mkSummary (totalWorkspaces s) (totalApplications s) (totalTables s)
    (js_add (totalFields s) n).

Definition add_tables (n : Value) (s : Summary) : Summary :=
  mkSummary (totalWorkspaces s) (totalApplications s)
    (js_add (totalTables s) n) (totalFields s).

Definition add_applications (n : Value) (s : Summary) : Summary :=
  mkSummary (totalWorkspaces s) (js_add (totalApplications s) n)
    (totalTables s) (totalFields s).

(** The fields of one table: the new summary and [tableInfo.fields]. *)
Definition read_fields (apiUrl apiToken : string) (table_id : Value) (s : Summary)
  : M (Summary * list FieldInfo) :=
  fieldsResponse <- do_fetch (get_request apiUrl apiToken (EpFields (to_string table_id))) ;;
  if ok fieldsResponse then
    fieldsData <- lift (json fieldsResponse) ;;
    n <- lift (length_or_0 fieldsData) ;;
    infos <- lift (array_map_fields fieldsData) ;;
    ret (add_fields n s, infos)
  else ret (s, []).

(** The sample rows of one table: [rowCount] and [sampleRows]. *)
Definition read_rows (apiUrl apiToken : string) (includeRows maxRows table_id : Value)
  : M (Value * Value) :=
  if truthy includeRows then
    rowsResponse <-
      do_fetch (get_request apiUrl apiToken
                  (EpRows (to_string table_id) (to_string maxRows))) ;;
    if ok rowsResponse then
      rowsData <- lift (json rowsResponse) ;;
      count <- lift (get_prop rowsData "count") ;;
      results <- lift (get_prop rowsData "results") ;;
      ret (js_or count (VNum (Num 0)), js_or results (VArr []))
    else ret (VNum (Num 0), VArr [])
  else ret (VNum (Num 0), VArr []).

(** Body of [for (const table of tablesData || [])]. *)
Definition table_step (apiUrl apiToken : string) (includeRows maxRows : Value)
  (table : Value) (acc : Summary * list TableInfo) : M (Summary * list TableInfo) :=
  let '(s, tables_so_far) := acc in
  id <- lift (get_prop table "id") ;;
  name <- lift (get_prop table "name") ;;
  order <- lift (get_prop table "order") ;;
  '(s', infos) <- read_fields apiUrl apiToken id s ;;
  '(count, rows) <- read_rows apiUrl apiToken includeRows maxRows id ;;
  ret (s', (tables_so_far ++ [mkTable id name order infos count rows])%list).

(** Body of [for (const application of appsData || [])]. *)
Definition application_step (apiUrl apiToken : string) (includeRows maxRows : Value)
  (application : Value) (acc : Summary * list AppInfo) : M (Summary * list AppInfo) :=
  let '(s, apps_so_far) := acc in
  type <- lift (get_prop application "type") ;;
  if negb (strict_eq_string type "database") then ret acc
  else
    id <- lift (get_prop application "id") ;;
    name <- lift (get_prop application "name") ;;
    tablesResponse <- do_fetch (get_request apiUrl apiToken (EpTables (to_string id))) ;;
    if negb (ok tablesResponse) then
      warn ("Failed to fetch tables for application " ++ to_string id ++ ": "
            ++ number_to_string (status tablesResponse)) ;;;
      ret (s, (apps_so_far ++ [mkApp id name type []])%list)
    else
      tablesData <- lift (json tablesResponse) ;;
      n <- lift (length_or_0 tablesData) ;;
      items <- lift (iterate (js_or tablesData (VArr []))) ;;
      '(s', infos) <-
        for_of items (table_step apiUrl apiToken includeRows maxRows)
          (add_tables n s, []) ;;
      ret (s', (apps_so_far ++ [mkApp id name type infos])%list).

(** Body of [for (const workspace of workspacesData.results || [])]. *)
Definition workspace_step (apiUrl apiToken : string) (includeRows maxRows : Value)
  (workspace : Value) (st : Structure) : M Structure :=
  id <- lift (get_prop workspace "id") ;;
  name <- lift (get_prop workspace "name") ;;
  appsResponse <- do_fetch (get_request apiUrl apiToken (EpApplications (to_string id))) ;;
  if negb (ok appsResponse) then
    warn ("Failed to fetch applications for workspace " ++ to_string id ++ ": "
          ++ number_to_string (status appsResponse)) ;;;
    ret (mkStructure (workspaces st ++ [mkWorkspace id name []]) (summary st))
  else
    appsData <- lift (json appsResponse) ;;
    n <- lift (length_or_0 appsData) ;;
    items <- lift (iterate (js_or appsData (VArr []))) ;;
    '(s', infos) <-
      for_of items (application_step apiUrl apiToken includeRows maxRows)
        (add_applications n (summary st), []) ;;
    ret (mkStructure (workspaces st ++ [mkWorkspace id name infos]) s').

Definition found_message (s : Summary) : string :=
  "Found " ++ to_string (totalWorkspaces s) ++ " workspaces, "
  ++ to_string (totalApplications s) ++ " applications, "
  ++ to_string (totalTables s) ++ " tables, and "
  ++ to_string (totalFields s) ++ " fields".

(** A parameter with a default value: the default replaces [undefined]. *)
Definition default_to (d v : Value) : Value :=
  match v with VUndefined => d | _ => v end.

Definition zero : Value := VNum (Num 0).

(** The [try] block of [readBaserowStructure]. *)
Definition read_structure (apiUrl apiToken : string) (includeRows maxRows : Value)
  : M StructureResult :=
  workspacesResponse <- do_fetch (get_request apiUrl apiToken EpWorkspaces) ;;
  if negb (ok workspacesResponse) then
    throw (Error ("Failed to fetch workspaces: "
                  ++ number_to_string (status workspacesResponse) ++ " "
                  ++ statusText workspacesResponse))
  else
    workspacesData <- lift (json workspacesResponse) ;;
    results <- lift (get_prop workspacesData "results") ;;
    len <- lift (get_prop_opt results "length") ;;
    items <- lift (iterate (js_or results (VArr []))) ;;
    st <-
      for_of items (workspace_step apiUrl apiToken includeRows maxRows)
        (mkStructure [] (mkSummary (js_or len zero) zero zero zero)) ;;
    ret (mkStructureResult true st (found_message (summary st))).

(** [readBaserowStructure(includeRows = false, maxRows = 5)] *)
Definition readBaserowStructure (env : Env) (includeRows maxRows : Value)
  : M StructureResult :=
  if env_missing env then throw env_error
  else
    try_catch
      (read_structure (env_string (BASEROW_API_URL env))
         (env_string (BASEROW_API_TOKEN env))
         (default_to (VBool false) includeRows)
         (default_to (VNum (Num 5)) maxRows))
      (fun error =>
         throw (Error ("Failed to read Baserow structure: " ++ message error))).

End Walker.

(* ================================================================== *)
(** ** Vocabulary of the statements *)

(** What a string of decimal digits denotes, by position. *)
Fixpoint digits_value (s : string) : Z :=
  match s with
  | EmptyString => 0
  | String c rest => digit_val c * 10 ^ zstrlen rest + digits_value rest
  end.

Fixpoint no_ws (s : string) : bool :=
  match s with
  | EmptyString => true
  | String c rest => negb (is_ws c) && no_ws rest
  end.

(** How many entities a listing returned: the elements the loop over
    [body || []] visits. *)
Definition visited (body : Value) : Z :=
  match iterate (js_or body (VArr [])) with
  | Normal items => zlength items
  | Throw _ => 0
  end.

(** The applications one entry of the trace returned: those of a
    successful applications listing, none for any other entry. *)
Definition applications_returned (entry : Request * FetchOutcome) : Z :=
  match endpoint (fst entry), snd entry with
  | EpApplications _, Resolved r =>
      if ok r then
        match json r with
        | Normal body => visited body
        | Throw _ => 0
        end
      else 0
  | _, _ => 0
  end.

Definition total {A : Type} (f : A -> Z) (l : list A) : Z :=
  fold_right (fun x acc => f x + acc) 0 l.

Definition databases_only (apps : list AppInfo) : Prop :=
  Forall (fun a => app_type a = VStr "database") apps.

Definition nested_databases (S : Structure) : Prop :=
  forall x a, In x (workspaces S) -> In a (applications x) ->
              app_type a = VStr "database".

(** An entity of a listing: anything but [null] and [undefined]. *)
Definition entity (v : Value) : Prop := is_nullish v = false.

Definition entity_list (v : Value) : Prop :=
  exists items, v = VArr items /\ Forall entity items.

(** A response the walk can digest: the root listing succeeds and has a
    [results] array; a listing below the root is refused or is an array
    of entities; a page of rows is refused or is some object. *)
Definition answers (ep : Endpoint) (r : Response) : Prop :=
  match ep with
  | EpWorkspaces =>
      ok r = true
      /\ exists body results,
          json r = Normal body /\ get_prop body "results" = Normal results
          /\ entity_list results
  | EpApplications _ | EpTables _ | EpFields _ =>
      ok r = false \/ exists body, json r = Normal body /\ entity_list body
  | EpRows _ _ =>
      ok r = false \/ exists body, json r = Normal body /\ entity body
  | _ => True
  end.

Section Vocabulary.
Context {H : Host}.

(** The field references that are an identifier already: a string of
    digits, a number printed as a string of digits, or [field_] followed
    by digits; and the identifier each one denotes. *)
Inductive NumericRef : Value -> Z -> Prop :=
| numeric_string (s : string) :
    regex_digits s = true -> NumericRef (VStr s) (digits_value s)
| numeric_number (z : Z) :
    regex_digits (number_to_string z) = true ->
    digits_value (number_to_string z) = z ->
    NumericRef (VNum (Num z)) z
| prefixed_digits (s : string) :
    regex_digits s = true -> NumericRef (VStr ("field_" ++ s)) (digits_value s).

(** The two texts a [row_update_error] can carry. *)
Definition resolve_message (fieldName tableId : Value) : string :=
  "Failed to resolve field " ++ dquote ++ to_string fieldName ++ dquote
  ++ " in table " ++ to_string tableId.

Definition patch_message (r : Response) : string :=
  "Failed to update row: " ++ number_to_string (status r) ++ " " ++ statusText r.

(** What is left of an upload function once its upload has succeeded:
    step 2 under the function's [catch], which rethrows with [prefix]. *)
Definition attach_phase (prefix apiUrl apiToken : string)
  (uploadResult tableId rowId fieldName : Value) : M OperationResult :=
  try_catch (update_row apiUrl apiToken uploadResult tableId rowId fieldName)
    (fun error => throw (Error (prefix ++ message error))).

(** Why the root request failed, if it did: the transport's message, or
    the text made of the response's status. *)
Definition root_failure (outcome : FetchOutcome) : option string :=
  match outcome with
  | Rejected e => Some (message e)
  | Resolved r =>
      if ok r then None
      else Some ("Failed to fetch workspaces: " ++ number_to_string (status r)
                 ++ " " ++ statusText r)
  end.

(** A computation with no handler inside: what it adds to the trace, and
    a rejected request among it is what the computation throws. *)
Definition propagates {A : Type} (m : M A) : Prop :=
  forall st : State,
    exists new : list (Request * FetchOutcome),
      trace (snd (m st)) = (trace st ++ new)%list
      /\ forall req e, In (req, Rejected e) new -> fst (m st) = Throw e.

(** A backend that always responds, with or without success. *)
Definition responsive : Prop :=
  forall (req : Request) (w : World),
    exists r w', fetch req w = (Resolved r, w') /\ answers (endpoint req) r.

(** From [st] to [st'] the trace grew, by no applications listing. *)
Definition quiet (st st' : State) : Prop :=
  exists new, trace st' = (trace st ++ new)%list
              /\ total applications_returned new = 0.

End Vocabulary.

(* ================================================================== *)
(** ** A scripted host

    The host of the repository's test-suite: [fetch] is a mock answering
    from a queue of prepared outcomes ([mockResolvedValueOnce],
    [mockRejectedValueOnce]), whatever the request.  Once the queue is
    empty the mock returns [undefined], and reading [.ok] of it throws. *)

Definition scripted_fetch (req : Request) (queue : list FetchOutcome)
  : FetchOutcome * list FetchOutcome :=
  match queue with
  | [] => (Rejected (TypeError "Cannot read properties of undefined (reading 'ok')"), [])
  | outcome :: rest => (outcome, rest)
  end.

(** Last segment of a slash-separated path. *)
Fixpoint last_segment (path acc : string) : string :=
  match path with
  | EmptyString => acc
  | String "/" rest => last_segment rest EmptyString
  | String c rest => last_segment rest (acc ++ String c EmptyString)
  end.

#[local] Instance scripted : Host := {|
  World := list FetchOutcome;
  fetch := scripted_fetch;
  number_to_string := decimal;
  existsSync := fun path => (path =? "/tmp/photo.jpg")%string;
  readFileSync := fun _ => Normal [Byte.xff; Byte.xd8];
  basename := fun path => last_segment path EmptyString
|}.

Definition test_env : Env :=
  mkEnv (Some "https://api.baserow.io") (Some "test_token").

Definition start (queue : list FetchOutcome) : State (H := scripted) :=
  mkState (H := scripted) queue [] [].

(** [{ ok: true, json: async () => v }] *)
Definition ok_json (v : Value) : FetchOutcome :=
  Resolved (mkResponse true 200 "OK" (Normal v) (Normal "")).

(** [{ ok: false, status, statusText, text: async () => t }] *)
Definition failed (code : Z) (reason t : string) : FetchOutcome :=
  Resolved (mkResponse false code reason
              (Throw (Error "Unexpected end of JSON input")) (Normal t)).

Definition int (z : Z) : Value := VNum (Num z).

Definition mockUploadData : Value :=
  VObj [("name", VStr "uploaded_image.jpg");
        ("url", VStr "https://api.baserow.io/media/user_files/test.jpg")].

Definition mockFieldsData : Value :=
  VArr [VObj [("id", int 789); ("name", VStr "image_field"); ("type", VStr "file")]].

Definition mockRowData : Value :=
  VObj [("id", int 456); ("field_789", VArr [mockUploadData])].

Definition mockUrl : Value := VStr "https://example.com/image.jpg".

(** A table one of whose fields is called ["12.5"]. *)
Definition decimalNameFields : Value :=
  VArr [VObj [("id", int 7); ("name", VStr "12.5"); ("type", VStr "file")]].

Definition twoWorkspaces : Value :=
  VObj [("results", VArr [VObj [("id", int 1); ("name", VStr "W1")];
                          VObj [("id", int 2); ("name", VStr "W2")]])].

Definition oneDatabase : Value :=
  VArr [VObj [("id", int 101); ("name", VStr "App"); ("type", VStr "database")]].

Definition oneTable : Value :=
  VArr [VObj [("id", int 201); ("name", VStr "Table"); ("order", int 0)]].

(** Upload, resolution by name and PATCH all succeed. *)
Definition attach_run : Completion OperationResult * State (H := scripted) :=
  uploadImageUrl test_env mockUrl VUndefined (VStr "123") (VStr "456")
    (VStr "image_field")
    (start [ok_json mockUploadData; ok_json mockFieldsData; ok_json mockRowData]).

Definition attach_result : OperationResult :=
  mkResult true mockUploadData (Some mockRowData) None.

(** The upload succeeds, then the PATCH request is rejected by the
    transport. *)
Definition rejected_patch_run : Completion OperationResult * State (H := scripted) :=
  uploadImageUrl test_env mockUrl VUndefined (VStr "123") (VStr "456") (VStr "789")
    (start [ok_json mockUploadData; Rejected (Error "Network error")]).

(** The upload succeeds, then the PATCH response has an unreadable body. *)
Definition malformed_patch_run : Completion OperationResult * State (H := scripted) :=
  uploadFile test_env "/tmp/photo.jpg" VUndefined (VStr "123") (VStr "456")
    (VStr "field_789")
    (start [ok_json mockUploadData;
            Resolved (mkResponse true 200 "OK" (Throw (Error "Invalid JSON"))
                        (Normal "<html>"))]).

Definition called (st : State (H := scripted)) : list (Method * Endpoint) :=
  map (fun entry => (method (fst entry), endpoint (fst entry))) (trace st).


(** The applications request of the first workspace is rejected by the
    transport. *)
Definition rejected_applications_run : Completion StructureResult * State (H := scripted) :=
  readBaserowStructure test_env VUndefined VUndefined
    (start [ok_json twoWorkspaces; Rejected (Error "Network error")]).

(** The fields request of a table is rejected by the transport. *)
Definition rejected_fields_run : Completion StructureResult * State (H := scripted) :=
  readBaserowStructure test_env VUndefined VUndefined
    (start [ok_json twoWorkspaces; ok_json oneDatabase; ok_json oneTable;
            Rejected (Error "socket hang up")]).

(** The root request is refused. *)
Definition unauthorized_run : Completion StructureResult * State (H := scripted) :=
  readBaserowStructure test_env VUndefined VUndefined
    (start [failed 401 "Unauthorized" ""]).

(* ================================================================== *)
(** ** A small backend

    Two workspaces: the applications of the first cannot be listed; the
    second holds a database with one table and a form.  Rows are not
    served. *)

Definition backend_answer (ep : Endpoint) : FetchOutcome :=
  match ep with
  | EpWorkspaces => ok_json twoWorkspaces
  | EpApplications id =>
      if (id =? "2")%string then
        ok_json (VArr [VObj [("id", int 101); ("name", VStr "App"); ("type", VStr "database")];
                       VObj [("id", int 102); ("name", VStr "Survey"); ("type", VStr "form")]])
      else failed 404 "Not Found" ""
  | EpTables _ => ok_json oneTable
  | EpFields _ => ok_json mockFieldsData
  | EpRows _ _ => failed 403 "Forbidden" ""
  | EpUploadViaUrl | EpUploadFile => ok_json mockUploadData
  | EpRow _ _ => ok_json mockRowData
  end.

Definition backend : Host := {|
  World := unit;
  fetch := fun req w => (backend_answer (endpoint req), w);
  number_to_string := decimal;
  existsSync := fun _ => false;
  readFileSync := fun _ => Throw (Error "ENOENT");
  basename := fun path => last_segment path EmptyString
|}.

Definition backend_start : State (H := backend) := mkState (H := backend) tt [] [].

Definition backend_walk : Completion StructureResult * State (H := backend) :=
  readBaserowStructure (H := backend) test_env VUndefined VUndefined backend_start.

(** The walk of [backend], as a value. *)
Definition backend_result : StructureResult :=
  match fst backend_walk with
  | Normal res => res
  | Throw _ => mkStructureResult false (mkStructure [] (mkSummary zero zero zero zero)) ""
  end.

(* ================================================================== *)
(** ** The tool layer: the two upload tools

    The branches [upload_image_url] and [upload_file] of the request
    handler.  The schema parser is the host's ([zod]'s [safeParse]); what
    the schemas declare is the type of the parsed data: a required string
    and four optional strings.  The pictographs of the messages are given
    as strings. *)

Inductive SafeParse (A : Type) : Type :=
| ParseSuccess (data : A)
| ParseFailure (error_message : string).
Arguments ParseSuccess {A} data.
Arguments ParseFailure {A} error_message.

(** [parsed.data] of [UploadImageArgsSchema] ([source] is [url]) and of
    [UploadFileArgsSchema] ([source] is [filePath]). *)
Record UploadArgs : Type := mkArgs {
  source : string;
  arg_filename : option string;
  arg_tableId : option string;
  arg_rowId : option string;
  arg_fieldName : option string
}.

Record Glyphs : Type := mkGlyphs {
  glyph_check : string;
  glyph_folder : string;
  glyph_link : string;
  glyph_memo : string;
  glyph_warning : string;
  glyph_cross : string
}.

(** [{ content: [{ type: "text", text }], isError }] *)
Record ToolResult : Type := mkToolResult {
  content_text : string;
  isError : bool
}.

Definition nl : string := String (ascii_of_nat 10) EmptyString.

(** An optional argument as the value destructuring gives. *)
Definition optional (o : option string) : Value :=
  match o with Some s => VStr s | None => VUndefined end.

Definition row_value (o : option Value) : Value :=
  match o with Some v => v | None => VUndefined end.

Definition validation_error : Exn :=
  Error "If providing table update parameters, tableId, rowId, and fieldName are all required".

(** [(tableId || rowId || fieldName) && !(tableId && rowId && fieldName)] *)
Definition partial_triple (tableId rowId fieldName : Value) : bool :=
  (truthy tableId || truthy rowId || truthy fieldName)
  && negb (truthy tableId && truthy rowId && truthy fieldName).

Section ToolLayer.
Context {H : Host}.
Variable g : Glyphs.

(** The success message, line by line. *)
Definition upload_message (what from : string) (rowId tableId : Value)
  (result : OperationResult) : Completion string :=
  let message := glyph_check g ++ " Successfully uploaded " ++ what ++ " from " ++ from in
  message <~
    (if truthy (uploaded_file result) then
       name <~ get_prop (uploaded_file result) "name" ;;
       url <~ get_prop (uploaded_file result) "url" ;;
       Normal (message ++ nl ++ glyph_folder g ++ " File ID: " ++ to_string name
               ++ nl ++ glyph_link g ++ " File URL: " ++ to_string url)
     else Normal message) ;;
  let message :=
    if truthy (row_value (updated_row result)) then
      message ++ nl ++ glyph_memo g ++ " Updated row " ++ to_string rowId
      ++ " in table " ++ to_string tableId
    else message in
  let message :=
    if truthy (optional (row_update_error result)) then
      message ++ nl ++ glyph_warning g ++ " "
      ++ to_string (optional (row_update_error result))
    else message in
  Normal message.

Definition error_result (error : Exn) : ToolResult :=
  mkToolResult (glyph_cross g ++ " Error: " ++ message error) true.

(** The part common to the two branches, from the parsed data on;
    [upload] is the function the branch calls on its first argument. *)
Definition upload_tool (what : string)
  (upload : string -> Value -> Value -> Value -> Value -> M OperationResult)
  (parsed : SafeParse UploadArgs) : M ToolResult :=
  match parsed with
  | ParseFailure error_message => throw (Error ("Invalid arguments: " ++ error_message))
  | ParseSuccess data =>
      let filename := optional (arg_filename data) in
      let tableId := optional (arg_tableId data) in
      let rowId := optional (arg_rowId data) in
      let fieldName := optional (arg_fieldName data) in
      if partial_triple tableId rowId fieldName then throw validation_error
      else
        try_catch
          (result <- upload (source data) filename tableId rowId fieldName ;;
           message <- lift (upload_message what (source data) rowId tableId result) ;;
           ret (mkToolResult message false))
          (fun error => ret (error_result error))
  end.

(** [name === "upload_image_url"] *)
Definition upload_image_url_tool (env : Env) : SafeParse UploadArgs -> M ToolResult :=
  upload_tool "image" (fun url => uploadImageUrl env (VStr url)).

(** [name === "upload_file"] *)
Definition upload_file_tool (env : Env) : SafeParse UploadArgs -> M ToolResult :=
  upload_tool "file" (uploadFile env).

End ToolLayer.

(* ================================================================== *)
(** ** Further vocabulary *)

(** The listings a walk may ask for. *)
Definition is_listing (ep : Endpoint) : Prop :=
  match ep with
  | EpWorkspaces | EpApplications _ | EpTables _ | EpFields _ | EpRows _ _ => True
  | _ => False
  end.

Definition is_rows (ep : Endpoint) : Prop :=
  match ep with EpRows _ _ => True | _ => False end.

(** [application.type !== 'database'] does not skip the entry. *)
Definition is_database (application : Value) : bool :=
  match get_prop application "type" with
  | Normal type => strict_eq_string type "database"
  | Throw _ => false
  end.

(** What is nested under an application and under a workspace. *)
Definition fields_in_table (t : TableInfo) : Z := zlength (fields t).
Definition tables_in_app (a : AppInfo) : Z := zlength (tables a).
Definition fields_in_app (a : AppInfo) : Z := total fields_in_table (tables a).
Definition apps_in_workspace (w : WorkspaceInfo) : Z := zlength (applications w).
Definition tables_in_workspace (w : WorkspaceInfo) : Z := total tables_in_app (applications w).
Definition fields_in_workspace (w : WorkspaceInfo) : Z := total fields_in_app (applications w).

(** A table without row data. *)
Definition bare_table (t : TableInfo) : Prop :=
  rowCount t = VNum (Num 0) /\ sampleRows t = VArr [].

(** The summary moved from [s] to [s']: the workspace count stayed, the
    three other counters, when numbers, grew by [da], [dt] and [df]. *)
Definition advanced (s s' : Summary) (da dt df : Z) : Prop :=
  totalWorkspaces s' = totalWorkspaces s
  /\ (forall n, totalApplications s = VNum (Num n) ->
                totalApplications s' = VNum (Num (n + da)))
  /\ (forall n, totalTables s = VNum (Num n) -> totalTables s' = VNum (Num (n + dt)))
  /\ (forall n, totalFields s = VNum (Num n) -> totalFields s' = VNum (Num (n + df))).

(** The object built for an entry of a listing. *)
Definition table_of (includeRows : Value) (x : Value) (t : TableInfo) : Prop :=
  get_prop x "id" = Normal (tbl_id t)
  /\ get_prop x "name" = Normal (tbl_name t)
  /\ get_prop x "order" = Normal (tbl_order t)
  /\ (truthy includeRows = false -> bare_table t).

Definition app_of (includeRows : Value) (x : Value) (a : AppInfo) : Prop :=
  get_prop x "id" = Normal (app_id a)
  /\ get_prop x "name" = Normal (app_name a)
  /\ get_prop x "type" = Normal (app_type a)
  /\ (truthy includeRows = false -> Forall bare_table (tables a)).

Definition workspace_of (includeRows : Value) (x : Value) (w : WorkspaceInfo) : Prop :=
  get_prop x "id" = Normal (ws_id w)
  /\ get_prop x "name" = Normal (ws_name w)
  /\ (truthy includeRows = false ->
      Forall (fun a => Forall bare_table (tables a)) (applications w)).

(** The extension keys of a field, by its type. *)
Definition extension_keys (type : Value) : list string :=
  if strict_eq_string type "file" then ["fileTypes"; "multipleFiles"]
  else if strict_eq_string type "single_select" then ["selectOptions"]
  else if strict_eq_string type "multiple_select" then ["selectOptions"]
  else if strict_eq_string type "link_row" then ["linkRowTable"; "linkRowTableId"]
  else [].

(** Reading a [Decimal.uint] digit by digit. *)
Fixpoint uint_value (d : Decimal.uint) (acc : Z) : Z :=
  match d with
  | Decimal.Nil => acc
  | Decimal.D0 d => uint_value d (acc * 10)
  | Decimal.D1 d => uint_value d (acc * 10 + 1)
  | Decimal.D2 d => uint_value d (acc * 10 + 2)
  | Decimal.D3 d => uint_value d (acc * 10 + 3)
  | Decimal.D4 d => uint_value d (acc * 10 + 4)
  | Decimal.D5 d => uint_value d (acc * 10 + 5)
  | Decimal.D6 d => uint_value d (acc * 10 + 6)
  | Decimal.D7 d => uint_value d (acc * 10 + 7)
  | Decimal.D8 d => uint_value d (acc * 10 + 8)
  | Decimal.D9 d => uint_value d (acc * 10 + 9)
  end.

Section FurtherVocabulary.
Context {H : Host}.

(** Every entry a computation adds to the trace satisfies [P]. *)
Definition emits (P : Request * FetchOutcome -> Prop) {A : Type} (m : M A) : Prop :=
  forall st : State,
    exists new, trace (snd (m st)) = (trace st ++ new)%list /\ Forall P new.

(** A request of the walk: a GET without body, to a listing, on the
    configured base URL and with the configured token. *)
Definition walk_request (apiUrl apiToken : string) (entry : Request * FetchOutcome) : Prop :=
  method (fst entry) = GET
  /\ body (fst entry) = NoBody
  /\ base_url (fst entry) = apiUrl
  /\ token (fst entry) = apiToken
  /\ is_listing (endpoint (fst entry)).

(** Why looking the fields up failed, if it did. *)
Definition lookup_failure (outcome : FetchOutcome) : option string :=
  match outcome with
  | Rejected e => Some (message e)
  | Resolved r =>
      if ok r then
        match json r with
        | Throw e => Some (message e)
        | Normal _ => None
        end
      else Some ("Failed to get fields: " ++ number_to_string (status r))
  end.

(** Why the upload failed, if it did. *)
Definition upload_failure (outcome : FetchOutcome) : option string :=
  match outcome with
  | Rejected e => Some (message e)
  | Resolved r =>
      if ok r then
        match json r with
        | Throw e => Some (message e)
        | Normal _ => None
        end
      else
        match text r with
        | Throw e => Some (message e)
        | Normal t =>
            Some ("Upload failed: " ++ number_to_string (status r) ++ " "
                  ++ statusText r ++ ". " ++ t)
        end
  end.

(** A reference [getFieldId] answers by itself, and its answer. *)
Definition resolves_directly (ref : Value) (n : JsNumber) : Prop :=
  (negb (isNaN ref) || regex_digits (to_string ref) = true /\ n = parseInt ref)
  \/ (exists s, ref = VStr s
               /\ negb (isNaN ref) || regex_digits (to_string ref) = false
               /\ prefixed_id s = Some n).

End FurtherVocabulary.

(** Placeholders for the pictographs. *)
Definition ascii_glyphs : Glyphs := mkGlyphs "[ok]" "[file]" "[url]" "[row]" "[!]" "[x]".




Section ProtocolVocabulary.
Context {H : Host}.

(** The order of the requests of an upload: at most one upload, then at
    most one lookup of the table's fields, then at most one PATCH of the
    row, whose payload has one key; and nothing after an upload that did
    not succeed, nothing at all after it without the three identifiers. *)
Definition upload_protocol (apiUrl apiToken : string)
  (tableId rowId fieldName : Value)
  (before after : list (Request * FetchOutcome)) : Prop :=
  exists uploads lookups patches,
    after = (before ++ uploads ++ lookups ++ patches)%list
    /\ (List.length uploads <= 1)%nat
    /\ (List.length lookups <= 1)%nat
    /\ (List.length patches <= 1)%nat
    /\ Forall (fun e => method (fst e) = POST
                        /\ (endpoint (fst e) = EpUploadViaUrl
                            \/ endpoint (fst e) = EpUploadFile)) uploads
    /\ Forall (fun e => fst e = json_request GET apiUrl apiToken
                                  (EpFields (to_string tableId)) NoBody) lookups
    /\ Forall (fun e => method (fst e) = PATCH
                        /\ endpoint (fst e) = EpRow (to_string tableId) (to_string rowId)
                        /\ exists fieldId uploadResult,
                            body (fst e)
                            = JsonBody (VObj [("field_" ++ to_string fieldId,
                                               VArr [uploadResult])])) patches
    /\ ((lookups ++ patches)%list <> [] ->
        truthy tableId && truthy rowId && truthy fieldName = true
        /\ exists req up, uploads = [(req, Resolved up)] /\ ok up = true).

End ProtocolVocabulary.


Section ListingVocabulary.
Context {H : Host}.

(** [children] is what the walk built from the answer to a request to
    [ep] among [entries]: nothing if the listing was refused; otherwise
    one child, in order, for each element of the listing that [keep]
    retains. *)
Definition listed_under {A : Type} (entries : list (Request * FetchOutcome))
  (ep : Endpoint) (keep : Value -> bool) (built : Value -> A -> Prop)
  (children : list A) : Prop :=
  exists req r,
    In (req, Resolved r) entries
    /\ endpoint req = ep
    /\ if ok r then
         exists data items,
           json r = Normal data
           /\ iterate (js_or data (VArr [])) = Normal items
           /\ Forall2 built (filter keep items) children
       else children = [].

Definition every (x : Value) : bool := true.

Definition field_of (field : Value) (info : FieldInfo) : Prop :=
  field_info field = Normal info.

Definition mirrors_table (entries : list (Request * FetchOutcome)) (t : TableInfo) : Prop :=
  listed_under entries (EpFields (to_string (tbl_id t))) every field_of (fields t).

Definition mirrors_app (includeRows : Value) (entries : list (Request * FetchOutcome))
  (a : AppInfo) : Prop :=
  listed_under entries (EpTables (to_string (app_id a))) every (table_of includeRows)
    (tables a)
  /\ Forall (mirrors_table entries) (tables a).

Definition mirrors_workspace (includeRows : Value)
  (entries : list (Request * FetchOutcome)) (w : WorkspaceInfo) : Prop :=
  listed_under entries (EpApplications (to_string (ws_id w))) is_database
    (app_of includeRows) (applications w)
  /\ Forall (mirrors_app includeRows entries) (applications w).

(** The four counters against the structure they come with. *)
Definition counts (S : Structure) : Prop :=
  totalWorkspaces (summary S) = VNum (Num (zlength (workspaces S)))
  /\ totalTables (summary S) = VNum (Num (total tables_in_workspace (workspaces S)))
  /\ totalFields (summary S) = VNum (Num (total fields_in_workspace (workspaces S)))
  /\ exists n, totalApplications (summary S) = VNum (Num n)
               /\ total apps_in_workspace (workspaces S) <= n.

End ListingVocabulary.


Section CredentialVocabulary.
Context {H : Host}.

(** A request to the configured backend with the configured token. *)
Definition to_backend (apiUrl apiToken : string) (entry : Request * FetchOutcome) : Prop :=
  base_url (fst entry) = apiUrl /\ token (fst entry) = apiToken.

(** A field object of the walk leaves no key undefined that the code
    gives a default. *)
Definition defaults_filled (info : FieldInfo) : Prop :=
  fld_primary info <> VUndefined
  /\ fld_primary info <> VNull
  /\ fld_description info <> VUndefined
  /\ Forall (fun kv => snd kv <> VUndefined) (fld_extra info).

End CredentialVocabulary.


(** An optional argument that was given, and is not the empty string. *)
Definition given (o : option string) : bool :=
  match o with
  | Some s => negb (s =? "")%string
  | None => false
  end.

Section ToolVocabulary.
Context {H : Host}.
Variable g : Glyphs.

(** What a tool made of the outcome of its upload function: a thrown
    error becomes an error result; a returned record a result that is not
    an error, whose text opens with the success line and closes with the
    warning line when the record has a [row_update_error]. *)
Definition reports (what from : string) (outcome : Completion OperationResult)
  (result : ToolResult) : Prop :=
  match outcome with
  | Throw e => result = error_result g e
  | Normal record =>
      isError result = false
      /\ (exists rest,
            content_text result
            = ((glyph_check g ++ " Successfully uploaded " ++ what ++ " from " ++ from)
               ++ rest)%string)
      /\ forall cause,
           row_update_error record = Some cause -> cause <> EmptyString ->
           exists before,
             content_text result
             = (before ++ nl ++ glyph_warning g ++ " " ++ cause)%string
  end.

End ToolVocabulary.


Section DegradeVocabulary.
Context {H : Host}.

(** The listing an entry of the trace refused: the endpoint of a request
    answered with a status that is not a success. *)
Definition refused (entry : Request * FetchOutcome) : option Endpoint :=
  match snd entry with
  | Resolved r => if ok r then None else Some (endpoint (fst entry))
  | Rejected _ => None
  end.

(** The entity whose listing [ep] was refused is in the output, with that
    level empty: the table of a refused fields listing has no fields (of
    a refused page of rows, no rows), the application of a refused tables
    listing no tables, the workspace of a refused applications listing no
    applications. *)
Definition table_degraded (ep : Endpoint) (t : TableInfo) : Prop :=
  match ep with
  | EpFields id => to_string (tbl_id t) = id /\ fields t = []
  | EpRows id _ => to_string (tbl_id t) = id /\ bare_table t
  | _ => False
  end.

Definition app_degraded (ep : Endpoint) (a : AppInfo) : Prop :=
  match ep with
  | EpTables id => to_string (app_id a) = id /\ tables a = []
  | _ => Exists (table_degraded ep) (tables a)
  end.

Definition workspace_degraded (ep : Endpoint) (w : WorkspaceInfo) : Prop :=
  match ep with
  | EpApplications id => to_string (ws_id w) = id /\ applications w = []
  | _ => Exists (app_degraded ep) (applications w)
  end.

Definition degrades (output : list WorkspaceInfo) (entry : Request * FetchOutcome) : Prop :=
  forall ep, refused entry = Some ep -> Exists (workspace_degraded ep) output.

End DegradeVocabulary.



(* ================================================================== *)
(** ** Digits, [parseInt] and [isNaN] *)

Unset Implicit Arguments.

Lemma digit_cases (c : ascii) :
  is_digit c = true ->
  In c ["0"; "1"; "2"; "3"; "4"; "5"; "6"; "7"; "8"; "9"]%char.
Proof.
  destruct c as [b0 b1 b2 b3 b4 b5 b6 b7].
  destruct b0, b1, b2, b3, b4, b5, b6, b7; vm_compute; intro D;
    try discriminate D; tauto.
Qed.

Lemma is_digit_radix (c : ascii) :
  is_digit c = true -> radix_val 10 c = Some (digit_val c).
Proof.
  intro D. apply digit_cases in D. simpl in D.
  repeat (destruct D as [<- | D]; [reflexivity|]). contradiction.
Qed.

Lemma is_digit_not_ws (c : ascii) : is_digit c = true -> is_ws c = false.
Proof.
  intro D. apply digit_cases in D. simpl in D.
  repeat (destruct D as [<- | D]; [reflexivity|]). contradiction.
Qed.

Lemma all_digits_no_ws (s : string) : all_digits s = true -> no_ws s = true.
Proof.
  induction s as [|c r IH]; simpl; [reflexivity|].
  intro D. apply andb_true_iff in D as [Dc Dr].
  rewrite (is_digit_not_ws _ Dc), (IH Dr). reflexivity.
Qed.

Lemma zstrlen_cons (c : ascii) (s : string) : zstrlen (String c s) = zstrlen s + 1.
Proof. unfold zstrlen. simpl String.length. lia. Qed.

Lemma zstrlen_nonneg (s : string) : 0 <= zstrlen s.
Proof. unfold zstrlen. lia. Qed.

(** Reading a digit string to its end gives its positional value. *)
Lemma span_radix_digits (s : string) :
  all_digits s = true ->
  forall seen acc,
    span_radix 10 s seen acc
    = (seen || negb (s =? "")%string, acc * 10 ^ zstrlen s + digits_value s, "").
Proof.
  induction s as [|c r IH]; intros D seen acc.
  - simpl. rewrite orb_false_r. do 2 f_equal. unfold zstrlen. simpl. lia.
  - simpl in D. apply andb_true_iff in D as [Dc Dr].
    cbn [span_radix]. rewrite (is_digit_radix _ Dc), (IH Dr).
    rewrite orb_true_r. cbn [digits_value]. rewrite zstrlen_cons.
    rewrite Z.pow_add_r by (pose proof (zstrlen_nonneg r); lia).
    f_equal. f_equal. change (10 ^ 1) with 10. ring.
Qed.

Lemma rev_string_rev (s a b : string) :
  rev_string (rev_string s a) b = rev_string a (s ++ b).
Proof.
  revert a b. induction s as [|c r IH]; intros a b; simpl; [reflexivity|].
  rewrite IH. reflexivity.
Qed.

Lemma no_ws_rev (s acc : string) :
  no_ws s = true -> no_ws acc = true -> no_ws (rev_string s acc) = true.
Proof.
  revert acc. induction s as [|c r IH]; intros acc Hs Ha; simpl; [exact Ha|].
  simpl in Hs. apply andb_true_iff in Hs as [Hc Hr].
  apply IH; [exact Hr|]. simpl. rewrite Hc, Ha. reflexivity.
Qed.

Lemma trim_start_no_ws (s : string) : no_ws s = true -> trim_start s = s.
Proof.
  destruct s as [|c r]; simpl; [reflexivity|].
  intro N. apply andb_true_iff in N as [Nc _].
  apply negb_true_iff in Nc. rewrite Nc. reflexivity.
Qed.

Lemma append_empty_r (s : string) : (s ++ "")%string = s.
Proof. induction s as [|c r IH]; simpl; [reflexivity|]. rewrite IH. reflexivity. Qed.

(** A string without white space is its own trim. *)
Lemma trim_no_ws (s : string) : no_ws s = true -> trim s = s.
Proof.
  intro N. unfold trim, trim_end. rewrite (trim_start_no_ws _ N).
  rewrite (trim_start_no_ws (rev_string s "")) by (apply no_ws_rev; [exact N|reflexivity]).
  rewrite rev_string_rev. simpl. apply append_empty_r.
Qed.

(** [parseInt] reads a digit string as the number it denotes. *)
Lemma parseInt_string_digits (s : string) :
  regex_digits s = true -> parseInt_string s = Num (digits_value s).
Proof.
  unfold regex_digits. destruct s as [|c r]; [discriminate|].
  cbn [String.eqb negb andb]. intro D.
  pose proof (span_radix_digits _ D false 0) as Sp.
  cbn [all_digits] in D. apply andb_true_iff in D as [Dc Dr].
  unfold parseInt_string. cbn [trim_start]. rewrite (is_digit_not_ws _ Dc).
  pose proof (digit_cases _ Dc) as Cs. simpl in Cs.
  destruct Cs as [<- | Cs].
  { destruct r as [|p r'].
    - rewrite Sp. reflexivity.
    - cbn [all_digits] in Dr. apply andb_true_iff in Dr as [Dp _].
      pose proof (digit_cases _ Dp) as Ps. simpl in Ps.
      repeat (destruct Ps as [<- | Ps];
              [simpl Ascii.eqb; cbn [orb]; cbv beta iota zeta; rewrite Sp;
               reflexivity|]).
      contradiction. }
  repeat (destruct Cs as [<- | Cs]; [cbv iota beta; rewrite Sp; reflexivity|]).
  contradiction.
Qed.

(** A digit string converts to a number: [isNaN] is false on it. *)
Lemma isNaN_string_digits (s : string) :
  regex_digits s = true -> isNaN_string s = false.
Proof.
  unfold regex_digits. destruct s as [|c r]; [discriminate|].
  cbn [String.eqb negb andb]. intro D.
  pose proof (span_radix_digits _ D false 0) as Sp.
  unfold isNaN_string. rewrite (trim_no_ws _ (all_digits_no_ws _ D)).
  cbn [all_digits] in D. apply andb_true_iff in D as [Dc Dr].
  pose proof (digit_cases _ Dc) as Cs. simpl in Cs.
  cbn [String.eqb orb].
  repeat (destruct Cs as [<- | Cs];
          [unfold str_numeric_literal, unsigned_decimal;
           cbn [String.eqb Ascii.eqb Bool.eqb];
           cbv iota beta; rewrite Sp; reflexivity|]).
  contradiction.
Qed.

(* ================================================================== *)
(** ** Field resolution without the network *)

Section ResolverFacts.
Context {H : Host}.

(** The first test of [getFieldId] decides alone: no request is built. *)
Lemma getFieldId_direct (tableId ref : Value) (apiUrl apiToken : string) (st : State) :
  negb (isNaN ref) || regex_digits (to_string ref) = true ->
  getFieldId tableId ref apiUrl apiToken st = (Normal (VNum (parseInt ref)), st).
Proof.
  intro C. unfold getFieldId, try_catch. rewrite C. reflexivity.
Qed.

Lemma isNaN_string_prefixed (s : string) :
  all_digits s = true -> isNaN_string ("field_" ++ s) = true.
Proof.
  intro D. unfold isNaN_string.
  rewrite trim_no_ws by (simpl; apply all_digits_no_ws; exact D).
  reflexivity.
Qed.

Lemma prefixed_id_digits (s : string) :
  regex_digits s = true -> prefixed_id ("field_" ++ s) = Some (Num (digits_value s)).
Proof.
  intro D. unfold prefixed_id. simpl.
  rewrite (isNaN_string_digits _ D), (parseInt_string_digits _ D). reflexivity.
Qed.

(** C7. A field reference that is a string of digits, a number (printed
    as digits) or [field_<digits>] resolves to the number the digits
    denote, and the state, request trace included, is left as it was: no
    network request is issued. *)
Theorem getFieldId_numeric_without_network
  (tableId ref : Value) (id : Z) (apiUrl apiToken : string) (st : State) :
  NumericRef ref id ->
  getFieldId tableId ref apiUrl apiToken st = (Normal (VNum (Num id)), st).
Proof.
  intros [s D | z D V | s D].
  - rewrite getFieldId_direct by (simpl; rewrite D; apply orb_true_r).
    unfold parseInt. simpl. rewrite (parseInt_string_digits _ D). reflexivity.
  - rewrite getFieldId_direct by reflexivity.
    unfold parseInt. simpl. rewrite (parseInt_string_digits _ D), V. reflexivity.
  - assert (A : all_digits s = true).
    { unfold regex_digits in D. apply andb_true_iff in D. apply D. }
    unfold getFieldId, try_catch. cbn [isNaN to_string].
    rewrite (isNaN_string_prefixed _ A).
    change (regex_digits ("field_" ++ s)) with false. cbn [negb orb].
    rewrite (prefixed_id_digits _ D). reflexivity.
Qed.

(** C10. Every string [isNaN] accepts as a number is answered with
    [parseInt] of it and no request, so a field so named is never looked
    up by name; ["12.5"], ["1e3"], padded digits and the empty string are
    such strings, none of them a string of digits. *)
Theorem getFieldId_number_like_string :
  (forall (tableId : Value) (s apiUrl apiToken : string) (st : State),
      isNaN_string s = false ->
      getFieldId tableId (VStr s) apiUrl apiToken st
      = (Normal (VNum (parseInt_string s)), st))
  /\ (isNaN_string "12.5" = false /\ regex_digits "12.5" = false
      /\ parseInt_string "12.5" = Num 12)
  /\ (isNaN_string "1e3" = false /\ regex_digits "1e3" = false
      /\ parseInt_string "1e3" = Num 1)
  /\ (isNaN_string " 42 " = false /\ regex_digits " 42 " = false
      /\ parseInt_string " 42 " = Num 42)
  /\ (isNaN_string "" = false /\ regex_digits "" = false
      /\ parseInt_string "" = NaN).
Proof.
  split; [|repeat split; reflexivity].
  intros tableId s apiUrl apiToken st N.
  apply getFieldId_direct. simpl. rewrite N. reflexivity.
Qed.

End ResolverFacts.

Lemma getFieldId_numeric_without_network_witness :
  NumericRef (H := scripted) (VStr "field_789") 789
  /\ getFieldId (VStr "123") (VStr "field_789") "https://api.baserow.io" "test_token"
       (start [ok_json mockFieldsData])
     = (Normal (int 789), start [ok_json mockFieldsData]).
Proof.
  assert (N : NumericRef (H := scripted) (VStr "field_789") 789).
  { exact (prefixed_digits (H := scripted) "789" eq_refl). }
  split; [exact N|].
  exact (getFieldId_numeric_without_network (VStr "123") _ _ "https://api.baserow.io"
           "test_token" (start [ok_json mockFieldsData]) N).
Defined.

Lemma getFieldId_number_like_string_witness :
  isNaN_string "12.5" = false
  /\ getFieldId (VStr "123") (VStr "12.5") "https://api.baserow.io" "test_token"
       (start [ok_json decimalNameFields])
     = (Normal (int 12), start [ok_json decimalNameFields]).
Proof.
  split; [reflexivity|].
  exact (proj1 (getFieldId_number_like_string (H := scripted)) (VStr "123") "12.5"
           "https://api.baserow.io" "test_token" (start [ok_json decimalNameFields])
           eq_refl).
Defined.

(* ================================================================== *)
(** ** Reading runs backwards *)

Section Runs.
Context {H : Host}.

Lemma bind_normal {A B} (m : M A) (k : A -> M B) (st : State) (b : B) (st' : State) :
  bind m k st = (Normal b, st') ->
  exists a st1, m st = (Normal a, st1) /\ k a st1 = (Normal b, st').
Proof.
  unfold bind. destruct (m st) as [[a | e] st1]; [|discriminate].
  intro K. exists a, st1. split; [reflexivity|exact K].
Qed.

Lemma lift_normal {A} (c : Completion A) (st : State) (a : A) (st' : State) :
  lift c st = (Normal a, st') -> c = Normal a /\ st' = st.
Proof. unfold lift. intro E. inversion E. split; reflexivity. Qed.

Lemma ret_normal {A} (x : A) (st : State) (a : A) (st' : State) :
  ret x st = (Normal a, st') -> a = x /\ st' = st.
Proof. unfold ret. intro E. inversion E. split; reflexivity. Qed.

Lemma do_fetch_normal (req : Request) (st : State) (r : Response) (st' : State) :
  do_fetch req st = (Normal r, st') ->
  exists w, fetch req (world st) = (Resolved r, w)
            /\ st' = mkState w (trace st ++ [(req, Resolved r)]) (console st).
Proof.
  unfold do_fetch. destruct (fetch req (world st)) as [[e | r0] w]; [discriminate|].
  intro E. inversion E. subst. exists w. split; reflexivity.
Qed.

Lemma do_fetch_resolved (req : Request) (st : State) (r : Response) (w : World) :
  fetch req (world st) = (Resolved r, w) ->
  do_fetch req st = (Normal r, mkState w (trace st ++ [(req, Resolved r)]) (console st)).
Proof. intro F. unfold do_fetch. rewrite F. reflexivity. Qed.

Lemma do_fetch_rejected (req : Request) (st : State) (e : Exn) (w : World) :
  fetch req (world st) = (Rejected e, w) ->
  do_fetch req st = (Throw e, mkState w (trace st ++ [(req, Rejected e)]) (console st)).
Proof. intro F. unfold do_fetch. rewrite F. reflexivity. Qed.

(** A handler that throws again lets only normal completions through. *)
Lemma try_rethrow_normal {A} (m : M A) (wrap : Exn -> Exn) (st : State) (a : A)
  (st' : State) :
  try_catch m (fun error => throw (wrap error)) st = (Normal a, st') ->
  m st = (Normal a, st').
Proof.
  unfold try_catch, throw. destruct (m st) as [[x | e] st1]; [|discriminate].
  intro E. exact E.
Qed.

End Runs.

(** Peel one [bind] off a run known to complete normally. *)
Ltac peel Run :=
  let a := fresh "v" in
  let st1 := fresh "st" in
  let R1 := fresh "Run" in
  apply bind_normal in Run; destruct Run as (a & st1 & R1 & Run).

(* ================================================================== *)
(** ** The result of an upload *)

Section OrchestratorFacts.
Context {H : Host}.

(** Every way [update_row] can return. *)
Lemma update_row_cases (apiUrl apiToken : string)
  (uploadResult tableId rowId fieldName : Value) (st : State)
  (r : OperationResult) (st' : State) :
  update_row apiUrl apiToken uploadResult tableId rowId fieldName st = (Normal r, st') ->
  (truthy tableId && truthy rowId && truthy fieldName = false
   /\ r = mkResult true uploadResult None None /\ st' = st)
  \/ (truthy tableId && truthy rowId && truthy fieldName = true
      /\ exists fieldId st1,
          getFieldId tableId fieldName apiUrl apiToken st = (Normal fieldId, st1)
          /\ ((truthy fieldId = false
               /\ r = mkResult true uploadResult None
                        (Some (resolve_message fieldName tableId))
               /\ st' = st1)
              \/ (truthy fieldId = true
                  /\ exists resp w,
                      let req := update_request apiUrl apiToken tableId rowId
                                   fieldId uploadResult in
                      fetch req (world st1) = (Resolved resp, w)
                      /\ trace st' = (trace st1 ++ [(req, Resolved resp)])%list
                      /\ ((ok resp = false
                           /\ r = mkResult true uploadResult None
                                    (Some (patch_message resp)))
                          \/ (ok resp = true
                              /\ exists row, json resp = Normal row
                                  /\ r = mkResult true uploadResult (Some row) None))))).
Proof.
  unfold update_row. intro Run.
  destruct (truthy tableId && truthy rowId && truthy fieldName) eqn:C.
  2:{ apply ret_normal in Run as [-> ->]. left. repeat split. }
  right. split; [reflexivity|].
  peel Run. rename v into fieldId. exists fieldId, st0. split; [exact Run0|].
  destruct (truthy fieldId) eqn:T; cbn [negb] in Run.
  2:{ apply ret_normal in Run as [-> ->]. left. repeat split. }
  right. split; [reflexivity|].
  peel Run. rename v into resp.
  apply do_fetch_normal in Run1 as (w & F & ->).
  exists resp, w. cbv zeta. split; [exact F|].
  destruct (ok resp) eqn:O; cbn [negb] in Run.
  - peel Run. apply lift_normal in Run1 as [J ->].
    apply ret_normal in Run as [-> ->].
    split; [reflexivity|]. right. split; [reflexivity|].
    exists v. split; [exact J|reflexivity].
  - peel Run. apply lift_normal in Run1 as [_ ->].
    peel Run. unfold warn in Run1. inversion Run1; subst. clear Run1.
    apply ret_normal in Run as [-> ->].
    split; [reflexivity|]. left. split; reflexivity.
Qed.

(** Step 1 returns only the body of a successful response. *)
Lemma upload_result_normal (resp : Response) (st : State) (v : Value) (st' : State) :
  upload_result resp st = (Normal v, st') ->
  ok resp = true /\ json resp = Normal v /\ st' = st.
Proof.
  unfold upload_result. destruct (ok resp); cbn [negb]; intro Run.
  - apply lift_normal in Run as [J ->]. repeat split. exact J.
  - peel Run. discriminate Run.
Qed.

(** The contract of the shared second step. *)
Lemma update_row_contract (apiUrl apiToken : string)
  (uploadResult tableId rowId fieldName : Value) (st : State)
  (r : OperationResult) (st' : State) :
  update_row apiUrl apiToken uploadResult tableId rowId fieldName st = (Normal r, st') ->
  success r = true
  /\ uploaded_file r = uploadResult
  /\ (updated_row r = None \/ row_update_error r = None)
  /\ (truthy tableId && truthy rowId && truthy fieldName = false ->
      updated_row r = None /\ row_update_error r = None)
  /\ (forall row, updated_row r = Some row ->
      exists req resp, In (req, Resolved resp) (trace st')
        /\ method req = PATCH /\ ok resp = true /\ json resp = Normal row)
  /\ (forall text, row_update_error r = Some text ->
      text = resolve_message fieldName tableId
      \/ exists req resp, In (req, Resolved resp) (trace st')
           /\ method req = PATCH /\ ok resp = false /\ text = patch_message resp).
Proof.
  intro Run. apply update_row_cases in Run.
  destruct Run as [(C & -> & ->) | (C & fieldId & st1 & G & Run)].
  { split; [reflexivity|]. split; [reflexivity|]. split; [left; reflexivity|].
    split; [intros _; split; reflexivity|].
    split; [intros row E; discriminate E|intros text E; discriminate E]. }
  destruct Run as [(T & -> & ->) | (T & resp & w & F & Tr & Run)].
  { split; [reflexivity|]. split; [reflexivity|]. split; [left; reflexivity|].
    split; [intro C'; rewrite C in C'; discriminate C'|].
    split; [intros row E; discriminate E|].
    intros text E. inversion E. left. reflexivity. }
  cbv zeta in F, Tr.
  assert (Last : In (update_request apiUrl apiToken tableId rowId fieldId uploadResult,
                     Resolved resp) (trace st')).
  { rewrite Tr. apply in_or_app. right. left. reflexivity. }
  destruct Run as [(O & ->) | (O & row & J & ->)].
  - split; [reflexivity|]. split; [reflexivity|]. split; [left; reflexivity|].
    split; [intro C'; rewrite C in C'; discriminate C'|].
    split; [intros row E; discriminate E|].
    intros text E. inversion E. right.
    eexists. exists resp. split; [exact Last|]. repeat split. exact O.
  - split; [reflexivity|]. split; [reflexivity|]. split; [right; reflexivity|].
    split; [intro C'; rewrite C in C'; discriminate C'|].
    split; [|intros text E; discriminate E].
    intros row' E. inversion E. subst row'.
    eexists. exists resp. split; [exact Last|]. repeat split; assumption.
Qed.

(** C1. A call of [uploadImageUrl] or [uploadFile] that returns gives
    [success: true] and, as [uploaded_file], the body of the successful
    upload response; it never carries both [updated_row] and
    [row_update_error], and carries neither unless [tableId], [rowId] and
    [fieldName] were all given.  [updated_row] is the body of a successful
    PATCH; [row_update_error] tells a failed resolution or a refused
    PATCH. *)
Theorem upload_returns_partial_success_record
  (env : Env) (url : Value) (filePath : string)
  (filename tableId rowId fieldName : Value) (st : State)
  (r : OperationResult) (st' : State) :
  uploadImageUrl env url filename tableId rowId fieldName st = (Normal r, st')
  \/ uploadFile env filePath filename tableId rowId fieldName st = (Normal r, st') ->
  success r = true
  /\ (exists req resp w,
        fetch req (world st) = (Resolved resp, w)
        /\ method req = POST /\ ok resp = true
        /\ json resp = Normal (uploaded_file r))
  /\ (updated_row r = None \/ row_update_error r = None)
  /\ (truthy tableId && truthy rowId && truthy fieldName = false ->
      updated_row r = None /\ row_update_error r = None)
  /\ (forall row, updated_row r = Some row ->
      exists req resp, In (req, Resolved resp) (trace st')
        /\ method req = PATCH /\ ok resp = true /\ json resp = Normal row)
  /\ (forall text, row_update_error r = Some text ->
      text = resolve_message fieldName tableId
      \/ exists req resp, In (req, Resolved resp) (trace st')
           /\ method req = PATCH /\ ok resp = false /\ text = patch_message resp).
Proof.
  intros [Run | Run].
  - unfold uploadImageUrl in Run.
    destruct (env_missing env); [discriminate Run|].
    apply try_rethrow_normal in Run.
    peel Run. rename v into resp. apply do_fetch_normal in Run0 as (w & F & ->).
    peel Run. apply upload_result_normal in Run0 as (O & J & ->).
    apply update_row_contract in Run as (S & U & Rest).
    split; [exact S|]. split; [|exact Rest].
    eexists. exists resp, w. rewrite U.
    split; [exact F|]. split; [reflexivity|]. split; [exact O|exact J].
  - unfold uploadFile in Run.
    destruct (env_missing env); [discriminate Run|].
    apply try_rethrow_normal in Run.
    destruct (existsSync filePath); cbn [negb] in Run; [|discriminate Run].
    peel Run. apply lift_normal in Run0 as [_ ->].
    peel Run. rename v0 into resp. apply do_fetch_normal in Run0 as (w & F & ->).
    peel Run. apply upload_result_normal in Run0 as (O & J & ->).
    apply update_row_contract in Run as (S & U & Rest).
    split; [exact S|]. split; [|exact Rest].
    eexists. exists resp, w. rewrite U.
    split; [exact F|]. split; [reflexivity|]. split; [exact O|exact J].
Qed.

End OrchestratorFacts.

Lemma upload_returns_partial_success_record_witness :
  attach_run = (Normal attach_result, snd attach_run)
  /\ success attach_result = true
  /\ (updated_row attach_result = None \/ row_update_error attach_result = None).
Proof.
  assert (Run : attach_run = (Normal attach_result, snd attach_run)) by reflexivity.
  split; [exact Run|].
  destruct (upload_returns_partial_success_record (H := scripted) test_env mockUrl ""
              VUndefined (VStr "123") (VStr "456") (VStr "image_field") _ _ _
              (or_introl Run)) as (S & _ & N & _).
  split; [exact S|exact N].
Defined.

(** C2.  The code at the failing input.  With the upload done, a PATCH
    request the transport rejects, or a PATCH response whose body cannot
    be parsed, makes the call throw under the upload's prefix: no success
    record, no uploaded-file descriptor, no [row_update_error]. *)
Lemma patch_transport_failure_is_thrown :
  (fst rejected_patch_run = Throw (Error "Upload failed: Network error")
   /\ called (snd rejected_patch_run)
      = [(POST, EpUploadViaUrl); (PATCH, EpRow "123" "456")]
   /\ ~ exists r, fst rejected_patch_run = Normal r)
  /\ (fst malformed_patch_run = Throw (Error "File upload failed: Invalid JSON")
      /\ called (snd malformed_patch_run)
         = [(POST, EpUploadFile); (PATCH, EpRow "123" "456")]
      /\ ~ exists r, fst malformed_patch_run = Normal r).
Proof.
  split; (split; [reflexivity|split; [reflexivity|intros [r R]; discriminate R]]).
Qed.

Section AttachFacts.
Context {H : Host}.

(** [getFieldId] never throws: its handler swallows every exception. *)
Lemma getFieldId_returns (tableId ref : Value) (apiUrl apiToken : string) (st : State) :
  exists v st', getFieldId tableId ref apiUrl apiToken st = (Normal v, st').
Proof.
  unfold getFieldId, try_catch.
  match goal with |- context [match ?m st with _ => _ end] => destruct (m st) as [[v | e] st1] end.
  - exists v, st1. reflexivity.
  - eexists. eexists. unfold bind, warn, ret. reflexivity.
Qed.

(** C9. When the attach step reaches the PATCH, the request goes to the
    row and its payload is the object with the single key
    [field_<fieldId>], [fieldId] being what [getFieldId] returned, bound
    to the one-element array holding the uploaded-file descriptor. *)
Theorem patch_payload_sets_one_field
  (apiUrl apiToken : string) (uploadResult tableId rowId fieldName : Value)
  (st : State) (fieldId : Value) (st1 : State) :
  truthy tableId && truthy rowId && truthy fieldName = true ->
  getFieldId tableId fieldName apiUrl apiToken st = (Normal fieldId, st1) ->
  truthy fieldId = true ->
  exists (req : Request) (outcome : FetchOutcome),
    trace (snd (update_row apiUrl apiToken uploadResult tableId rowId fieldName st))
    = (trace st1 ++ [(req, outcome)])%list
    /\ method req = PATCH
    /\ endpoint req = EpRow (to_string tableId) (to_string rowId)
    /\ body req
       = JsonBody (VObj [("field_" ++ to_string fieldId, VArr [uploadResult])]).
Proof.
  intros C G T.
  exists (update_request apiUrl apiToken tableId rowId fieldId uploadResult).
  unfold update_row. rewrite C. unfold bind at 1. rewrite G, T. cbn [negb].
  unfold bind at 1, do_fetch.
  destruct (fetch _ (world st1)) as [[e | resp] w].
  - exists (Rejected e). repeat split.
  - exists (Resolved resp). split; [|repeat split].
    destruct (ok resp); cbn [negb]; unfold bind, lift, warn, ret.
    + destruct (json resp); reflexivity.
    + destruct (text resp); reflexivity.
Qed.

End AttachFacts.

Lemma patch_payload_sets_one_field_witness :
  exists req outcome,
    trace (snd (update_row "https://api.baserow.io" "test_token" mockUploadData
                  (VStr "123") (VStr "456") (VStr "789")
                  (start [ok_json mockRowData])))
    = [(req, outcome)]
    /\ method req = PATCH
    /\ endpoint req = EpRow "123" "456"
    /\ body req = JsonBody (VObj [("field_789", VArr [mockUploadData])]).
Proof.
  exact (patch_payload_sets_one_field (H := scripted) "https://api.baserow.io"
           "test_token" mockUploadData (VStr "123") (VStr "456") (VStr "789")
           (start [ok_json mockRowData]) _ _ eq_refl eq_refl eq_refl).
Defined.

(* ================================================================== *)
(** ** A name the table does not have *)

Section UnknownName.
Context {H : Host}.

Lemma strict_eq_string_true (v : Value) (s : string) :
  strict_eq_string v s = true -> v = VStr s.
Proof.
  destruct v; simpl; try discriminate.
  intro E. apply String.eqb_eq in E. rewrite E. reflexivity.
Qed.


Lemma isNaN_string_not_digits (s : string) :
  isNaN_string s = true -> regex_digits s = false.
Proof.
  intro N. destruct (regex_digits s) eqn:D; [|reflexivity].
  rewrite (isNaN_string_digits _ D) in N. discriminate N.
Qed.


End UnknownName.

(* ================================================================== *)
(** ** The walk: failures that abort it *)

Section WalkFailures.
Context {H : Host}.

(** C4. When the root request for the workspaces is rejected by the
    transport or answered with a non-success status, the whole call throws
    an error whose message is [Failed to read Baserow structure: ]
    followed by the cause; nothing is returned. *)
Theorem root_fetch_failure_is_fatal
  (env : Env) (includeRows maxRows : Value) (st : State)
  (outcome : FetchOutcome) (w : World) (cause : string) :
  let req := get_request (env_string (BASEROW_API_URL env))
               (env_string (BASEROW_API_TOKEN env)) EpWorkspaces in
  env_missing env = false ->
  fetch req (world st) = (outcome, w) ->
  root_failure outcome = Some cause ->
  readBaserowStructure env includeRows maxRows st
  = (Throw (Error ("Failed to read Baserow structure: " ++ cause)),
     mkState w (trace st ++ [(req, outcome)]) (console st)).
Proof.
  intros req E F C.
  unfold readBaserowStructure. rewrite E.
  unfold try_catch, read_structure, bind at 1, do_fetch. fold req. rewrite F.
  destruct outcome as [e | r]; cbn in C.
  - inversion C. reflexivity.
  - destruct (ok r); [discriminate C|]. inversion C. reflexivity.
Qed.

(** *** Rejections travel up *)

Lemma propagates_ret {A} (a : A) : propagates (ret a).
Proof.
  intro st. exists []. split; [cbn; rewrite app_nil_r; reflexivity|].
  intros req e [].
Qed.

Lemma propagates_throw {A} (e : Exn) : propagates (throw (A := A) e).
Proof.
  intro st. exists []. split; [cbn; rewrite app_nil_r; reflexivity|].
  intros req e' [].
Qed.

Lemma propagates_lift {A} (c : Completion A) : propagates (lift c).
Proof.
  intro st. exists []. split; [cbn; rewrite app_nil_r; reflexivity|].
  intros req e [].
Qed.

Lemma propagates_warn (line : string) : propagates (warn line).
Proof.
  intro st. exists []. split; [cbn; rewrite app_nil_r; reflexivity|].
  intros req e [].
Qed.

Lemma propagates_do_fetch (req : Request) : propagates (do_fetch req).
Proof.
  intro st. unfold do_fetch.
  destruct (fetch req (world st)) as [[e | r] w].
  - exists [(req, Rejected e)]. split; [reflexivity|].
    intros req' e' [I | []]. inversion I. reflexivity.
  - exists [(req, Resolved r)]. split; [reflexivity|].
    intros req' e' [I | []]. discriminate I.
Qed.

Lemma propagates_bind {A B} (m : M A) (k : A -> M B) :
  propagates m -> (forall a, propagates (k a)) -> propagates (bind m k).
Proof.
  intros Pm Pk st. unfold bind.
  destruct (Pm st) as (new1 & T1 & R1).
  destruct (m st) as [[a | e] st1]; cbn [fst snd] in *.
  - destruct (Pk a st1) as (new2 & T2 & R2).
    exists (new1 ++ new2)%list. split.
    + rewrite T2, T1, app_assoc. reflexivity.
    + intros req e I. apply in_app_or in I as [I | I].
      * specialize (R1 req e I). discriminate R1.
      * exact (R2 req e I).
  - exists new1. split; [exact T1|].
    intros req e' I. specialize (R1 req e' I). inversion R1. reflexivity.
Qed.

Lemma propagates_for_of {S} (body : Value -> S -> M S) :
  (forall x s, propagates (body x s)) ->
  forall items s, propagates (for_of items body s).
Proof.
  intros Pb items. induction items as [|x rest IH]; intro s; cbn [for_of].
  - apply propagates_ret.
  - apply propagates_bind; [apply Pb|exact IH].
Qed.

End WalkFailures.

(** Decompose a computation written with [bind], [if] and pair patterns. *)
Create HintDb propagation.

Ltac propagation :=
  repeat first
    [ solve [auto with propagation nocore]
    | apply propagates_ret
    | apply propagates_throw
    | apply propagates_lift
    | apply propagates_warn
    | apply propagates_do_fetch
    | apply propagates_for_of; intros
    | apply propagates_bind; [|intro]
    | match goal with
      | |- propagates (if ?c then _ else _) => destruct c
      | |- propagates (let '(_, _) := ?p in _) => destruct p
      end ].

Section WalkAborts.
Context {H : Host}.

Lemma propagates_table_step (apiUrl apiToken : string) (includeRows maxRows : Value)
  (table : Value) (acc : Summary * list TableInfo) :
  propagates (table_step apiUrl apiToken includeRows maxRows table acc).
Proof. unfold table_step, read_fields, read_rows. propagation. Qed.
#[local] Hint Resolve propagates_table_step : propagation.

Lemma propagates_application_step (apiUrl apiToken : string)
  (includeRows maxRows : Value) (application : Value) (acc : Summary * list AppInfo) :
  propagates (application_step apiUrl apiToken includeRows maxRows application acc).
Proof. unfold application_step. propagation. Qed.
#[local] Hint Resolve propagates_application_step : propagation.

Lemma propagates_workspace_step (apiUrl apiToken : string)
  (includeRows maxRows : Value) (workspace : Value) (s : Structure) :
  propagates (workspace_step apiUrl apiToken includeRows maxRows workspace s).
Proof. unfold workspace_step. propagation. Qed.
#[local] Hint Resolve propagates_workspace_step : propagation.

Lemma propagates_read_structure (apiUrl apiToken : string) (includeRows maxRows : Value) :
  propagates (read_structure apiUrl apiToken includeRows maxRows).
Proof. unfold read_structure. propagation. Qed.

(** C5, as the code has it.  A request of the walk that the transport
    rejects, at the applications, tables, fields or rows level as at the
    root, is not absorbed: the whole call throws
    [Failed to read Baserow structure: ] followed by the cause, and no
    structure is returned. *)
Theorem transport_failure_aborts_walk
  (env : Env) (includeRows maxRows : Value) (st : State)
  (new : list (Request * FetchOutcome)) (req : Request) (e : Exn) :
  trace (snd (readBaserowStructure env includeRows maxRows st)) = (trace st ++ new)%list ->
  In (req, Rejected e) new ->
  fst (readBaserowStructure env includeRows maxRows st)
  = Throw (Error ("Failed to read Baserow structure: " ++ message e)).
Proof.
  unfold readBaserowStructure. destruct (env_missing env).
  - cbn. intros T I. rewrite <- (app_nil_r (trace st)) in T at 1.
    apply app_inv_head in T. subst new. destruct I.
  - unfold try_catch, throw. intros T I.
    destruct (propagates_read_structure (env_string (BASEROW_API_URL env))
                (env_string (BASEROW_API_TOKEN env))
                (default_to (VBool false) includeRows)
                (default_to (VNum (Num 5)) maxRows) st) as (new0 & T0 & R0).
    destruct (read_structure _ _ _ _ st) as [[res | e0] st1]; cbn [fst snd] in *;
      rewrite T0 in T; apply app_inv_head in T; subst new0;
      specialize (R0 req e I); [discriminate R0|].
    inversion R0. reflexivity.
Qed.

End WalkAborts.

Lemma root_fetch_failure_is_fatal_witness :
  fst unauthorized_run
  = Throw (Error "Failed to read Baserow structure: Failed to fetch workspaces: 401 Unauthorized").
Proof.
  unfold unauthorized_run.
  rewrite (root_fetch_failure_is_fatal (H := scripted) test_env VUndefined VUndefined
             (start [failed 401 "Unauthorized" ""]) (failed 401 "Unauthorized" "") []
             "Failed to fetch workspaces: 401 Unauthorized" eq_refl eq_refl eq_refl).
  reflexivity.
Defined.

(** C5 as stated fails: with the applications request of a workspace
    rejected, or the fields request of a table, the walk returns nothing,
    neither the workspace with an empty sequence nor its siblings. *)
Lemma transport_failure_not_absorbed :
  (fst rejected_applications_run
   = Throw (Error "Failed to read Baserow structure: Network error")
   /\ ~ exists res, fst rejected_applications_run = Normal res)
  /\ (fst rejected_fields_run
      = Throw (Error "Failed to read Baserow structure: socket hang up")
      /\ ~ exists res, fst rejected_fields_run = Normal res).
Proof.
  split; (split; [reflexivity|intros [res R]; discriminate R]).
Qed.

Lemma transport_failure_aborts_walk_witness :
  fst rejected_fields_run
  = Throw (Error "Failed to read Baserow structure: socket hang up").
Proof.
  refine (transport_failure_aborts_walk (H := scripted) test_env VUndefined VUndefined
            (start [ok_json twoWorkspaces; ok_json oneDatabase; ok_json oneTable;
                    Rejected (Error "socket hang up")])
            (trace (snd rejected_fields_run))
            (get_request "https://api.baserow.io" "test_token" (EpFields "201"))
            (Error "socket hang up") eq_refl _).
  right. right. right. left. reflexivity.
Defined.

(* ================================================================== *)
(** ** The walk: failures it absorbs *)

Section WalkDegrades.
Context {H : Host}.
Variables (apiUrl apiToken : string) (includeRows maxRows : Value).

(** A workspace whose applications cannot be listed is kept, empty. *)
Lemma workspace_step_refused (workspace : Value) (S : Structure) (st : State)
  (id name : Value) (r : Response) (w : World) :
  get_prop workspace "id" = Normal id ->
  get_prop workspace "name" = Normal name ->
  fetch (get_request apiUrl apiToken (EpApplications (to_string id))) (world st)
  = (Resolved r, w) ->
  ok r = false ->
  workspace_step apiUrl apiToken includeRows maxRows workspace S st
  = (Normal (mkStructure (workspaces S ++ [mkWorkspace id name []]) (summary S)),
     mkState w
       (trace st ++ [(get_request apiUrl apiToken (EpApplications (to_string id)),
                      Resolved r)])
       (console st ++ ["Failed to fetch applications for workspace " ++ to_string id
                       ++ ": " ++ number_to_string (status r)])).
Proof.
  intros Gi Gn F O. unfold workspace_step.
  unfold bind at 1, lift at 1. rewrite Gi.
  unfold bind at 1, lift at 1. rewrite Gn.
  unfold bind at 1. rewrite (do_fetch_resolved _ _ _ _ F), O. reflexivity.
Qed.

(** A database whose tables cannot be listed is kept, empty. *)
Lemma application_step_refused (application : Value) (s : Summary)
  (apps : list AppInfo) (st : State) (id name : Value) (r : Response) (w : World) :
  get_prop application "type" = Normal (VStr "database") ->
  get_prop application "id" = Normal id ->
  get_prop application "name" = Normal name ->
  fetch (get_request apiUrl apiToken (EpTables (to_string id))) (world st)
  = (Resolved r, w) ->
  ok r = false ->
  application_step apiUrl apiToken includeRows maxRows application (s, apps) st
  = (Normal (s, (apps ++ [mkApp id name (VStr "database") []])%list),
     mkState w
       (trace st ++ [(get_request apiUrl apiToken (EpTables (to_string id)),
                      Resolved r)])
       (console st ++ ["Failed to fetch tables for application " ++ to_string id
                       ++ ": " ++ number_to_string (status r)])).
Proof.
  intros Gt Gi Gn F O. unfold application_step.
  unfold bind at 1, lift at 1. rewrite Gt. cbn [strict_eq_string String.eqb Ascii.eqb Bool.eqb negb].
  unfold bind at 1, lift at 1. rewrite Gi.
  unfold bind at 1, lift at 1. rewrite Gn.
  unfold bind at 1. rewrite (do_fetch_resolved _ _ _ _ F), O. reflexivity.
Qed.

(** A table whose fields cannot be listed keeps an empty [fields]; its
    rows are read as for any table. *)
Lemma table_step_refused (table : Value) (s : Summary) (tabs : list TableInfo)
  (st : State) (id name order : Value) (r : Response) (w : World) :
  get_prop table "id" = Normal id ->
  get_prop table "name" = Normal name ->
  get_prop table "order" = Normal order ->
  fetch (get_request apiUrl apiToken (EpFields (to_string id))) (world st)
  = (Resolved r, w) ->
  ok r = false ->
  table_step apiUrl apiToken includeRows maxRows table (s, tabs) st
  = bind (read_rows apiUrl apiToken includeRows maxRows id)
      (fun '(count, rows) =>
         ret (s, (tabs ++ [mkTable id name order [] count rows])%list))
      (mkState w
         (trace st ++ [(get_request apiUrl apiToken (EpFields (to_string id)),
                        Resolved r)])
         (console st)).
Proof.
  intros Gi Gn Go F O. unfold table_step.
  unfold bind at 1, lift at 1. rewrite Gi.
  unfold bind at 1, lift at 1. rewrite Gn.
  unfold bind at 1, lift at 1. rewrite Go.
  unfold bind at 1, read_fields, bind at 1.
  rewrite (do_fetch_resolved _ _ _ _ F), O. reflexivity.
Qed.

(** *** Completion on a responsive backend *)

Lemma get_prop_entity (v : Value) (k : string) :
  entity v -> exists x, get_prop v k = Normal x.
Proof.
  unfold entity. destruct v; cbn; intro E; try discriminate E; eexists; reflexivity.
Qed.

Lemma field_info_entity (field : Value) :
  entity field -> exists info, field_info field = Normal info.
Proof.
  intro E. unfold field_info.
  destruct (get_prop_entity field "id" E) as [x1 ->].
  destruct (get_prop_entity field "name" E) as [x2 ->].
  destruct (get_prop_entity field "type" E) as [x3 ->].
  destruct (get_prop_entity field "primary" E) as [x4 ->].
  destruct (get_prop_entity field "order" E) as [x5 ->].
  destruct (get_prop_entity field "description" E) as [x6 ->].
  destruct (get_prop_entity field "file_types" E) as [x7 ->].
  destruct (get_prop_entity field "multiple_files" E) as [x8 ->].
  destruct (get_prop_entity field "select_options" E) as [x9 ->].
  destruct (get_prop_entity field "link_row_table" E) as [x10 ->].
  destruct (get_prop_entity field "link_row_table_id" E) as [x11 ->].
  unfold spread_when. cbn [cbind].
  destruct (strict_eq_string x3 "file"); cbn [cbind];
    destruct (strict_eq_string x3 "single_select"); cbn [cbind];
    destruct (strict_eq_string x3 "multiple_select"); cbn [cbind];
    destruct (strict_eq_string x3 "link_row"); cbn [cbind];
    eexists; reflexivity.
Qed.

Lemma map_fields_entities (items : list Value) :
  Forall entity items -> exists infos, map_fields items = Normal infos.
Proof.
  induction 1 as [|f rest E _ IH]; cbn [map_fields]; [eexists; reflexivity|].
  destruct (field_info_entity f E) as [info ->].
  destruct IH as [infos ->]. cbn [cbind]. eexists. reflexivity.
Qed.

Lemma for_of_completes {S : Type} (body : Value -> S -> M S) (items : list Value) :
  (forall x, In x items -> forall s st, exists s' st', body x s st = (Normal s', st')) ->
  forall s st, exists s' st', for_of items body s st = (Normal s', st').
Proof.
  induction items as [|x rest IH]; intros B s st; cbn [for_of].
  - exists s, st. reflexivity.
  - destruct (B x (or_introl eq_refl) s st) as (s1 & st1 & E).
    unfold bind. rewrite E. apply IH. intros y I. apply B. right. exact I.
Qed.

Hypothesis backend_responds : responsive.

Lemma read_fields_completes (table_id : Value) (s : Summary) (st : State) :
  exists r st', read_fields apiUrl apiToken table_id s st = (Normal r, st').
Proof.
  unfold read_fields.
  destruct (backend_responds (get_request apiUrl apiToken (EpFields (to_string table_id)))
              (world st)) as (r & w & F & A).
  unfold bind at 1. rewrite (do_fetch_resolved _ _ _ _ F).
  cbn [endpoint get_request json_request answers] in A.
  destruct (ok r) eqn:O; [|unfold ret; eexists; eexists; reflexivity].
  destruct A as [A | (body & J & items & -> & E)]; [discriminate A|].
  unfold bind, lift. rewrite J. cbn [length_or_0 get_prop String.eqb Ascii.eqb Bool.eqb cbind array_map_fields].
  destruct (map_fields_entities items E) as [infos ->].
  unfold ret. eexists. eexists. reflexivity.
Qed.

Lemma read_rows_completes (table_id : Value) (st : State) :
  exists r st', read_rows apiUrl apiToken includeRows maxRows table_id st = (Normal r, st').
Proof.
  unfold read_rows. destruct (truthy includeRows); [|unfold ret; eexists; eexists; reflexivity].
  destruct (backend_responds
              (get_request apiUrl apiToken (EpRows (to_string table_id) (to_string maxRows)))
              (world st)) as (r & w & F & A).
  unfold bind at 1. rewrite (do_fetch_resolved _ _ _ _ F).
  cbn [endpoint get_request json_request answers] in A.
  destruct (ok r) eqn:O; [|unfold ret; eexists; eexists; reflexivity].
  destruct A as [A | (body & J & E)]; [discriminate A|].
  unfold bind, lift. rewrite J.
  destruct (get_prop_entity body "count" E) as [c ->].
  destruct (get_prop_entity body "results" E) as [rs ->].
  unfold ret. eexists. eexists. reflexivity.
Qed.

Lemma table_step_completes (table : Value) (acc : Summary * list TableInfo) (st : State) :
  entity table ->
  exists acc' st', table_step apiUrl apiToken includeRows maxRows table acc st
                   = (Normal acc', st').
Proof.
  intro E. unfold table_step. destruct acc as [s tabs].
  destruct (get_prop_entity table "id" E) as [id ->].
  destruct (get_prop_entity table "name" E) as [name ->].
  destruct (get_prop_entity table "order" E) as [order ->].
  unfold bind at 1, lift at 1. unfold bind at 1, lift at 1. unfold bind at 1, lift at 1.
  unfold bind at 1.
  destruct (read_fields_completes id s st) as ([s1 infos] & st1 & ->).
  unfold bind at 1.
  destruct (read_rows_completes id st1) as ([count rows] & st2 & ->).
  unfold ret. eexists. eexists. reflexivity.
Qed.

Lemma application_step_completes (application : Value) (acc : Summary * list AppInfo)
  (st : State) :
  entity application ->
  exists acc' st', application_step apiUrl apiToken includeRows maxRows application acc st
                   = (Normal acc', st').
Proof.
  intro E. unfold application_step. destruct acc as [s apps].
  destruct (get_prop_entity application "type" E) as [type ->].
  destruct (get_prop_entity application "id" E) as [id ->].
  destruct (get_prop_entity application "name" E) as [name ->].
  unfold bind at 1, lift at 1.
  destruct (strict_eq_string type "database"); cbn [negb];
    [|unfold ret; eexists; eexists; reflexivity].
  unfold bind at 1, lift at 1. unfold bind at 1, lift at 1.
  destruct (backend_responds (get_request apiUrl apiToken (EpTables (to_string id)))
              (world st)) as (r & w & F & A).
  unfold bind at 1. rewrite (do_fetch_resolved _ _ _ _ F).
  cbn [endpoint get_request json_request answers] in A.
  destruct (ok r) eqn:O; cbn [negb];
    [|unfold bind, warn, ret; eexists; eexists; reflexivity].
  destruct A as [A | (body & J & items & -> & Es)]; [discriminate A|].
  unfold bind at 1, lift at 1. rewrite J.
  unfold bind at 1, lift at 1. cbn [length_or_0 get_prop String.eqb Ascii.eqb Bool.eqb cbind].
  unfold bind at 1, lift at 1. cbn [js_or truthy iterate].
  unfold bind at 1.
  destruct (for_of_completes (table_step apiUrl apiToken includeRows maxRows) items)
    with (s := (add_tables (js_or (VNum (Num (zlength items))) (VNum (Num 0))) s,
                @nil TableInfo))
         (st := mkState w
                  (trace st ++ [(get_request apiUrl apiToken (EpTables (to_string id)),
                                 Resolved r)]) (console st))
    as ([s1 infos] & st1 & ->).
  { intros x I s0 st0. apply table_step_completes.
    rewrite Forall_forall in Es. exact (Es x I). }
  unfold ret. eexists. eexists. reflexivity.
Qed.

Lemma workspace_step_completes (workspace : Value) (S : Structure) (st : State) :
  entity workspace ->
  exists S' st', workspace_step apiUrl apiToken includeRows maxRows workspace S st
                 = (Normal S', st').
Proof.
  intro E. unfold workspace_step.
  destruct (get_prop_entity workspace "id" E) as [id ->].
  destruct (get_prop_entity workspace "name" E) as [name ->].
  unfold bind at 1, lift at 1. unfold bind at 1, lift at 1.
  destruct (backend_responds (get_request apiUrl apiToken (EpApplications (to_string id)))
              (world st)) as (r & w & F & A).
  unfold bind at 1. rewrite (do_fetch_resolved _ _ _ _ F).
  cbn [endpoint get_request json_request answers] in A.
  destruct (ok r) eqn:O; cbn [negb];
    [|unfold bind, warn, ret; eexists; eexists; reflexivity].
  destruct A as [A | (body & J & items & -> & Es)]; [discriminate A|].
  unfold bind at 1, lift at 1. rewrite J.
  unfold bind at 1, lift at 1. cbn [length_or_0 get_prop String.eqb Ascii.eqb Bool.eqb cbind].
  unfold bind at 1, lift at 1. cbn [js_or truthy iterate].
  unfold bind at 1.
  destruct (for_of_completes (application_step apiUrl apiToken includeRows maxRows) items)
    with (s := (add_applications (js_or (VNum (Num (zlength items))) (VNum (Num 0)))
                  (summary S), @nil AppInfo))
         (st := mkState w
                  (trace st ++ [(get_request apiUrl apiToken (EpApplications (to_string id)),
                                 Resolved r)]) (console st))
    as ([s1 infos] & st1 & ->).
  { intros x I s0 st0. apply application_step_completes.
    rewrite Forall_forall in Es. exact (Es x I). }
  unfold ret. eexists. eexists. reflexivity.
Qed.

Lemma read_structure_completes (st : State) :
  exists res st', read_structure apiUrl apiToken includeRows maxRows st = (Normal res, st').
Proof.
  unfold read_structure.
  destruct (backend_responds (get_request apiUrl apiToken EpWorkspaces) (world st))
    as (r & w & F & A).
  unfold bind at 1. rewrite (do_fetch_resolved _ _ _ _ F).
  cbn [endpoint get_request json_request answers] in A.
  destruct A as (O & body & results & J & G & items & -> & Es).
  rewrite O. cbn [negb].
  unfold bind at 1, lift at 1. rewrite J.
  unfold bind at 1, lift at 1. rewrite G.
  unfold bind at 1, lift at 1.
  cbn [get_prop_opt is_nullish get_prop String.eqb Ascii.eqb Bool.eqb].
  unfold bind at 1, lift at 1. cbn [js_or truthy iterate].
  unfold bind at 1.
  destruct (for_of_completes (workspace_step apiUrl apiToken includeRows maxRows) items)
    with (s := mkStructure []
                 (mkSummary (js_or (VNum (Num (zlength items))) zero) zero zero zero))
         (st := mkState w
                  (trace st ++ [(get_request apiUrl apiToken EpWorkspaces, Resolved r)])
                  (console st))
    as (S1 & st1 & ->).
  { intros x I s0 st0. apply workspace_step_completes.
    rewrite Forall_forall in Es. exact (Es x I). }
  unfold ret. eexists. eexists. reflexivity.
Qed.

End WalkDegrades.

Lemma backend_responsive : responsive (H := backend).
Proof.
  intros [m b ep t j bd] w. cbn [fetch backend endpoint].
  destruct ep as [|id| | | | | |]; cbn [backend_answer].
  - eexists. exists w. split; [reflexivity|]. cbn. split; [reflexivity|].
    eexists. eexists. split; [reflexivity|]. split; [reflexivity|].
    eexists. split; [reflexivity|]. repeat constructor.
  - destruct (id =? "2")%string.
    + eexists. exists w. split; [reflexivity|]. right.
      eexists. split; [reflexivity|]. eexists. split; [reflexivity|]. repeat constructor.
    + eexists. exists w. split; [reflexivity|]. left. reflexivity.
  - eexists. exists w. split; [reflexivity|]. right.
    eexists. split; [reflexivity|]. eexists. split; [reflexivity|]. repeat constructor.
  - eexists. exists w. split; [reflexivity|]. right.
    eexists. split; [reflexivity|]. eexists. split; [reflexivity|]. repeat constructor.
  - eexists. exists w. split; [reflexivity|]. left. reflexivity.
  - eexists. exists w. split; [reflexivity|]. exact I.
  - eexists. exists w. split; [reflexivity|]. exact I.
  - eexists. exists w. split; [reflexivity|]. exact I.
Qed.


(* ================================================================== *)
(** ** The walk: what is nested and what is counted *)

Section WalkCounts.
Context {H : Host}.
Variables (apiUrl apiToken : string) (includeRows maxRows : Value).

Lemma total_app {A : Type} (f : A -> Z) (l1 l2 : list A) :
  total f (l1 ++ l2) = total f l1 + total f l2.
Proof.
  unfold total. induction l1 as [|x l IH]; cbn [app fold_right]; [reflexivity|].
  rewrite IH. ring.
Qed.

Lemma quiet_refl (st : State) : quiet st st.
Proof. exists []. split; [rewrite app_nil_r; reflexivity|reflexivity]. Qed.

Lemma quiet_trans (st1 st2 st3 : State) : quiet st1 st2 -> quiet st2 st3 -> quiet st1 st3.
Proof.
  intros (n1 & T1 & Z1) (n2 & T2 & Z2). exists (n1 ++ n2)%list. split.
  - rewrite T2, T1, app_assoc. reflexivity.
  - rewrite total_app, Z1, Z2. reflexivity.
Qed.

Lemma quiet_entry (st : State) (w : World) (req : Request) (o : FetchOutcome)
  (lines : list string) :
  applications_returned (req, o) = 0 ->
  quiet st (mkState w (trace st ++ [(req, o)]) lines).
Proof.
  intro Z. exists [(req, o)]. split; [reflexivity|].
  unfold total. cbn [fold_right]. rewrite Z. reflexivity.
Qed.

Lemma quiet_console (st : State) (lines : list string) :
  quiet st (mkState (world st) (trace st) lines).
Proof. exists []. split; [cbn; rewrite app_nil_r; reflexivity|reflexivity]. Qed.

Lemma for_of_invariant {S : Type} (I : S -> State -> Prop) (body : Value -> S -> M S) :
  (forall x s st s' st', I s st -> body x s st = (Normal s', st') -> I s' st') ->
  forall items s st s' st',
    I s st -> for_of items body s st = (Normal s', st') -> I s' st'.
Proof.
  intros B items. induction items as [|x rest IH]; intros s st s' st' Is Run;
    cbn [for_of] in Run.
  - apply ret_normal in Run as [-> ->]. exact Is.
  - peel Run. eapply IH; [|exact Run]. eapply B; eassumption.
Qed.

Lemma read_fields_quiet (table_id : Value) (s : Summary) (st : State)
  (s' : Summary) (infos : list FieldInfo) (st' : State) :
  read_fields apiUrl apiToken table_id s st = (Normal (s', infos), st') ->
  totalApplications s' = totalApplications s /\ quiet st st'.
Proof.
  unfold read_fields. intro Run. peel Run.
  apply do_fetch_normal in Run0 as (w & F & ->).
  assert (Q : quiet st (mkState w (trace st ++ [(get_request apiUrl apiToken
                 (EpFields (to_string table_id)), Resolved v)]) (console st)))
    by (apply quiet_entry; reflexivity).
  destruct (ok v).
  - peel Run. apply lift_normal in Run0 as [_ ->].
    peel Run. apply lift_normal in Run0 as [_ ->].
    peel Run. apply lift_normal in Run0 as [_ ->].
    apply ret_normal in Run as [E ->]. inversion E. split; [reflexivity|exact Q].
  - apply ret_normal in Run as [E ->]. inversion E. split; [reflexivity|exact Q].
Qed.

Lemma read_rows_quiet (table_id : Value) (st : State) (r : Value * Value) (st' : State) :
  read_rows apiUrl apiToken includeRows maxRows table_id st = (Normal r, st') ->
  quiet st st'.
Proof.
  unfold read_rows. intro Run. destruct (truthy includeRows).
  - peel Run. apply do_fetch_normal in Run0 as (w & F & ->).
    assert (Q : quiet st (mkState w (trace st ++ [(get_request apiUrl apiToken
                   (EpRows (to_string table_id) (to_string maxRows)), Resolved v)])
                   (console st)))
      by (apply quiet_entry; reflexivity).
    destruct (ok v).
    + peel Run. apply lift_normal in Run0 as [_ ->].
      peel Run. apply lift_normal in Run0 as [_ ->].
      peel Run. apply lift_normal in Run0 as [_ ->].
      apply ret_normal in Run as [_ ->]. exact Q.
    + apply ret_normal in Run as [_ ->]. exact Q.
  - apply ret_normal in Run as [_ ->]. apply quiet_refl.
Qed.

Lemma table_step_quiet (table : Value) (acc : Summary * list TableInfo) (st : State)
  (acc' : Summary * list TableInfo) (st' : State) :
  table_step apiUrl apiToken includeRows maxRows table acc st = (Normal acc', st') ->
  totalApplications (fst acc') = totalApplications (fst acc) /\ quiet st st'.
Proof.
  unfold table_step. destruct acc as [s tabs]. intro Run.
  peel Run. apply lift_normal in Run0 as [_ ->].
  peel Run. apply lift_normal in Run0 as [_ ->].
  peel Run. apply lift_normal in Run0 as [_ ->].
  peel Run. destruct v2 as [s1 infos].
  apply read_fields_quiet in Run0 as [E1 Q1].
  peel Run. destruct v2 as [count rows].
  apply read_rows_quiet in Run0 as Q2.
  apply ret_normal in Run as [-> ->]. cbn [fst].
  split; [exact E1|exact (quiet_trans _ _ _ Q1 Q2)].
Qed.

Lemma tables_loop_quiet (items : list Value) (acc : Summary * list TableInfo)
  (st : State) (acc' : Summary * list TableInfo) (st' : State) :
  for_of items (table_step apiUrl apiToken includeRows maxRows) acc st
  = (Normal acc', st') ->
  totalApplications (fst acc') = totalApplications (fst acc) /\ quiet st st'.
Proof.
  intro Run.
  refine (for_of_invariant
            (fun a s => totalApplications (fst a) = totalApplications (fst acc)
                        /\ quiet st s)
            (table_step apiUrl apiToken includeRows maxRows) _ items acc st acc' st' _ Run).
  - intros x a s a' s' [E Q] Step. apply table_step_quiet in Step as [E1 Q1].
    split; [rewrite E1; exact E|exact (quiet_trans _ _ _ Q Q1)].
  - split; [reflexivity|apply quiet_refl].
Qed.

Lemma application_step_facts (application : Value) (acc : Summary * list AppInfo)
  (st : State) (acc' : Summary * list AppInfo) (st' : State) :
  application_step apiUrl apiToken includeRows maxRows application acc st
  = (Normal acc', st') ->
  totalApplications (fst acc') = totalApplications (fst acc)
  /\ (databases_only (snd acc) -> databases_only (snd acc'))
  /\ quiet st st'.
Proof.
  unfold application_step. destruct acc as [s apps]. intro Run.
  peel Run. apply lift_normal in Run0 as [_ ->].
  destruct (strict_eq_string v "database") eqn:Ty; cbn [negb] in Run.
  2:{ apply ret_normal in Run as [-> ->].
      split; [reflexivity|]. split; [intro D; exact D|apply quiet_refl]. }
  apply strict_eq_string_true in Ty. subst v.
  peel Run. apply lift_normal in Run0 as [_ ->].
  peel Run. apply lift_normal in Run0 as [_ ->].
  peel Run. apply do_fetch_normal in Run0 as (w & F & ->).
  assert (Q : forall lines,
             quiet st (mkState w (trace st ++ [(get_request apiUrl apiToken
                         (EpTables (to_string v)), Resolved v1)]) lines))
    by (intro lines; apply quiet_entry; reflexivity).
  destruct (ok v1); cbn [negb] in Run.
  - peel Run. apply lift_normal in Run0 as [_ ->].
    peel Run. apply lift_normal in Run0 as [_ ->].
    peel Run. apply lift_normal in Run0 as [_ ->].
    peel Run. destruct v5 as [s1 infos].
    apply tables_loop_quiet in Run0 as [E1 Q1]. cbn [fst add_tables totalApplications] in E1.
    apply ret_normal in Run as [-> ->]. cbn [fst snd].
    split; [exact E1|]. split; [|exact (quiet_trans _ _ _ (Q _) Q1)].
    intro D. apply Forall_app. split; [exact D|]. repeat constructor.
  - peel Run. unfold warn in Run0. inversion Run0; subst. clear Run0.
    apply ret_normal in Run as [-> ->]. cbn [fst snd world trace console].
    split; [reflexivity|]. split; [|apply Q].
    intro D. apply Forall_app. split; [exact D|]. repeat constructor.
Qed.

Lemma applications_loop_facts (items : list Value) (acc : Summary * list AppInfo)
  (st : State) (acc' : Summary * list AppInfo) (st' : State) :
  for_of items (application_step apiUrl apiToken includeRows maxRows) acc st
  = (Normal acc', st') ->
  totalApplications (fst acc') = totalApplications (fst acc)
  /\ (databases_only (snd acc) -> databases_only (snd acc'))
  /\ quiet st st'.
Proof.
  intro Run.
  refine (for_of_invariant
            (fun a s => totalApplications (fst a) = totalApplications (fst acc)
                        /\ (databases_only (snd acc) -> databases_only (snd a))
                        /\ quiet st s)
            (application_step apiUrl apiToken includeRows maxRows) _ items acc st acc' st'
            _ Run).
  - intros x a s a' s' (E & D & Q) Step.
    apply application_step_facts in Step as (E1 & D1 & Q1).
    split; [rewrite E1; exact E|]. split; [|exact (quiet_trans _ _ _ Q Q1)].
    intro D0. apply D1, D, D0.
  - split; [reflexivity|]. split; [intro D; exact D|apply quiet_refl].
Qed.

End WalkCounts.

Section WalkTotals.
Context {H : Host}.
Variables (apiUrl apiToken : string) (includeRows maxRows : Value).

Lemma zlength_chars (s : string) : zlength (chars s) = zstrlen s.
Proof.
  unfold zlength, zstrlen. f_equal.
  induction s as [|c r IH]; cbn [chars List.length String.length]; [reflexivity|].
  rewrite IH. reflexivity.
Qed.

Lemma js_or_count (k : Z) : js_or (VNum (Num k)) (VNum (Num 0)) = VNum (Num k).
Proof.
  unfold js_or. cbn [truthy]. destruct (k =? 0) eqn:E; cbn [negb]; [|reflexivity].
  apply Z.eqb_eq in E. rewrite E. reflexivity.
Qed.

(** [body.length || 0] is the number of elements the loop over
    [body || []] visits, whenever that loop can start. *)
Lemma length_or_0_visited (body n : Value) (items : list Value) :
  length_or_0 body = Normal n ->
  iterate (js_or body (VArr [])) = Normal items ->
  n = VNum (Num (visited body)).
Proof.
  unfold visited. intros L It. rewrite It.
  destruct body as [| |b|[|z]|s|l|props]; cbn in L; try discriminate L;
    inversion L; subst n; clear L.
  - destruct b; cbn in It; [discriminate It|]. inversion It. reflexivity.
  - cbn in It. inversion It. reflexivity.
  - unfold js_or in It. cbn [truthy] in It.
    destruct (z =? 0); cbn [negb] in It; [|discriminate It].
    inversion It. reflexivity.
  - unfold js_or in It at 1. cbn [truthy] in It.
    destruct (s =? "")%string eqn:E; cbn [negb] in It.
    + apply String.eqb_eq in E. subst s. inversion It. reflexivity.
    + cbn [iterate] in It. inversion It. rewrite zlength_chars. apply js_or_count.
  - cbn in It. inversion It. subst items. apply js_or_count.
  - cbn in It. discriminate It.
Qed.

Lemma nested_databases_push (S : Structure) (id name : Value) (apps : list AppInfo)
  (s : Summary) :
  nested_databases S -> databases_only apps ->
  nested_databases (mkStructure (workspaces S ++ [mkWorkspace id name apps]) s).
Proof.
  intros N D x a Ix Ia. cbn [workspaces] in Ix. apply in_app_or in Ix as [Ix | [<- | []]].
  - exact (N x a Ix Ia).
  - cbn [applications] in Ia. unfold databases_only in D. rewrite Forall_forall in D.
    exact (D a Ia).
Qed.

Lemma workspace_step_facts (workspace : Value) (S : Structure) (st : State)
  (S' : Structure) (st' : State) :
  workspace_step apiUrl apiToken includeRows maxRows workspace S st = (Normal S', st') ->
  (nested_databases S -> nested_databases S')
  /\ forall n, totalApplications (summary S) = VNum (Num n) ->
       exists new, trace st' = (trace st ++ new)%list
         /\ totalApplications (summary S')
            = VNum (Num (n + total applications_returned new)).
Proof.
  unfold workspace_step. intro Run.
  peel Run. apply lift_normal in Run0 as [_ ->].
  peel Run. apply lift_normal in Run0 as [_ ->].
  peel Run. apply do_fetch_normal in Run0 as (w & F & ->).
  destruct (ok v1) eqn:O; cbn [negb] in Run.
  - peel Run. apply lift_normal in Run0 as [J ->].
    peel Run. apply lift_normal in Run0 as [L ->].
    peel Run. apply lift_normal in Run0 as [It ->].
    peel Run. destruct v5 as [s1 infos].
    apply applications_loop_facts in Run0 as (E1 & D1 & (new1 & T1 & Z1)).
    cbn [fst snd add_applications totalApplications] in E1, D1.
    apply ret_normal in Run as [-> ->].
    split; [intro N; apply nested_databases_push; [exact N|apply D1; constructor]|].
    intros n Tn. cbn [trace] in T1.
    exists ((get_request apiUrl apiToken (EpApplications (to_string v)), Resolved v1)
            :: new1).
    split; [rewrite T1, <- app_assoc; reflexivity|].
    cbn [summary]. rewrite E1, Tn, (length_or_0_visited _ _ _ L It).
    unfold total. cbn [fold_right]. fold (total applications_returned new1).
    rewrite Z1. unfold applications_returned at 1.
    cbn [fst snd endpoint get_request json_request]. rewrite O, J.
    cbn [js_add is_textual orb to_number_primitive]. do 2 f_equal. ring.
  - peel Run. unfold warn in Run0. inversion Run0; subst. clear Run0.
    apply ret_normal in Run as [-> ->]. cbn [world trace console].
    split; [intro N; apply nested_databases_push; [exact N|constructor]|].
    intros n Tn. eexists. split; [reflexivity|].
    cbn [summary]. rewrite Tn. unfold total. cbn [fold_right].
    unfold applications_returned. cbn [fst snd endpoint get_request json_request].
    rewrite O. do 2 f_equal. ring.
Qed.

Lemma read_structure_facts (st : State) (res : StructureResult) (st' : State) :
  read_structure apiUrl apiToken includeRows maxRows st = (Normal res, st') ->
  nested_databases (structure res)
  /\ exists new, trace st' = (trace st ++ new)%list
       /\ totalApplications (summary (structure res))
          = VNum (Num (total applications_returned new)).
Proof.
  unfold read_structure. intro Run.
  peel Run. apply do_fetch_normal in Run0 as (w & F & ->).
  destruct (ok v); cbn [negb] in Run; [|discriminate Run].
  peel Run. apply lift_normal in Run0 as [_ ->].
  peel Run. apply lift_normal in Run0 as [_ ->].
  peel Run. apply lift_normal in Run0 as [_ ->].
  peel Run. apply lift_normal in Run0 as [_ ->].
  peel Run. apply ret_normal in Run as [-> ->]. cbn [structure].
  set (root := (get_request apiUrl apiToken EpWorkspaces, Resolved v)) in *.
  assert (Inv : nested_databases v4
                /\ exists new, trace st0 = (trace st ++ root :: new)%list
                     /\ totalApplications (summary v4)
                        = VNum (Num (total applications_returned new))).
  { refine (for_of_invariant
              (fun S s =>
                 nested_databases S
                 /\ exists new, trace s = (trace st ++ root :: new)%list
                      /\ totalApplications (summary S)
                         = VNum (Num (total applications_returned new)))
              (workspace_step apiUrl apiToken includeRows maxRows) _ _ _ _ _ _ _ Run0).
    - intros x S s S' s' (N & new & T & Tot) Step.
      apply workspace_step_facts in Step as (N1 & C1).
      destruct (C1 _ Tot) as (new1 & T1 & Tot1).
      split; [exact (N1 N)|]. exists (new ++ new1)%list. split.
      + rewrite T1, T, <- app_assoc. reflexivity.
      + rewrite Tot1, total_app. reflexivity.
    - split; [intros x a []|]. exists []. split; reflexivity. }
  destruct Inv as (N & new & T & Tot).
  split; [exact N|]. exists (root :: new). split; [exact T|].
  rewrite Tot. unfold total. cbn [fold_right]. reflexivity.
Qed.

End WalkTotals.

(** C8. In every structure the walk returns, each application nested
    under a workspace has type ["database"]; and
    [summary.totalApplications] is the number of applications returned by
    the successful applications listings of the run, whatever their type. *)
Theorem databases_nested_applications_counted {H : Host}
  (env : Env) (includeRows maxRows : Value) (st : State)
  (res : StructureResult) (st' : State) :
  readBaserowStructure env includeRows maxRows st = (Normal res, st') ->
  (forall w a, In w (workspaces (structure res)) -> In a (applications w) ->
               app_type a = VStr "database")
  /\ forall new, trace st' = (trace st ++ new)%list ->
       totalApplications (summary (structure res))
       = VNum (Num (total applications_returned new)).
Proof.
  unfold readBaserowStructure. destruct (env_missing env); [discriminate|].
  intro Run. apply try_rethrow_normal in Run.
  apply read_structure_facts in Run as (N & new0 & T0 & Tot).
  split; [exact N|].
  intros new T. rewrite T0 in T. apply app_inv_head in T. subst new0.
  exact Tot.
Qed.

Lemma databases_nested_applications_counted_witness :
  backend_walk = (Normal backend_result, snd backend_walk)
  /\ totalApplications (summary (structure backend_result)) = int 2
  /\ map app_id (List.concat (map applications (workspaces (structure backend_result))))
     = [int 101].
Proof.
  assert (Run : backend_walk = (Normal backend_result, snd backend_walk)) by reflexivity.
  split; [exact Run|].
  destruct (databases_nested_applications_counted (H := backend) test_env VUndefined
              VUndefined backend_start backend_result (snd backend_walk) Run) as [_ C].
  split; [|reflexivity].
  rewrite (C (trace (snd backend_walk)) eq_refl). reflexivity.
Defined.

(* ================================================================== *)
(** ** After the upload *)

Section AfterUpload.
Context {H : Host}.

Lemma uploadImageUrl_after_upload (env : Env) (url filename tableId rowId fieldName : Value)
  (st : State) (up : Response) (w1 : World) (uploadResult : Value) :
  let apiUrl := env_string (BASEROW_API_URL env) in
  let apiToken := env_string (BASEROW_API_TOKEN env) in
  let req := upload_url_request apiUrl apiToken url filename in
  env_missing env = false ->
  fetch req (world st) = (Resolved up, w1) ->
  ok up = true ->
  json up = Normal uploadResult ->
  uploadImageUrl env url filename tableId rowId fieldName st
  = attach_phase "Upload failed: " apiUrl apiToken uploadResult tableId rowId fieldName
      (mkState w1 (trace st ++ [(req, Resolved up)]) (console st)).
Proof.
  intros apiUrl apiToken req E F O J.
  unfold uploadImageUrl, attach_phase. rewrite E. fold apiUrl apiToken req.
  unfold try_catch, bind at 1. rewrite (do_fetch_resolved _ _ _ _ F).
  unfold bind at 1, upload_result. rewrite O. cbn [negb]. unfold lift. rewrite J.
  reflexivity.
Qed.

Lemma uploadFile_after_upload (env : Env) (filePath : string)
  (filename tableId rowId fieldName : Value) (st : State) (fileBuffer : list Byte.byte)
  (up : Response) (w1 : World) (uploadResult : Value) :
  let apiUrl := env_string (BASEROW_API_URL env) in
  let apiToken := env_string (BASEROW_API_TOKEN env) in
  let req := upload_file_request apiUrl apiToken fileBuffer
               (js_or filename (VStr (basename filePath))) in
  env_missing env = false ->
  existsSync filePath = true ->
  readFileSync filePath = Normal fileBuffer ->
  fetch req (world st) = (Resolved up, w1) ->
  ok up = true ->
  json up = Normal uploadResult ->
  uploadFile env filePath filename tableId rowId fieldName st
  = attach_phase "File upload failed: " apiUrl apiToken uploadResult tableId rowId
      fieldName (mkState w1 (trace st ++ [(req, Resolved up)]) (console st)).
Proof.
  intros apiUrl apiToken req E X R F O J.
  unfold uploadFile, attach_phase. rewrite E, X. fold apiUrl apiToken. cbn [negb].
  unfold try_catch, bind at 1, lift at 1. rewrite R. fold req.
  unfold bind at 1. rewrite (do_fetch_resolved _ _ _ _ F).
  unfold bind at 1, upload_result. rewrite O. cbn [negb]. unfold lift. rewrite J.
  reflexivity.
Qed.

(** Every outcome of the attach phase, by what the PATCH request meets. *)
Lemma attach_phase_outcomes
  (prefix apiUrl apiToken : string) (uploadResult tableId rowId fieldName : Value)
  (st : State) :
  truthy tableId && truthy rowId && truthy fieldName = true ->
  exists fieldId st1,
    getFieldId tableId fieldName apiUrl apiToken st = (Normal fieldId, st1)
    /\ (truthy fieldId = false ->
        attach_phase prefix apiUrl apiToken uploadResult tableId rowId fieldName st
        = (Normal (mkResult true uploadResult None
                     (Some (resolve_message fieldName tableId))), st1))
    /\ (truthy fieldId = true ->
        forall outcome w,
          fetch (update_request apiUrl apiToken tableId rowId fieldId uploadResult)
            (world st1) = (outcome, w) ->
          fst (attach_phase prefix apiUrl apiToken uploadResult tableId rowId fieldName st)
          = match outcome with
            | Rejected e => Throw (Error (prefix ++ message e))
            | Resolved r =>
                if ok r then
                  match json r with
                  | Normal row => Normal (mkResult true uploadResult (Some row) None)
                  | Throw e => Throw (Error (prefix ++ message e))
                  end
                else
                  match text r with
                  | Normal _ =>
                      Normal (mkResult true uploadResult None (Some (patch_message r)))
                  | Throw e => Throw (Error (prefix ++ message e))
                  end
            end).
Proof.
  intro C.
  destruct (getFieldId_returns tableId fieldName apiUrl apiToken st) as (fieldId & st1 & G).
  exists fieldId, st1. split; [exact G|].
  split; intro T; unfold attach_phase, try_catch, update_row; rewrite C;
    unfold bind at 1; rewrite G; cbv beta iota; rewrite T; cbn [negb]; [reflexivity|].
  intros outcome w F. unfold bind at 1, do_fetch. rewrite F.
  destruct outcome as [e | r]; [reflexivity|].
  destruct (ok r); cbn [negb]; unfold bind, lift, warn, ret, throw.
  - destruct (json r); reflexivity.
  - destruct (text r); reflexivity.
Qed.

End AfterUpload.


(* ================================================================== *)
(** ** A failed resolution, seen from the caller *)

Section UnknownNameReported.
Context {H : Host}.




End UnknownNameReported.


(* ================================================================== *)
(** ** Failures before and during the upload *)

Section EarlyFailures.
Context {H : Host}.

Lemma env_missing_cases (env : Env) :
  BASEROW_API_URL env = None \/ BASEROW_API_URL env = Some ""
  \/ BASEROW_API_TOKEN env = None \/ BASEROW_API_TOKEN env = Some "" ->
  env_missing env = true.
Proof.
  unfold env_missing. destruct env as [u t]. cbn [BASEROW_API_URL BASEROW_API_TOKEN].
  intros [-> | [-> | [-> | ->]]]; cbn; try reflexivity; apply orb_true_r.
Qed.

(** X1. With either environment variable unset or empty, the three
    exported functions throw the configuration error at once: no request
    is made, nothing is logged. *)
Theorem missing_configuration_is_fatal (env : Env) :
  BASEROW_API_URL env = None \/ BASEROW_API_URL env = Some ""
  \/ BASEROW_API_TOKEN env = None \/ BASEROW_API_TOKEN env = Some "" ->
  forall (url : Value) (filePath : string)
         (filename tableId rowId fieldName includeRows maxRows : Value) (st : State),
    uploadImageUrl env url filename tableId rowId fieldName st = (Throw env_error, st)
    /\ uploadFile env filePath filename tableId rowId fieldName st = (Throw env_error, st)
    /\ readBaserowStructure env includeRows maxRows st = (Throw env_error, st).
Proof.
  intros E url filePath filename tableId rowId fieldName includeRows maxRows st.
  apply env_missing_cases in E.
  unfold uploadImageUrl, uploadFile, readBaserowStructure. rewrite E.
  repeat split.
Qed.

(** X2. [uploadFile] on a path that does not exist, or that cannot be
    read, throws [File upload failed: ] followed by the cause, before any
    request. *)
Theorem unreadable_file_is_fatal (env : Env) (filePath : string)
  (filename tableId rowId fieldName : Value) (st : State) :
  env_missing env = false ->
  (existsSync filePath = false ->
   uploadFile env filePath filename tableId rowId fieldName st
   = (Throw (Error ("File upload failed: File not found: " ++ filePath)), st))
  /\ (forall e, existsSync filePath = true -> readFileSync filePath = Throw e ->
      uploadFile env filePath filename tableId rowId fieldName st
      = (Throw (Error ("File upload failed: " ++ message e)), st)).
Proof.
  intro E. unfold uploadFile. rewrite E. split.
  - intro X. rewrite X. reflexivity.
  - intros e X R. rewrite X. cbn [negb]. unfold try_catch, bind, lift. rewrite R.
    reflexivity.
Qed.

(** X3. An upload request that is rejected, refused or answered with an
    unreadable body is fatal: the function throws its prefix followed by
    the cause, and that request is the only one made. *)
Theorem upload_failure_is_fatal (env : Env) :
  let apiUrl := env_string (BASEROW_API_URL env) in
  let apiToken := env_string (BASEROW_API_TOKEN env) in
  env_missing env = false ->
  (forall (url filename tableId rowId fieldName : Value) (st : State)
          (outcome : FetchOutcome) (w : World) (cause : string),
      let req := upload_url_request apiUrl apiToken url filename in
      fetch req (world st) = (outcome, w) ->
      upload_failure outcome = Some cause ->
      uploadImageUrl env url filename tableId rowId fieldName st
      = (Throw (Error ("Upload failed: " ++ cause)),
         mkState w (trace st ++ [(req, outcome)]) (console st)))
  /\ (forall (filePath : string) (filename tableId rowId fieldName : Value) (st : State)
             (fileBuffer : list Byte.byte) (outcome : FetchOutcome) (w : World)
             (cause : string),
         let req := upload_file_request apiUrl apiToken fileBuffer
                      (js_or filename (VStr (basename filePath))) in
         existsSync filePath = true ->
         readFileSync filePath = Normal fileBuffer ->
         fetch req (world st) = (outcome, w) ->
         upload_failure outcome = Some cause ->
         uploadFile env filePath filename tableId rowId fieldName st
         = (Throw (Error ("File upload failed: " ++ cause)),
            mkState w (trace st ++ [(req, outcome)]) (console st))).
Proof.
  intros apiUrl apiToken E. split.
  - intros url filename tableId rowId fieldName st outcome w cause req F C.
    unfold uploadImageUrl. rewrite E. fold apiUrl apiToken req.
    unfold try_catch, bind at 1, do_fetch. rewrite F.
    destruct outcome as [e | r]; cbn in C.
    + inversion C. reflexivity.
    + unfold bind at 1, upload_result. destruct (ok r); cbn [negb].
      * unfold lift. destruct (json r); [discriminate C|]. inversion C. reflexivity.
      * unfold bind, lift, throw. destruct (text r); inversion C; reflexivity.
  - intros filePath filename tableId rowId fieldName st fileBuffer outcome w cause req
      X R F C.
    unfold uploadFile. rewrite E, X. fold apiUrl apiToken. cbn [negb].
    unfold try_catch, bind at 1, lift at 1. rewrite R. fold req.
    unfold bind at 1, do_fetch. rewrite F.
    destruct outcome as [e | r]; cbn in C.
    + inversion C. reflexivity.
    + unfold bind at 1, upload_result. destruct (ok r); cbn [negb].
      * unfold lift. destruct (json r); [discriminate C|]. inversion C. reflexivity.
      * unfold bind, lift, throw. destruct (text r); inversion C; reflexivity.
Qed.

End EarlyFailures.

Lemma missing_configuration_is_fatal_witness :
  uploadImageUrl (mkEnv (Some "https://api.baserow.io") (Some "")) mockUrl VUndefined
    VUndefined VUndefined VUndefined (start [ok_json mockUploadData])
  = (Throw env_error, start [ok_json mockUploadData]).
Proof.
  exact (proj1 (missing_configuration_is_fatal (H := scripted)
                  (mkEnv (Some "https://api.baserow.io") (Some ""))
                  (or_intror (or_intror (or_intror eq_refl)))
                  mockUrl "" VUndefined VUndefined VUndefined VUndefined VUndefined
                  VUndefined (start [ok_json mockUploadData]))).
Defined.

Lemma unreadable_file_is_fatal_witness :
  uploadFile test_env "/nonexistent/path/file.jpg" VUndefined VUndefined VUndefined
    VUndefined (start [])
  = (Throw (Error "File upload failed: File not found: /nonexistent/path/file.jpg"),
     start []).
Proof.
  exact (proj1 (unreadable_file_is_fatal (H := scripted) test_env
                  "/nonexistent/path/file.jpg" VUndefined VUndefined VUndefined
                  VUndefined (start []) eq_refl) eq_refl).
Defined.

Lemma upload_failure_is_fatal_witness :
  fst (uploadImageUrl test_env mockUrl VUndefined VUndefined VUndefined VUndefined
         (start [failed 500 "Internal Server Error" "Server error"]))
  = Throw (Error "Upload failed: Upload failed: 500 Internal Server Error. Server error").
Proof.
  rewrite (proj1 (upload_failure_is_fatal (H := scripted) test_env eq_refl)
             mockUrl VUndefined VUndefined VUndefined VUndefined
             (start [failed 500 "Internal Server Error" "Server error"])
             (failed 500 "Internal Server Error" "Server error") []
             "Upload failed: 500 Internal Server Error. Server error"
             eq_refl eq_refl).
  reflexivity.
Defined.

(* ================================================================== *)
(** ** More on field resolution *)

Section ResolverMore.
Context {H : Host}.

Lemma getFieldId_lookup
  (tableId ref : Value) (apiUrl apiToken : string) (st : State) :
  exists v st',
    getFieldId tableId ref apiUrl apiToken st = (Normal v, st')
    /\ (trace st' = trace st
        \/ exists outcome,
            trace st'
            = (trace st
               ++ [(json_request GET apiUrl apiToken (EpFields (to_string tableId)) NoBody,
                    outcome)])%list).
Proof.
  unfold getFieldId, try_catch.
  destruct (negb (isNaN ref) || regex_digits (to_string ref)).
  { eexists. eexists. split; [reflexivity|left; reflexivity]. }
  destruct ref as [| |b|n|s|l|props];
    try (eexists; eexists; split; [reflexivity|left; reflexivity]).
  destruct (prefixed_id s) as [n|].
  { eexists. eexists. split; [reflexivity|left; reflexivity]. }
  unfold resolve_by_name, bind at 1, do_fetch.
  destruct (fetch _ (world st)) as [[e | r] w].
  { eexists. eexists. split; [reflexivity|right; eexists; reflexivity]. }
  destruct (ok r); cbn [negb]; unfold bind, lift, throw, warn, ret.
  2:{ eexists. eexists. split; [reflexivity|right; eexists; reflexivity]. }
  destruct (json r) as [fields | e];
    [|eexists; eexists; split; [reflexivity|right; eexists; reflexivity]].
  destruct (array_find fields s) as [field | e];
    [|eexists; eexists; split; [reflexivity|right; eexists; reflexivity]].
  destruct (truthy field); cbn [negb];
    [|eexists; eexists; split; [reflexivity|right; eexists; reflexivity]].
  destruct (get_prop field "id");
    eexists; eexists; (split; [reflexivity|right; eexists; reflexivity]).
Qed.

(** X4. [getFieldId] never throws, and makes at most one request: a GET
    of the table's fields. *)
Theorem getFieldId_makes_at_most_one_lookup
  (tableId ref : Value) (apiUrl apiToken : string) (st : State) :
  exists v st',
    getFieldId tableId ref apiUrl apiToken st = (Normal v, st')
    /\ (trace st' = trace st
        \/ exists outcome,
            trace st'
            = (trace st
               ++ [(json_request GET apiUrl apiToken (EpFields (to_string tableId)) NoBody,
                    outcome)])%list).
Proof.
  exact (getFieldId_lookup tableId ref apiUrl apiToken st).
Qed.

(** X5. For a reference in name form, a fields request that is rejected,
    refused or answered with an unreadable body is absorbed: [getFieldId]
    logs the cause and answers [null]. *)
Theorem failed_lookup_resolves_to_null
  (tableId : Value) (name apiUrl apiToken : string) (st : State)
  (outcome : FetchOutcome) (w : World) (cause : string) :
  let req := json_request GET apiUrl apiToken (EpFields (to_string tableId)) NoBody in
  isNaN_string name = true ->
  prefixed_id name = None ->
  fetch req (world st) = (outcome, w) ->
  lookup_failure outcome = Some cause ->
  getFieldId tableId (VStr name) apiUrl apiToken st
  = (Normal VNull,
     mkState w (trace st ++ [(req, outcome)])
       (console st ++ ["Field resolution failed: " ++ cause])).
Proof.
  intros req N P F C.
  unfold getFieldId, try_catch. cbn [isNaN to_string].
  rewrite N, (isNaN_string_not_digits _ N), P. cbn [negb orb].
  unfold resolve_by_name, bind at 1, do_fetch. fold req. rewrite F.
  destruct outcome as [e | r]; cbn in C.
  - inversion C. reflexivity.
  - destruct (ok r); cbn [negb].
    + unfold bind at 1, lift at 1. destruct (json r) as [v | e]; [discriminate C|].
      inversion C. reflexivity.
    + inversion C. reflexivity.
Qed.



(** X7. A reference [getFieldId] answers by itself with [0] or [NaN]
    ("0", "field_0", "field_", blank text) counts as unresolved: after the
    upload the function returns [row_update_error], and the upload is the
    only request made. *)
Theorem zero_id_is_reported_unresolved
  (env : Env) (url filename tableId rowId ref : Value) (n : JsNumber) (st : State)
  (up : Response) (w : World) (uploadResult : Value) :
  let apiUrl := env_string (BASEROW_API_URL env) in
  let apiToken := env_string (BASEROW_API_TOKEN env) in
  let req := upload_url_request apiUrl apiToken url filename in
  env_missing env = false ->
  fetch req (world st) = (Resolved up, w) ->
  ok up = true ->
  json up = Normal uploadResult ->
  truthy tableId && truthy rowId && truthy ref = true ->
  resolves_directly ref n ->
  truthy (VNum n) = false ->
  uploadImageUrl env url filename tableId rowId ref st
  = (Normal (mkResult true uploadResult None (Some (resolve_message ref tableId))),
     mkState w (trace st ++ [(req, Resolved up)]) (console st)).
Proof.
  intros apiUrl apiToken req E F O J C D T.
  rewrite (uploadImageUrl_after_upload env url filename tableId rowId ref st up w
             uploadResult E F O J).
  fold apiUrl apiToken req.
  unfold attach_phase, try_catch, update_row. rewrite C. unfold bind at 1.
  assert (G : forall st0, getFieldId tableId ref apiUrl apiToken st0
                          = (Normal (VNum n), st0)).
  { intro st0. destruct D as [[D ->] | (s & -> & D & P)].
    - apply getFieldId_direct. exact D.
    - unfold getFieldId, try_catch. rewrite D, P. reflexivity. }
  rewrite G, T. reflexivity.
Qed.

End ResolverMore.

Lemma failed_lookup_resolves_to_null_witness :
  getFieldId (VStr "123") (VStr "image_field") "https://api.baserow.io" "test_token"
    (start [failed 403 "Forbidden" ""])
  = (Normal VNull,
     mkState (H := scripted) []
       [(json_request GET "https://api.baserow.io" "test_token" (EpFields "123") NoBody,
         failed 403 "Forbidden" "")]
       ["Field resolution failed: Failed to get fields: 403"]).
Proof.
  exact (failed_lookup_resolves_to_null (H := scripted) (VStr "123") "image_field"
           "https://api.baserow.io" "test_token" (start [failed 403 "Forbidden" ""])
           (failed 403 "Forbidden" "") [] "Failed to get fields: 403"
           eq_refl eq_refl eq_refl eq_refl).
Defined.


Lemma zero_id_is_reported_unresolved_witness :
  resolves_directly (H := scripted) (VStr "field_0") (Num 0)
  /\ fst (uploadImageUrl test_env mockUrl VUndefined (VStr "123") (VStr "456")
            (VStr "field_0") (start [ok_json mockUploadData; ok_json mockRowData]))
     = Normal (mkResult true mockUploadData None
                 (Some ("Failed to resolve field " ++ dquote ++ "field_0" ++ dquote
                        ++ " in table 123"))).
Proof.
  assert (D : resolves_directly (H := scripted) (VStr "field_0") (Num 0)).
  { right. exists "field_0". repeat split. }
  split; [exact D|].
  rewrite (zero_id_is_reported_unresolved (H := scripted) test_env mockUrl VUndefined
             (VStr "123") (VStr "456") (VStr "field_0") (Num 0)
             (start [ok_json mockUploadData; ok_json mockRowData])
             (mkResponse true 200 "OK" (Normal mockUploadData) (Normal ""))
             [ok_json mockRowData] mockUploadData
             eq_refl eq_refl eq_refl eq_refl eq_refl D eq_refl).
  reflexivity.
Defined.

(* ================================================================== *)
(** ** Printing an identifier and reading it back *)

Lemma all_digits_uint (d : Decimal.uint) : all_digits (NilEmpty.string_of_uint d) = true.
Proof. induction d; cbn; auto. Qed.

Lemma span_radix_uint (d : Decimal.uint) :
  forall seen acc,
    snd (fst (span_radix 10 (NilEmpty.string_of_uint d) seen acc)) = uint_value d acc.
Proof.
  induction d; intros seen acc;
    cbn [NilEmpty.string_of_uint span_radix uint_value]; try reflexivity;
    match goal with
    | |- context [radix_val 10 ?c] =>
        change (radix_val 10 c) with (Some (digit_val c))
    end;
    cbv beta iota; rewrite IHd; f_equal;
    match goal with
    | |- context [digit_val ?c] =>
        let v := eval vm_compute in (digit_val c) in change (digit_val c) with v
    end; lia.
Qed.

Lemma uint_value_pos (d : Decimal.uint) :
  forall p, uint_value d (Z.pos p) = Z.pos (Pos.of_uint_acc d p).
Proof.
  induction d; intro p; cbn [uint_value Pos.of_uint_acc]; try reflexivity;
    rewrite <- IHd; f_equal; lia.
Qed.

Lemma uint_value_0 (d : Decimal.uint) : uint_value d 0 = Z.of_N (Pos.of_uint d).
Proof.
  induction d; cbn [uint_value Pos.of_uint]; try reflexivity; try exact IHd;
    cbn [Z.mul Z.add Z.of_N]; apply uint_value_pos.
Qed.

Lemma digits_value_uint (d : Decimal.uint) :
  digits_value (NilEmpty.string_of_uint d) = Z.of_N (Pos.of_uint d).
Proof.
  rewrite <- uint_value_0, <- (span_radix_uint d false 0).
  rewrite (span_radix_digits _ (all_digits_uint d) false 0). cbn. reflexivity.
Qed.

(** The decimal rendering of a natural number is a digit string denoting
    it. *)
Lemma decimal_digits (z : Z) :
  0 <= z -> regex_digits (decimal z) = true /\ digits_value (decimal z) = z.
Proof.
  intro P. destruct z as [|p|p]; [split; reflexivity| |lia].
  unfold decimal. cbn [Z.to_int NilZero.string_of_int].
  pose proof (Unsigned.to_uint_nonnil p) as NN.
  assert (E : NilZero.string_of_uint (Pos.to_uint p)
              = NilEmpty.string_of_uint (Pos.to_uint p)).
  { destruct (Pos.to_uint p); [contradiction|reflexivity..]. }
  rewrite E. split.
  - unfold regex_digits. rewrite all_digits_uint, andb_true_r.
    destruct (Pos.to_uint p); [contradiction|reflexivity..].
  - rewrite digits_value_uint, Unsigned.of_to. reflexivity.
Qed.

Section RoundTrip.
Context {H : Host}.

(** X8. On a host that prints natural numbers in decimal, an identifier
    written out is read back: [parseInt] of its rendering is the
    identifier, and the key [updatePayload] writes for it, given as a
    field reference, resolves to it again without a request, as do its
    digits and the number itself. *)
Theorem payload_key_resolves_back
  (z : Z) (tableId uploadResult : Value) (apiUrl apiToken : string) (st : State) :
  0 <= z ->
  number_to_string z = decimal z ->
  parseInt_string (decimal z) = Num z
  /\ isNaN_string (decimal z) = false
  /\ (exists key,
        updatePayload (VNum (Num z)) uploadResult = VObj [(key, VArr [uploadResult])]
        /\ getFieldId tableId (VStr key) apiUrl apiToken st = (Normal (VNum (Num z)), st))
  /\ getFieldId tableId (VStr (decimal z)) apiUrl apiToken st = (Normal (VNum (Num z)), st)
  /\ getFieldId tableId (VNum (Num z)) apiUrl apiToken st = (Normal (VNum (Num z)), st).
Proof.
  intros P Pr. destruct (decimal_digits z P) as [D V].
  assert (PI : parseInt_string (decimal z) = Num z)
    by (rewrite (parseInt_string_digits _ D), V; reflexivity).
  split; [exact PI|]. split; [exact (isNaN_string_digits _ D)|].
  split; [|split].
  - exists ("field_" ++ decimal z). unfold updatePayload. cbn [to_string]. rewrite Pr.
    split; [reflexivity|].
    assert (A : all_digits (decimal z) = true).
    { unfold regex_digits in D. apply andb_true_iff in D. apply D. }
    unfold getFieldId, try_catch. cbn [isNaN to_string].
    rewrite (isNaN_string_prefixed _ A).
    change (regex_digits ("field_" ++ decimal z)) with false. cbn [negb orb].
    rewrite (prefixed_id_digits _ D), V. reflexivity.
  - rewrite getFieldId_direct by (cbn [to_string]; rewrite D; apply orb_true_r).
    unfold parseInt. cbn [to_string]. rewrite PI. reflexivity.
  - rewrite getFieldId_direct by reflexivity.
    unfold parseInt. cbn [to_string]. rewrite Pr, PI. reflexivity.
Qed.

End RoundTrip.

Lemma payload_key_resolves_back_witness :
  exists key,
    updatePayload (H := scripted) (int 789) mockUploadData
    = VObj [(key, VArr [mockUploadData])]
    /\ getFieldId (VStr "123") (VStr key) "https://api.baserow.io" "test_token" (start [])
       = (Normal (int 789), start []).
Proof.
  exact (proj1 (proj2 (proj2 (payload_key_resolves_back (H := scripted) 789 (VStr "123")
                                mockUploadData "https://api.baserow.io" "test_token"
                                (start []) ltac:(lia) eq_refl)))).
Defined.

(* ================================================================== *)
(** ** The requests of an upload, in order *)

Section Protocol.
Context {H : Host}.

Lemma update_row_requests (apiUrl apiToken : string)
  (uploadResult tableId rowId fieldName : Value) (st : State) :
  exists lookups patches,
    trace (snd (update_row apiUrl apiToken uploadResult tableId rowId fieldName st))
    = (trace st ++ lookups ++ patches)%list
    /\ (List.length lookups <= 1)%nat
    /\ (List.length patches <= 1)%nat
    /\ Forall (fun e => fst e = json_request GET apiUrl apiToken
                                  (EpFields (to_string tableId)) NoBody) lookups
    /\ Forall (fun e => method (fst e) = PATCH
                        /\ endpoint (fst e) = EpRow (to_string tableId) (to_string rowId)
                        /\ exists fieldId result,
                            body (fst e)
                            = JsonBody (VObj [("field_" ++ to_string fieldId,
                                               VArr [result])])) patches
    /\ ((lookups ++ patches)%list <> [] ->
        truthy tableId && truthy rowId && truthy fieldName = true).
Proof.
  unfold update_row.
  destruct (truthy tableId && truthy rowId && truthy fieldName).
  2:{ exists [], []. cbn. rewrite app_nil_r.
      repeat split; auto; try (intros; exfalso;
           match goal with N : _ <> _ |- _ => apply N; reflexivity end). }
  destruct (getFieldId_lookup tableId fieldName apiUrl apiToken st)
    as (fieldId & st1 & G & T).
  assert (L : exists lookups,
             trace st1 = (trace st ++ lookups)%list
             /\ (List.length lookups <= 1)%nat
             /\ Forall (fun e => fst e = json_request GET apiUrl apiToken
                                           (EpFields (to_string tableId)) NoBody) lookups).
  { destruct T as [T | [o T]].
    - exists []. rewrite app_nil_r. repeat split; auto.
    - eexists. split; [exact T|]. split; [cbn; lia|]. repeat constructor. }
  destruct L as (lookups & T1 & L1 & F1).
  exists lookups. unfold bind at 1. rewrite G.
  destruct (truthy fieldId); cbn [negb].
  2:{ exists []. cbn [ret snd]. rewrite app_nil_r.
      repeat split; auto. }
  exists [(update_request apiUrl apiToken tableId rowId fieldId uploadResult,
           fst (fetch (update_request apiUrl apiToken tableId rowId fieldId uploadResult)
                  (world st1)))].
  split.
  - unfold bind at 1, do_fetch.
    destruct (fetch _ (world st1)) as [[e | r] w]; cbn [fst snd trace].
    + rewrite T1, app_assoc. reflexivity.
    + rewrite app_assoc, <- T1.
      destruct (ok r); cbn [negb]; unfold bind, lift, warn, ret.
      * destruct (json r); reflexivity.
      * destruct (text r); reflexivity.
  - split; [exact L1|]. split; [cbn; lia|]. split; [exact F1|]. split; [|auto].
    constructor; [|constructor]. cbn. repeat split. eexists. eexists. reflexivity.
Qed.

Lemma upload_protocol_nothing (apiUrl apiToken : string)
  (tableId rowId fieldName : Value) (l : list (Request * FetchOutcome)) :
  upload_protocol apiUrl apiToken tableId rowId fieldName l l.
Proof.
  exists [], [], []. cbn. rewrite app_nil_r.
  repeat split; auto; try (intros; exfalso;
           match goal with N : _ <> _ |- _ => apply N; reflexivity end).
Qed.

Lemma upload_protocol_failed (apiUrl apiToken : string)
  (tableId rowId fieldName : Value) (l : list (Request * FetchOutcome))
  (req : Request) (o : FetchOutcome) :
  method req = POST ->
  endpoint req = EpUploadViaUrl \/ endpoint req = EpUploadFile ->
  upload_protocol apiUrl apiToken tableId rowId fieldName l (l ++ [(req, o)]).
Proof.
  intros Mt Ep. exists [(req, o)], [], []. cbn.
  repeat split; auto; try (intros; exfalso;
           match goal with N : _ <> _ |- _ => apply N; reflexivity end).
Qed.

Lemma upload_protocol_attach (apiUrl apiToken : string)
  (uploadResult tableId rowId fieldName : Value) (st : State)
  (req : Request) (up : Response) (w : World) :
  method req = POST ->
  endpoint req = EpUploadViaUrl \/ endpoint req = EpUploadFile ->
  ok up = true ->
  upload_protocol apiUrl apiToken tableId rowId fieldName (trace st)
    (trace (snd (update_row apiUrl apiToken uploadResult tableId rowId fieldName
                   (mkState w (trace st ++ [(req, Resolved up)]) (console st))))).
Proof.
  intros Mt Ep O.
  destruct (update_row_requests apiUrl apiToken uploadResult tableId rowId fieldName
              (mkState w (trace st ++ [(req, Resolved up)]) (console st)))
    as (lookups & patches & T & L1 & L2 & F1 & F2 & C).
  exists [(req, Resolved up)], lookups, patches.
  split; [rewrite T; cbn [trace]; rewrite <- app_assoc; reflexivity|].
  split; [cbn; lia|]. split; [exact L1|]. split; [exact L2|].
  split; [constructor; [split; assumption|constructor]|].
  split; [exact F1|]. split; [exact F2|].
  intro N. split; [exact (C N)|]. exists req, up. split; [reflexivity|exact O].
Qed.

(** X9. The requests of [uploadImageUrl] and of [uploadFile] follow the
    protocol: the upload first, then at most one lookup of the fields,
    then at most one PATCH; no lookup and no PATCH unless the upload
    succeeded and the three identifiers were given. *)
Theorem uploads_follow_the_protocol
  (env : Env) (url : Value) (filePath : string)
  (filename tableId rowId fieldName : Value) (st : State) :
  let apiUrl := env_string (BASEROW_API_URL env) in
  let apiToken := env_string (BASEROW_API_TOKEN env) in
  upload_protocol apiUrl apiToken tableId rowId fieldName (trace st)
    (trace (snd (uploadImageUrl env url filename tableId rowId fieldName st)))
  /\ upload_protocol apiUrl apiToken tableId rowId fieldName (trace st)
       (trace (snd (uploadFile env filePath filename tableId rowId fieldName st))).
Proof.
  intros apiUrl apiToken. split.
  - unfold uploadImageUrl. destruct (env_missing env); [apply upload_protocol_nothing|].
    fold apiUrl apiToken. unfold try_catch, bind at 1, do_fetch.
    destruct (fetch _ (world st)) as [[e | up] w].
    + cbn. apply upload_protocol_failed; [reflexivity|left; reflexivity].
    + unfold bind at 1, upload_result. destruct (ok up) eqn:O; cbn [negb].
      * unfold lift. destruct (json up) as [uploadResult | e].
        -- pose proof (upload_protocol_attach apiUrl apiToken uploadResult tableId rowId
                         fieldName st (upload_url_request apiUrl apiToken url filename)
                         up w eq_refl (or_introl eq_refl) O) as P.
           destruct (update_row _ _ _ _ _ _ _) as [[r | e] st1]; exact P.
        -- cbn. apply upload_protocol_failed; [reflexivity|left; reflexivity].
      * unfold bind, lift, throw. destruct (text up); cbn;
          (apply upload_protocol_failed; [reflexivity|left; reflexivity]).
  - unfold uploadFile. destruct (env_missing env); [apply upload_protocol_nothing|].
    fold apiUrl apiToken. unfold try_catch.
    destruct (existsSync filePath); cbn [negb]; [|apply upload_protocol_nothing].
    unfold bind at 1, lift at 1.
    destruct (readFileSync filePath) as [fileBuffer | e]; [|apply upload_protocol_nothing].
    unfold bind at 1, do_fetch.
    destruct (fetch _ (world st)) as [[e | up] w].
    + cbn. apply upload_protocol_failed; [reflexivity|right; reflexivity].
    + unfold bind at 1, upload_result. destruct (ok up) eqn:O; cbn [negb].
      * unfold lift. destruct (json up) as [uploadResult | e].
        -- pose proof (upload_protocol_attach apiUrl apiToken uploadResult tableId rowId
                         fieldName st
                         (upload_file_request apiUrl apiToken fileBuffer
                            (js_or filename (VStr (basename filePath))))
                         up w eq_refl (or_intror eq_refl) O) as P.
           destruct (update_row _ _ _ _ _ _ _) as [[r | e] st1]; exact P.
        -- cbn. apply upload_protocol_failed; [reflexivity|right; reflexivity].
      * unfold bind, lift, throw. destruct (text up); cbn;
          (apply upload_protocol_failed; [reflexivity|right; reflexivity]).
Qed.

End Protocol.

(* ================================================================== *)
(** ** What the walk sends *)

Section Emissions.
Context {H : Host}.
Variable P : Request * FetchOutcome -> Prop.

Lemma emits_ret {A} (a : A) : emits P (ret a).
Proof. intro st. exists []. split; [cbn; rewrite app_nil_r; reflexivity|constructor]. Qed.

Lemma emits_throw {A} (e : Exn) : emits P (throw (A := A) e).
Proof. intro st. exists []. split; [cbn; rewrite app_nil_r; reflexivity|constructor]. Qed.

Lemma emits_lift {A} (c : Completion A) : emits P (lift c).
Proof. intro st. exists []. split; [cbn; rewrite app_nil_r; reflexivity|constructor]. Qed.

Lemma emits_warn (line : string) : emits P (warn line).
Proof. intro st. exists []. split; [cbn; rewrite app_nil_r; reflexivity|constructor]. Qed.

Lemma emits_do_fetch (req : Request) :
  (forall outcome, P (req, outcome)) -> emits P (do_fetch req).
Proof.
  intros Preq st. unfold do_fetch.
  destruct (fetch req (world st)) as [[e | r] w];
    (eexists; split; [reflexivity|constructor; [apply Preq|constructor]]).
Qed.

Lemma emits_bind {A B} (m : M A) (k : A -> M B) :
  emits P m -> (forall a, emits P (k a)) -> emits P (bind m k).
Proof.
  intros Pm Pk st. unfold bind.
  destruct (Pm st) as (new1 & T1 & F1).
  destruct (m st) as [[a | e] st1]; cbn [fst snd] in *.
  - destruct (Pk a st1) as (new2 & T2 & F2).
    exists (new1 ++ new2)%list. split.
    + rewrite T2, T1, app_assoc. reflexivity.
    + apply Forall_app. split; assumption.
  - exists new1. split; assumption.
Qed.

Lemma emits_try_catch {A} (m : M A) (handler : Exn -> M A) :
  emits P m -> (forall e, emits P (handler e)) -> emits P (try_catch m handler).
Proof.
  intros Pm Ph st. unfold try_catch.
  destruct (Pm st) as (new1 & T1 & F1).
  destruct (m st) as [[a | e] st1]; cbn [fst snd] in *.
  - exists new1. split; assumption.
  - destruct (Ph e st1) as (new2 & T2 & F2).
    exists (new1 ++ new2)%list. split.
    + rewrite T2, T1, app_assoc. reflexivity.
    + apply Forall_app. split; assumption.
Qed.

Lemma emits_for_of {S} (body : Value -> S -> M S) :
  (forall x s, emits P (body x s)) ->
  forall items s, emits P (for_of items body s).
Proof.
  intros Pb items. induction items as [|x rest IH]; intro s; cbn [for_of].
  - apply emits_ret.
  - apply emits_bind; [apply Pb|exact IH].
Qed.

End Emissions.

Create HintDb emission.

Ltac emission :=
  repeat first
    [ solve [auto with emission nocore]
    | apply emits_ret
    | apply emits_throw
    | apply emits_lift
    | apply emits_warn
    | apply emits_for_of; intros
    | apply emits_try_catch; [|intro]
    | apply emits_bind; [|intro]
    | match goal with
      | |- emits _ (if ?c then _ else _) => destruct c eqn:?
      | |- emits _ (let '(_, _) := ?p in _) => destruct p
      end ].

Section WalkRequests.
Context {H : Host}.
Variables (apiUrl apiToken : string) (includeRows maxRows : Value).
Variable P : Request * FetchOutcome -> Prop.

(** [P] holds of every request to a listing, the rows listing being
    asked for only when [includeRows] is truthy, and then for [maxRows]
    rows. *)
Hypothesis listing :
  forall ep outcome,
    is_listing ep ->
    (forall id size, ep = EpRows id size ->
                     truthy includeRows = true /\ size = to_string maxRows) ->
    P (get_request apiUrl apiToken ep, outcome).

Lemma emits_listing (ep : Endpoint) :
  is_listing ep ->
  (forall id size, ep = EpRows id size ->
                   truthy includeRows = true /\ size = to_string maxRows) ->
  emits P (do_fetch (get_request apiUrl apiToken ep)).
Proof. intros L R. apply emits_do_fetch. intro o. apply listing; assumption. Qed.

Lemma emits_read_fields (table_id : Value) (s : Summary) :
  emits P (read_fields apiUrl apiToken table_id s).
Proof.
  unfold read_fields. apply emits_bind; [|intro; emission].
  apply emits_listing; [exact I|intros ? ? E; discriminate E].
Qed.

Lemma emits_read_rows (table_id : Value) :
  emits P (read_rows apiUrl apiToken includeRows maxRows table_id).
Proof.
  unfold read_rows.
  assert (D : truthy includeRows = true \/ truthy includeRows = false)
    by (case (truthy includeRows); auto).
  destruct D as [T | T]; rewrite T; [|apply emits_ret].
  apply emits_bind; [|intro; emission].
  apply emits_listing; [exact I|].
  intros id size E. inversion E. split; [exact T|reflexivity].
Qed.
#[local] Hint Resolve emits_read_fields emits_read_rows : emission.

Lemma emits_table_step (table : Value) (acc : Summary * list TableInfo) :
  emits P (table_step apiUrl apiToken includeRows maxRows table acc).
Proof. unfold table_step. emission. Qed.
#[local] Hint Resolve emits_table_step : emission.

Lemma emits_application_step (application : Value) (acc : Summary * list AppInfo) :
  emits P (application_step apiUrl apiToken includeRows maxRows application acc).
Proof.
  unfold application_step. destruct acc as [s apps].
  apply emits_bind; [emission|intro type].
  destruct (negb (strict_eq_string type "database")); [emission|].
  apply emits_bind; [emission|intro id]. apply emits_bind; [emission|intro name].
  apply emits_bind; [apply emits_listing; [exact I|intros ? ? E; discriminate E]|intro r]. emission.
Qed.
#[local] Hint Resolve emits_application_step : emission.

Lemma emits_workspace_step (workspace : Value) (S : Structure) :
  emits P (workspace_step apiUrl apiToken includeRows maxRows workspace S).
Proof.
  unfold workspace_step.
  apply emits_bind; [emission|intro id]. apply emits_bind; [emission|intro name].
  apply emits_bind; [apply emits_listing; [exact I|intros ? ? E; discriminate E]|intro r]. emission.
Qed.
#[local] Hint Resolve emits_workspace_step : emission.

Lemma emits_read_structure :
  emits P (read_structure apiUrl apiToken includeRows maxRows).
Proof.
  unfold read_structure.
  apply emits_bind; [apply emits_listing; [exact I|intros ? ? E; discriminate E]|intro r]. emission.
Qed.

End WalkRequests.

Section WalkReads.
Context {H : Host}.

Lemma emits_readBaserowStructure (env : Env) (includeRows maxRows : Value)
  (P : Request * FetchOutcome -> Prop) :
  (forall ep outcome,
     is_listing ep ->
     (forall id size, ep = EpRows id size ->
                      truthy (default_to (VBool false) includeRows) = true
                      /\ size = to_string (default_to (VNum (Num 5)) maxRows)) ->
     P (get_request (env_string (BASEROW_API_URL env))
          (env_string (BASEROW_API_TOKEN env)) ep, outcome)) ->
  emits P (readBaserowStructure env includeRows maxRows).
Proof.
  intro L. unfold readBaserowStructure.
  destruct (env_missing env); [apply emits_throw|].
  apply emits_try_catch; [|intro; apply emits_throw].
  apply emits_read_structure. exact L.
Qed.

(** X10. Whatever the backend answers and however the walk ends, every
    request [readBaserowStructure] sends is a GET without body to one of
    the five listings, on the configured base URL and with the configured
    token: the walk writes nothing. *)
Theorem walk_only_reads (env : Env) (includeRows maxRows : Value) :
  emits (walk_request (env_string (BASEROW_API_URL env))
           (env_string (BASEROW_API_TOKEN env)))
    (readBaserowStructure env includeRows maxRows).
Proof.
  apply emits_readBaserowStructure. intros ep o L _.
  repeat split. exact L.
Qed.

(** X11. Every rows request of the walk asks for [maxRows] rows, 5 when
    [maxRows] is not given. *)
Theorem rows_pages_have_the_requested_size (env : Env) (includeRows maxRows : Value) :
  emits (fun entry =>
           forall id size,
             endpoint (fst entry) = EpRows id size ->
             size = to_string (default_to (VNum (Num 5)) maxRows))
    (readBaserowStructure env includeRows maxRows).
Proof.
  apply emits_readBaserowStructure. intros ep o _ R id size E.
  exact (proj2 (R id size E)).
Qed.

End WalkReads.

(* ================================================================== *)
(** ** The structure against the listings *)

(** Peel a [bind] whose first computation is a [lift]. *)
Tactic Notation "step" hyp(Run) "as" simple_intropattern(a) ident(E) :=
  let st1 := fresh "st" in
  let R1 := fresh "R" in
  apply bind_normal in Run; destruct Run as (a & st1 & R1 & Run);
  apply lift_normal in R1; destruct R1 as [E ->].

Section WalkShape.
Context {H : Host}.
Variables (apiUrl apiToken : string) (includeRows maxRows : Value).

Lemma advanced_refl (s : Summary) : advanced s s 0 0 0.
Proof.
  unfold advanced. split; [reflexivity|].
  repeat split; intros n E; rewrite E, Z.add_0_r; reflexivity.
Qed.

Lemma advanced_trans (s1 s2 s3 : Summary) (a t f a' t' f' a'' t'' f'' : Z) :
  advanced s1 s2 a t f -> advanced s2 s3 a' t' f' ->
  a'' = a + a' -> t'' = t + t' -> f'' = f + f' ->
  advanced s1 s3 a'' t'' f''.
Proof.
  intros (W1 & A1 & T1 & F1) (W2 & A2 & T2 & F2) -> -> ->.
  split; [congruence|]. repeat split; intros n E.
  - rewrite (A2 _ (A1 _ E)). do 2 f_equal. ring.
  - rewrite (T2 _ (T1 _ E)). do 2 f_equal. ring.
  - rewrite (F2 _ (F1 _ E)). do 2 f_equal. ring.
Qed.

Lemma total_cons {A : Type} (f : A -> Z) (x : A) (l : list A) :
  total f (x :: l) = f x + total f l.
Proof. reflexivity. Qed.

Lemma total_nil {A : Type} (f : A -> Z) : total f [] = 0.
Proof. reflexivity. Qed.

Lemma zlength_cons {A : Type} (x : A) (l : list A) : zlength (x :: l) = zlength l + 1.
Proof. unfold zlength. cbn [List.length]. lia. Qed.

Lemma zlength_app {A : Type} (l1 l2 : list A) :
  zlength (l1 ++ l2) = zlength l1 + zlength l2.
Proof. unfold zlength. rewrite length_app. lia. Qed.

Lemma total_ones {A : Type} (l : list A) : total (fun _ => 1) l = zlength l.
Proof.
  induction l as [|x l IH]; [reflexivity|].
  rewrite total_cons, zlength_cons, IH. ring.
Qed.

Lemma filter_every (items : list Value) : filter every items = items.
Proof. induction items as [|x l IH]; cbn; [reflexivity|rewrite IH; reflexivity]. Qed.

Lemma zlength_filter (keep : Value -> bool) (items : list Value) :
  zlength (filter keep items) <= zlength items.
Proof. unfold zlength. pose proof (filter_length_le keep items). lia. Qed.

Lemma Forall2_zlength {A B : Type} (R : A -> B -> Prop) (l : list A) (l' : list B) :
  Forall2 R l l' -> zlength l' = zlength l.
Proof. intro F. unfold zlength. rewrite (Forall2_length F). reflexivity. Qed.

(** *** Entries found in a longer list *)

Lemma listed_under_incl {A : Type} (l l' : list (Request * FetchOutcome))
  (ep : Endpoint) (keep : Value -> bool) (built : Value -> A -> Prop)
  (children : list A) :
  incl l l' -> listed_under l ep keep built children ->
  listed_under l' ep keep built children.
Proof.
  intros I (req & r & In1 & Ep & K). exists req, r.
  split; [exact (I _ In1)|]. split; [exact Ep|exact K].
Qed.

Lemma mirrors_table_incl (l l' : list (Request * FetchOutcome)) (t : TableInfo) :
  incl l l' -> mirrors_table l t -> mirrors_table l' t.
Proof. intro I. apply listed_under_incl. exact I. Qed.

Lemma mirrors_app_incl (l l' : list (Request * FetchOutcome)) (a : AppInfo) :
  incl l l' -> mirrors_app includeRows l a -> mirrors_app includeRows l' a.
Proof.
  intros I [L F]. split; [exact (listed_under_incl _ _ _ _ _ _ I L)|].
  refine (Forall_impl _ _ F). intro t. apply mirrors_table_incl. exact I.
Qed.

Lemma mirrors_workspace_incl (l l' : list (Request * FetchOutcome)) (w : WorkspaceInfo) :
  incl l l' -> mirrors_workspace includeRows l w -> mirrors_workspace includeRows l' w.
Proof.
  intros I [L F]. split; [exact (listed_under_incl _ _ _ _ _ _ I L)|].
  refine (Forall_impl _ _ F). intro a. apply mirrors_app_incl. exact I.
Qed.

(** *** One table *)

Lemma map_fields_built (items : list Value) (infos : list FieldInfo) :
  map_fields items = Normal infos -> Forall2 field_of items infos.
Proof.
  revert infos. induction items as [|f rest IH]; intros infos M; cbn [map_fields] in M.
  - inversion M. constructor.
  - unfold cbind in M. destruct (field_info f) as [info | e] eqn:Fi; [|discriminate M].
    destruct (map_fields rest) as [rest' | e]; [|discriminate M].
    inversion M. constructor; [exact Fi|apply IH; reflexivity].
Qed.

Lemma read_fields_shape (table_id : Value) (s : Summary) (st : State)
  (s' : Summary) (infos : list FieldInfo) (st' : State) :
  read_fields apiUrl apiToken table_id s st = (Normal (s', infos), st') ->
  exists new,
    trace st' = (trace st ++ new)%list
    /\ listed_under new (EpFields (to_string table_id)) every field_of infos
    /\ advanced s s' 0 0 (zlength infos)
    /\ (forall e ep, In e new -> refused e = Some ep ->
                     ep = EpFields (to_string table_id) /\ infos = []).
Proof.
  unfold read_fields. intro Run. peel Run.
  apply do_fetch_normal in Run0 as (w & F & ->).
  exists [(get_request apiUrl apiToken (EpFields (to_string table_id)), Resolved v)].
  destruct (ok v) eqn:O.
  - step Run as fieldsData J. step Run as n L. step Run as built Mp.
    apply ret_normal in Run as [E ->]. inversion E; subst s' infos. clear E.
    destruct fieldsData as [| |b|k|str|items|props]; cbn in Mp; try discriminate Mp.
    apply map_fields_built in Mp. cbn in L. inversion L; subst n. clear L.
    split; [reflexivity|]. split; [|split].
    + exists (get_request apiUrl apiToken (EpFields (to_string table_id))), v.
      split; [left; reflexivity|]. split; [reflexivity|]. rewrite O.
      exists (VArr items), items. split; [exact J|]. split; [reflexivity|].
      rewrite filter_every. exact Mp.
    + rewrite js_or_count, (Forall2_zlength _ _ _ Mp).
      unfold advanced, add_fields. cbn [totalWorkspaces totalApplications totalTables
                                         totalFields].
      split; [reflexivity|]. repeat split; intros k E; rewrite E.
      * rewrite Z.add_0_r. reflexivity.
      * rewrite Z.add_0_r. reflexivity.
      * reflexivity.
    + intros e ep [<- | []] R. unfold refused in R. cbn [snd] in R.
      rewrite O in R. discriminate R.
  - apply ret_normal in Run as [E ->]. inversion E; subst s' infos. clear E.
    split; [reflexivity|]. split; [|split; [apply advanced_refl|]].
    + exists (get_request apiUrl apiToken (EpFields (to_string table_id))), v.
      split; [left; reflexivity|]. split; [reflexivity|]. rewrite O. reflexivity.
    + intros e ep [<- | []] R. unfold refused in R. cbn [snd fst] in R.
      rewrite O in R. inversion R. split; reflexivity.
Qed.

Lemma read_rows_shape (table_id : Value) (st : State) (count rows : Value)
  (st' : State) :
  read_rows apiUrl apiToken includeRows maxRows table_id st = (Normal (count, rows), st') ->
  exists new,
    trace st' = (trace st ++ new)%list
    /\ (truthy includeRows = false -> count = VNum (Num 0) /\ rows = VArr [])
    /\ (forall e ep, In e new -> refused e = Some ep ->
                     ep = EpRows (to_string table_id) (to_string maxRows)
                     /\ count = VNum (Num 0) /\ rows = VArr []).
Proof.
  unfold read_rows. intro Run. destruct (truthy includeRows).
  - peel Run. apply do_fetch_normal in Run0 as (w & F & ->).
    exists [(get_request apiUrl apiToken (EpRows (to_string table_id) (to_string maxRows)),
             Resolved v)].
    destruct (ok v) eqn:O.
    + step Run as rowsData J. step Run as c C. step Run as r R.
      apply ret_normal in Run as [_ ->].
      split; [reflexivity|]. split; [discriminate|].
      intros e ep [<- | []] Rf. unfold refused in Rf. cbn [snd] in Rf.
      rewrite O in Rf. discriminate Rf.
    + apply ret_normal in Run as [E ->]. inversion E.
      split; [reflexivity|]. split; [discriminate|].
      intros e ep [<- | []] Rf. unfold refused in Rf. cbn [snd fst] in Rf.
      rewrite O in Rf. inversion Rf. repeat split.
  - apply ret_normal in Run as [E ->]. inversion E.
    exists []. split; [rewrite app_nil_r; reflexivity|].
    split; [intros _; split; reflexivity|]. intros e ep [].
Qed.

Lemma table_step_shape (table : Value) (s : Summary) (tabs : list TableInfo)
  (st : State) (s' : Summary) (tabs' : list TableInfo) (st' : State) :
  table_step apiUrl apiToken includeRows maxRows table (s, tabs) st
  = (Normal (s', tabs'), st') ->
  exists new t,
    trace st' = (trace st ++ new)%list
    /\ tabs' = (tabs ++ [t])%list
    /\ table_of includeRows table t
    /\ mirrors_table new t
    /\ advanced s s' 0 0 (fields_in_table t)
    /\ (forall e ep, In e new -> refused e = Some ep -> table_degraded ep t).
Proof.
  unfold table_step. intro Run.
  step Run as id Id. step Run as name Nm. step Run as order Or.
  peel Run. destruct v as [s1 infos].
  apply read_fields_shape in Run0 as (new1 & T1 & L1 & A1 & D1).
  peel Run. destruct v as [count rows].
  apply read_rows_shape in Run0 as (new2 & T2 & B & D2).
  apply ret_normal in Run as [E ->]. inversion E; subst s' tabs'. clear E.
  exists (new1 ++ new2)%list, (mkTable id name order infos count rows).
  split; [rewrite T2, T1, app_assoc; reflexivity|]. split; [reflexivity|].
  split; [|split; [|split]].
  - unfold table_of, bare_table. cbn. repeat split; try assumption; apply B; assumption.
  - refine (mirrors_table_incl new1 _ (mkTable id name order infos count rows) _ L1).
    apply incl_appl, incl_refl.
  - exact A1.
  - intros e ep I R. apply in_app_or in I as [I | I].
    + destruct (D1 e ep I R) as [-> ->]. split; reflexivity.
    + destruct (D2 e ep I R) as (-> & -> & ->). split; [reflexivity|split; reflexivity].
Qed.

Lemma tables_loop_shape (items : list Value) :
  forall (s : Summary) (tabs : list TableInfo) (st : State)
         (s' : Summary) (tabs' : list TableInfo) (st' : State),
    for_of items (table_step apiUrl apiToken includeRows maxRows) (s, tabs) st
    = (Normal (s', tabs'), st') ->
    exists new ts,
      trace st' = (trace st ++ new)%list
      /\ tabs' = (tabs ++ ts)%list
      /\ Forall2 (table_of includeRows) items ts
      /\ Forall (mirrors_table new) ts
      /\ advanced s s' 0 0 (total fields_in_table ts)
      /\ (forall e ep, In e new -> refused e = Some ep -> Exists (table_degraded ep) ts).
Proof.
  induction items as [|x rest IH]; intros s tabs st s' tabs' st' Run; cbn [for_of] in Run.
  - apply ret_normal in Run as [E ->]. inversion E; subst s' tabs'.
    exists [], []. rewrite !app_nil_r.
    split; [reflexivity|]. split; [reflexivity|]. split; [constructor|].
    split; [constructor|]. split; [apply advanced_refl|]. intros e ep [].
  - peel Run. destruct v as [s1 tabs1].
    apply table_step_shape in Run0 as (new1 & t & T1 & -> & Of & Mi & A1 & D1).
    apply IH in Run as (new2 & ts & T2 & -> & Ofs & Mis & A2 & D2).
    exists (new1 ++ new2)%list, (t :: ts).
    split; [rewrite T2, T1, app_assoc; reflexivity|].
    split; [rewrite <- app_assoc; reflexivity|].
    split; [constructor; assumption|]. split; [|split].
    + constructor.
      * refine (mirrors_table_incl new1 _ _ _ Mi). apply incl_appl, incl_refl.
      * refine (Forall_impl _ _ Mis). intro t'. apply mirrors_table_incl.
        apply incl_appr, incl_refl.
    + refine (advanced_trans _ _ _ _ _ _ _ _ _ _ _ _ A1 A2 _ _ _);
        [reflexivity|reflexivity|apply total_cons].
    + intros e ep I R. apply in_app_or in I as [I | I].
      * apply Exists_cons_hd. exact (D1 e ep I R).
      * apply Exists_cons_tl. exact (D2 e ep I R).
Qed.

(** *** One application *)

Lemma bare_tables (items : list Value) (ts : list TableInfo) :
  Forall2 (table_of includeRows) items ts ->
  truthy includeRows = false -> Forall bare_table ts.
Proof.
  intros F B. induction F as [|x t items ts Of _ IH]; constructor; [|exact IH].
  destruct Of as (_ & _ & _ & Bare). exact (Bare B).
Qed.

(** A refused listing below an application is a fields listing or a page
    of rows. *)
Lemma tables_degraded_app (ep : Endpoint) (a : AppInfo) :
  Exists (table_degraded ep) (tables a) -> app_degraded ep a.
Proof.
  intro E. destruct ep; cbn [app_degraded]; try exact E.
  apply Exists_exists in E as (t & _ & []).
Qed.

Lemma apps_degraded_workspace (ep : Endpoint) (w : WorkspaceInfo) :
  Exists (app_degraded ep) (applications w) -> workspace_degraded ep w.
Proof.
  intro E. destruct ep; cbn [workspace_degraded]; try exact E.
  apply Exists_exists in E as (a & _ & D). cbn [app_degraded] in D.
  apply Exists_exists in D as (t & _ & []).
Qed.

Lemma application_step_shape (application : Value) (s : Summary) (apps : list AppInfo)
  (st : State) (s' : Summary) (apps' : list AppInfo) (st' : State) :
  application_step apiUrl apiToken includeRows maxRows application (s, apps) st
  = (Normal (s', apps'), st') ->
  exists new more,
    trace st' = (trace st ++ new)%list
    /\ apps' = (apps ++ more)%list
    /\ Forall2 (app_of includeRows) (if is_database application then [application] else [])
         more
    /\ Forall (mirrors_app includeRows new) more
    /\ advanced s s' 0 (total tables_in_app more) (total fields_in_app more)
    /\ (forall e ep, In e new -> refused e = Some ep -> Exists (app_degraded ep) more).
Proof.
  unfold application_step, is_database. intro Run.
  step Run as type Ty. rewrite Ty.
  destruct (strict_eq_string type "database") eqn:Db; cbn [negb] in Run.
  2:{ apply ret_normal in Run as [E ->]. inversion E; subst s' apps'.
      exists [], []. rewrite !app_nil_r.
      split; [reflexivity|]. split; [reflexivity|]. split; [constructor|].
      split; [constructor|]. split; [apply advanced_refl|]. intros e ep []. }
  step Run as id Id. step Run as name Nm. peel Run.
  apply do_fetch_normal in Run0 as (w & F & ->).
  set (entry := (get_request apiUrl apiToken (EpTables (to_string id)), Resolved v)) in *.
  destruct (ok v) eqn:O; cbn [negb] in Run.
  - step Run as tablesData J. step Run as n L. step Run as items It.
    peel Run. destruct v0 as [s1 infos].
    apply tables_loop_shape in Run0 as (new1 & ts & T1 & E1 & Ofs & Mis & A1 & D1).
    cbn [app] in E1. subst infos.
    apply ret_normal in Run as [E ->]. inversion E; subst s' apps'. clear E.
    exists (entry :: new1), [mkApp id name type ts].
    split; [rewrite T1; cbn [trace]; rewrite <- app_assoc; reflexivity|].
    split; [reflexivity|]. split; [|split; [|split]].
    + constructor; [|constructor]. unfold app_of. cbn.
      repeat split; try assumption. apply (bare_tables items). exact Ofs.
    + constructor; [|constructor]. split; cbn [tables app_id].
      * exists (fst entry), v. split; [left; reflexivity|]. split; [reflexivity|].
        rewrite O. exists tablesData, items. split; [exact J|]. split; [exact It|].
        rewrite filter_every. exact Ofs.
      * refine (Forall_impl _ _ Mis). intro t. apply mirrors_table_incl.
        apply incl_tl, incl_refl.
    + rewrite !total_cons, !total_nil, !Z.add_0_r.
      unfold tables_in_app, fields_in_app. cbn [tables].
      rewrite (Forall2_zlength _ _ _ Ofs).
      refine (advanced_trans s (add_tables n s) s1 0 (zlength items) 0 _ _ _ _ _ _
                _ A1 eq_refl (eq_sym (Z.add_0_r _)) eq_refl).
      rewrite (length_or_0_visited _ _ _ L It). unfold visited. rewrite It.
      unfold advanced, add_tables.
      cbn [totalWorkspaces totalApplications totalTables totalFields].
      split; [reflexivity|]. repeat split; intros k E; rewrite E.
      * rewrite Z.add_0_r. reflexivity.
      * reflexivity.
      * rewrite Z.add_0_r. reflexivity.
    + intros e ep [<- | I] R.
      * unfold refused, entry in R. cbn [snd] in R. rewrite O in R. discriminate R.
      * apply Exists_cons_hd. apply tables_degraded_app. cbn [tables].
        exact (D1 e ep I R).
  - peel Run. unfold warn in Run0. inversion Run0; subst. clear Run0.
    apply ret_normal in Run as [E ->]. inversion E; subst s' apps'. clear E.
    exists [entry], [mkApp id name type []].
    split; [reflexivity|]. split; [reflexivity|]. split; [|split; [|split]].
    + constructor; [|constructor]. unfold app_of. cbn.
      repeat split; try assumption. constructor.
    + constructor; [|constructor]. split; cbn [tables app_id]; [|constructor].
      exists (fst entry), v. split; [left; reflexivity|]. split; [reflexivity|].
      rewrite O. reflexivity.
    + apply advanced_refl.
    + intros e ep [<- | []] R. unfold refused, entry in R. cbn [snd fst] in R.
      rewrite O in R. inversion R. apply Exists_cons_hd. split; reflexivity.
Qed.

Lemma applications_loop_shape (items : list Value) :
  forall (s : Summary) (apps : list AppInfo) (st : State)
         (s' : Summary) (apps' : list AppInfo) (st' : State),
    for_of items (application_step apiUrl apiToken includeRows maxRows) (s, apps) st
    = (Normal (s', apps'), st') ->
    exists new more,
      trace st' = (trace st ++ new)%list
      /\ apps' = (apps ++ more)%list
      /\ Forall2 (app_of includeRows) (filter is_database items) more
      /\ Forall (mirrors_app includeRows new) more
      /\ advanced s s' 0 (total tables_in_app more) (total fields_in_app more)
      /\ (forall e ep, In e new -> refused e = Some ep -> Exists (app_degraded ep) more).
Proof.
  induction items as [|x rest IH]; intros s apps st s' apps' st' Run; cbn [for_of] in Run.
  - apply ret_normal in Run as [E ->]. inversion E; subst s' apps'.
    exists [], []. rewrite !app_nil_r.
    split; [reflexivity|]. split; [reflexivity|]. split; [constructor|].
    split; [constructor|]. split; [apply advanced_refl|]. intros e ep [].
  - peel Run. destruct v as [s1 apps1].
    apply application_step_shape in Run0 as (new1 & more1 & T1 & -> & Of & Mi & A1 & D1).
    apply IH in Run as (new2 & more2 & T2 & -> & Ofs & Mis & A2 & D2).
    exists (new1 ++ new2)%list, (more1 ++ more2)%list.
    split; [rewrite T2, T1, app_assoc; reflexivity|].
    split; [rewrite <- app_assoc; reflexivity|].
    split; [|split; [|split]].
    + cbn [filter]. destruct (is_database x).
      * exact (Forall2_app Of Ofs).
      * inversion Of. exact Ofs.
    + apply Forall_app. split.
      * refine (Forall_impl _ _ Mi). intro a. apply mirrors_app_incl.
        apply incl_appl, incl_refl.
      * refine (Forall_impl _ _ Mis). intro a. apply mirrors_app_incl.
        apply incl_appr, incl_refl.
    + refine (advanced_trans _ _ _ _ _ _ _ _ _ _ _ _ A1 A2 _ _ _);
        [reflexivity|apply total_app|apply total_app].
    + intros e ep I R. apply Exists_app. apply in_app_or in I as [I | I].
      * left. exact (D1 e ep I R).
      * right. exact (D2 e ep I R).
Qed.

(** *** One workspace *)

Lemma bare_applications (items : list Value) (apps : list AppInfo) :
  Forall2 (app_of includeRows) items apps ->
  truthy includeRows = false -> Forall (fun a => Forall bare_table (tables a)) apps.
Proof.
  intros F B. induction F as [|x a items apps Of _ IH]; constructor; [|exact IH].
  destruct Of as (_ & _ & _ & Bare). exact (Bare B).
Qed.

Lemma workspace_step_shape (workspace : Value) (S : Structure) (st : State)
  (S' : Structure) (st' : State) :
  workspace_step apiUrl apiToken includeRows maxRows workspace S st = (Normal S', st') ->
  exists new w da,
    trace st' = (trace st ++ new)%list
    /\ workspaces S' = (workspaces S ++ [w])%list
    /\ workspace_of includeRows workspace w
    /\ mirrors_workspace includeRows new w
    /\ advanced (summary S) (summary S') da (tables_in_workspace w) (fields_in_workspace w)
    /\ apps_in_workspace w <= da
    /\ (forall e ep, In e new -> refused e = Some ep -> workspace_degraded ep w).
Proof.
  unfold workspace_step. intro Run.
  step Run as id Id. step Run as name Nm. peel Run.
  apply do_fetch_normal in Run0 as (w & F & ->).
  set (entry := (get_request apiUrl apiToken (EpApplications (to_string id)), Resolved v))
    in *.
  destruct (ok v) eqn:O; cbn [negb] in Run.
  - step Run as appsData J. step Run as n L. step Run as items It.
    peel Run. destruct v0 as [s1 infos].
    apply applications_loop_shape in Run0
      as (new1 & more & T1 & E1 & Ofs & Mis & A1 & D1).
    cbn [app] in E1. subst infos.
    apply ret_normal in Run as [-> ->].
    exists (entry :: new1), (mkWorkspace id name more), (zlength items).
    split; [rewrite T1; cbn [trace]; rewrite <- app_assoc; reflexivity|].
    split; [reflexivity|]. split; [|split; [|split; [|split]]].
    + unfold workspace_of. cbn. repeat split; try assumption.
      apply (bare_applications (filter is_database items)). exact Ofs.
    + split; cbn [applications ws_id].
      * exists (fst entry), v. split; [left; reflexivity|]. split; [reflexivity|].
        rewrite O. exists appsData, items. split; [exact J|]. split; [exact It|exact Ofs].
      * refine (Forall_impl _ _ Mis). intro a. apply mirrors_app_incl.
        apply incl_tl, incl_refl.
    + cbn [summary]. unfold tables_in_workspace, fields_in_workspace. cbn [applications].
      refine (advanced_trans (summary S) (add_applications n (summary S)) s1
                (zlength items) 0 0 _ _ _ _ _ _ _ A1
                (eq_sym (Z.add_0_r _)) eq_refl eq_refl).
      rewrite (length_or_0_visited _ _ _ L It). unfold visited. rewrite It.
      unfold advanced, add_applications.
      cbn [totalWorkspaces totalApplications totalTables totalFields].
      split; [reflexivity|]. repeat split; intros k E; rewrite E.
      * reflexivity.
      * rewrite Z.add_0_r. reflexivity.
      * rewrite Z.add_0_r. reflexivity.
    + unfold apps_in_workspace. cbn [applications].
      rewrite (Forall2_zlength _ _ _ Ofs). apply zlength_filter.
    + intros e ep [<- | I] R.
      * unfold refused, entry in R. cbn [snd] in R. rewrite O in R. discriminate R.
      * apply apps_degraded_workspace. cbn [applications]. exact (D1 e ep I R).
  - peel Run. unfold warn in Run0. inversion Run0; subst. clear Run0.
    apply ret_normal in Run as [-> ->].
    exists [entry], (mkWorkspace id name []), 0.
    split; [reflexivity|]. split; [reflexivity|]. split; [|split; [|split; [|split]]].
    + unfold workspace_of. cbn. repeat split; try assumption. constructor.
    + split; cbn [applications ws_id]; [|constructor].
      exists (fst entry), v. split; [left; reflexivity|]. split; [reflexivity|].
      rewrite O. reflexivity.
    + apply advanced_refl.
    + reflexivity.
    + intros e ep [<- | []] R. unfold refused, entry in R. cbn [snd fst] in R.
      rewrite O in R. inversion R. split; reflexivity.
Qed.

Lemma workspaces_loop_shape (items : list Value) :
  forall (S : Structure) (st : State) (S' : Structure) (st' : State),
    for_of items (workspace_step apiUrl apiToken includeRows maxRows) S st
    = (Normal S', st') ->
    exists new ws da,
      trace st' = (trace st ++ new)%list
      /\ workspaces S' = (workspaces S ++ ws)%list
      /\ Forall2 (workspace_of includeRows) items ws
      /\ Forall (mirrors_workspace includeRows new) ws
      /\ advanced (summary S) (summary S') da
           (total tables_in_workspace ws) (total fields_in_workspace ws)
      /\ total apps_in_workspace ws <= da
      /\ (forall e ep, In e new -> refused e = Some ep ->
                       Exists (workspace_degraded ep) ws).
Proof.
  induction items as [|x rest IH]; intros S st S' st' Run; cbn [for_of] in Run.
  - apply ret_normal in Run as [-> ->].
    exists [], [], 0. rewrite !app_nil_r.
    split; [reflexivity|]. split; [reflexivity|]. split; [constructor|].
    split; [constructor|]. split; [apply advanced_refl|].
    split; [apply Z.le_refl|]. intros e ep [].
  - peel Run.
    apply workspace_step_shape in Run0
      as (new1 & w & da1 & T1 & W1 & Of & Mi & A1 & Le1 & D1).
    apply IH in Run as (new2 & ws & da2 & T2 & W2 & Ofs & Mis & A2 & Le2 & D2).
    exists (new1 ++ new2)%list, (w :: ws), (da1 + da2).
    split; [rewrite T2, T1, app_assoc; reflexivity|].
    split; [rewrite W2, W1, <- app_assoc; reflexivity|].
    split; [constructor; assumption|]. split; [|split; [|split]].
    + constructor.
      * refine (mirrors_workspace_incl new1 _ _ _ Mi). apply incl_appl, incl_refl.
      * refine (Forall_impl _ _ Mis). intro w'. apply mirrors_workspace_incl.
        apply incl_appr, incl_refl.
    + refine (advanced_trans _ _ _ _ _ _ _ _ _ _ _ _ A1 A2 _ _ _);
        [reflexivity|apply total_cons|apply total_cons].
    + rewrite total_cons. lia.
    + intros e ep I R. apply in_app_or in I as [I | I].
      * apply Exists_cons_hd. exact (D1 e ep I R).
      * apply Exists_cons_tl. exact (D2 e ep I R).
Qed.

(** *** The whole walk *)

(** [results?.length || 0] is the number of elements the loop over
    [results || []] visits. *)
Lemma length_opt_visited (results len : Value) (items : list Value) :
  get_prop_opt results "length" = Normal len ->
  iterate (js_or results (VArr [])) = Normal items ->
  js_or len zero = VNum (Num (zlength items)).
Proof.
  unfold get_prop_opt. intros L It. destruct (is_nullish results) eqn:N.
  - inversion L; subst len.
    destruct results; try discriminate N; cbn in It; inversion It; reflexivity.
  - assert (L0 : length_or_0 results = Normal (js_or len zero))
      by (unfold length_or_0; rewrite L; reflexivity).
    rewrite (length_or_0_visited _ _ _ L0 It). unfold visited. rewrite It. reflexivity.
Qed.

Lemma read_structure_shape (st : State) (res : StructureResult) (st' : State) :
  read_structure apiUrl apiToken includeRows maxRows st = (Normal res, st') ->
  exists r rest data results items,
    trace st' = (trace st ++ (get_request apiUrl apiToken EpWorkspaces, Resolved r) :: rest)%list
    /\ ok r = true
    /\ json r = Normal data
    /\ get_prop data "results" = Normal results
    /\ iterate (js_or results (VArr [])) = Normal items
    /\ Forall2 (workspace_of includeRows) items (workspaces (structure res))
    /\ Forall (mirrors_workspace includeRows rest) (workspaces (structure res))
    /\ counts (structure res)
    /\ read_success res = true
    /\ read_message res = found_message (summary (structure res))
    /\ Forall (degrades (workspaces (structure res)))
         ((get_request apiUrl apiToken EpWorkspaces, Resolved r) :: rest).
Proof.
  unfold read_structure. intro Run. peel Run.
  apply do_fetch_normal in Run0 as (w & F & ->).
  destruct (ok v) eqn:O; cbn [negb] in Run; [|discriminate Run].
  step Run as data J. step Run as results Rs. step Run as len L. step Run as items It.
  peel Run. apply ret_normal in Run as [-> ->].
  apply workspaces_loop_shape in Run0
    as (new & ws & da & T & W & Ofs & Mis & A & Le & D).
  cbn [workspaces summary app] in W, A. cbn [structure read_success read_message].
  exists v, new, data, results, items. rewrite W.
  split; [rewrite T; cbn [trace]; rewrite <- app_assoc; reflexivity|].
  do 6 (split; [assumption|]). split; [|split; [reflexivity|split; [reflexivity|]]].
  - destruct A as (Ws & Ap & Tb & Fl).
    cbn [totalWorkspaces totalApplications totalTables totalFields] in Ws, Ap, Tb, Fl.
    unfold counts. rewrite W, Ws, (length_opt_visited _ _ _ L It),
      (Forall2_zlength _ _ _ Ofs).
    split; [reflexivity|]. split; [exact (Tb 0 eq_refl)|]. split; [exact (Fl 0 eq_refl)|].
    exists (0 + da). split; [exact (Ap 0 eq_refl)|]. lia.
  - constructor.
    + intros ep R. unfold refused in R. cbn [snd] in R. rewrite O in R. discriminate R.
    + apply Forall_forall. intros e I ep R. exact (D e ep I R).
Qed.

End WalkShape.

Section WalkResults.
Context {H : Host}.

Lemma readBaserowStructure_shape (env : Env) (includeRows maxRows : Value) (st : State)
  (res : StructureResult) (st' : State) :
  let apiUrl := env_string (BASEROW_API_URL env) in
  let apiToken := env_string (BASEROW_API_TOKEN env) in
  let rows := default_to (VBool false) includeRows in
  readBaserowStructure env includeRows maxRows st = (Normal res, st') ->
  exists r rest data results items,
    trace st' = (trace st ++ (get_request apiUrl apiToken EpWorkspaces, Resolved r) :: rest)%list
    /\ ok r = true
    /\ json r = Normal data
    /\ get_prop data "results" = Normal results
    /\ iterate (js_or results (VArr [])) = Normal items
    /\ Forall2 (workspace_of rows) items (workspaces (structure res))
    /\ Forall (mirrors_workspace rows rest) (workspaces (structure res))
    /\ counts (structure res)
    /\ read_success res = true
    /\ read_message res = found_message (summary (structure res))
    /\ Forall (degrades (workspaces (structure res)))
         ((get_request apiUrl apiToken EpWorkspaces, Resolved r) :: rest).
Proof.
  intros apiUrl apiToken rows. unfold readBaserowStructure.
  destruct (env_missing env); [discriminate|].
  intro Run. apply try_rethrow_normal in Run.
  exact (read_structure_shape _ _ _ _ _ _ _ Run).
Qed.

Lemma Forall2_built {A B : Type} (R : A -> B -> Prop) (l : list A) (l' : list B) :
  Forall2 R l l' -> forall y, In y l' -> exists x, In x l /\ R x y.
Proof.
  intro F. induction F as [|x y l l' Rxy _ IH]; intros y0 I; [destruct I|].
  destruct I as [<- | I].
  - exists x. split; [left; reflexivity|exact Rxy].
  - destruct (IH y0 I) as (x0 & I0 & R0). exists x0. split; [right; exact I0|exact R0].
Qed.

(** X12. Unless [includeRows] is given and truthy, the walk sends no rows
    request, and every table of a structure it returns has [rowCount] 0
    and no sample rows. *)
Theorem rows_are_read_only_on_request (env : Env) (includeRows maxRows : Value) :
  truthy (default_to (VBool false) includeRows) = false ->
  emits (fun entry => ~ is_rows (endpoint (fst entry)))
    (readBaserowStructure env includeRows maxRows)
  /\ forall st res st',
       readBaserowStructure env includeRows maxRows st = (Normal res, st') ->
       forall w a t,
         In w (workspaces (structure res)) -> In a (applications w) -> In t (tables a) ->
         bare_table t.
Proof.
  intro Off. split.
  - apply emits_readBaserowStructure. intros ep o _ R Rows.
    destruct ep; try destruct Rows.
    destruct (R _ _ eq_refl) as [On _]. rewrite On in Off. discriminate Off.
  - intros st res st' Run w a t Iw Ia It.
    apply readBaserowStructure_shape in Run
      as (r & rest & data & results & items & _ & _ & _ & _ & _ & Ofs & _).
    destruct (Forall2_built _ _ _ Ofs w Iw) as (x & _ & _ & _ & Bare).
    specialize (Bare Off). rewrite Forall_forall in Bare.
    specialize (Bare a Ia). rewrite Forall_forall in Bare. exact (Bare t It).
Qed.

(** X13. In every result of the walk, [summary.totalWorkspaces],
    [totalTables] and [totalFields] are the numbers of workspaces, tables
    and fields of the structure returned with them, [totalApplications]
    is a number not below the number of applications nested in it, and
    the message is [Found ... fields] over these four counters. *)
Theorem summary_counts_the_structure (env : Env) (includeRows maxRows : Value)
  (st : State) (res : StructureResult) (st' : State) :
  readBaserowStructure env includeRows maxRows st = (Normal res, st') ->
  counts (structure res)
  /\ read_success res = true
  /\ read_message res = found_message (summary (structure res)).
Proof.
  intro Run.
  apply readBaserowStructure_shape in Run
    as (r & rest & data & results & items & _ & _ & _ & _ & _ & _ & _ & C & S & M & _).
  split; [exact C|]. split; [exact S|exact M].
Qed.

(** X14. The first request of a walk that returns is the workspaces
    listing, answered with success; the workspaces of the structure are,
    in order and one for one, the elements of its [results], each with the
    [id] and [name] of its element. *)
Theorem workspaces_follow_the_root_listing (env : Env) (includeRows maxRows : Value)
  (st : State) (res : StructureResult) (st' : State) :
  readBaserowStructure env includeRows maxRows st = (Normal res, st') ->
  exists r rest data results items,
    trace st'
    = (trace st
       ++ (get_request (env_string (BASEROW_API_URL env))
             (env_string (BASEROW_API_TOKEN env)) EpWorkspaces, Resolved r) :: rest)%list
    /\ ok r = true
    /\ json r = Normal data
    /\ get_prop data "results" = Normal results
    /\ iterate (js_or results (VArr [])) = Normal items
    /\ Forall2 (workspace_of (default_to (VBool false) includeRows)) items
         (workspaces (structure res)).
Proof.
  intro Run.
  apply readBaserowStructure_shape in Run
    as (r & rest & data & results & items & T & O & J & Rs & It & Ofs & _).
  exists r, rest, data, results, items.
  do 5 (split; [assumption|]). exact Ofs.
Qed.

(** X15. In a structure the walk returns, the applications of a workspace
    are the elements of type ["database"], in order, of an applications
    listing answered during the run for the workspace's [id], or none if
    that listing was refused; likewise the tables of an application
    against its tables listing, and the fields of a table against its
    fields listing. *)
Theorem structure_mirrors_the_listings (env : Env) (includeRows maxRows : Value)
  (st : State) (res : StructureResult) (st' : State)
  (new : list (Request * FetchOutcome)) :
  readBaserowStructure env includeRows maxRows st = (Normal res, st') ->
  trace st' = (trace st ++ new)%list ->
  Forall (mirrors_workspace (default_to (VBool false) includeRows) new)
    (workspaces (structure res)).
Proof.
  intros Run T.
  apply readBaserowStructure_shape in Run
    as (r & rest & data & results & items & T0 & _ & _ & _ & _ & _ & Mis & _).
  rewrite T0 in T. apply app_inv_head in T. subst new.
  refine (Forall_impl _ _ Mis). intro w. apply mirrors_workspace_incl.
  apply incl_tl, incl_refl.
Qed.

End WalkResults.

(** C3. A listing answered with a non-success status empties that level
    and nothing else.  In the loops: the workspace is kept with no
    applications, the database with no tables, the table with no fields
    (its rows read as usual), and the loop goes on to the remaining
    siblings.  In the output of every walk that returns: for each listing
    refused during the run the entity it was asked for is there with that
    level empty; every workspace of the root listing is there, in order;
    and each entity holds what the listing answered for it gave.  On a
    backend that always responds, refusing listings below the root or
    not, the walk completes and returns its structure. *)
Theorem refused_listing_degrades {H : Host}
  (apiUrl apiToken : string) (includeRows maxRows : Value) :
  (forall (workspace : Value) (rest : list Value) (S : Structure) (st : State)
          (id name : Value) (r : Response) (w : World),
      let req := get_request apiUrl apiToken (EpApplications (to_string id)) in
      get_prop workspace "id" = Normal id ->
      get_prop workspace "name" = Normal name ->
      fetch req (world st) = (Resolved r, w) ->
      ok r = false ->
      for_of (workspace :: rest) (workspace_step apiUrl apiToken includeRows maxRows) S st
      = for_of rest (workspace_step apiUrl apiToken includeRows maxRows)
          (mkStructure (workspaces S ++ [mkWorkspace id name []]) (summary S))
          (mkState w (trace st ++ [(req, Resolved r)])
             (console st ++ ["Failed to fetch applications for workspace "
                             ++ to_string id ++ ": " ++ number_to_string (status r)])))
  /\ (forall (application : Value) (rest : list Value) (s : Summary)
             (apps : list AppInfo) (st : State) (id name : Value) (r : Response)
             (w : World),
         let req := get_request apiUrl apiToken (EpTables (to_string id)) in
         get_prop application "type" = Normal (VStr "database") ->
         get_prop application "id" = Normal id ->
         get_prop application "name" = Normal name ->
         fetch req (world st) = (Resolved r, w) ->
         ok r = false ->
         for_of (application :: rest)
           (application_step apiUrl apiToken includeRows maxRows) (s, apps) st
         = for_of rest (application_step apiUrl apiToken includeRows maxRows)
             (s, (apps ++ [mkApp id name (VStr "database") []])%list)
             (mkState w (trace st ++ [(req, Resolved r)])
                (console st ++ ["Failed to fetch tables for application "
                                ++ to_string id ++ ": " ++ number_to_string (status r)])))
  /\ (forall (table : Value) (rest : list Value) (s : Summary)
             (tabs : list TableInfo) (st : State) (id name order : Value)
             (r : Response) (w : World),
         let req := get_request apiUrl apiToken (EpFields (to_string id)) in
         get_prop table "id" = Normal id ->
         get_prop table "name" = Normal name ->
         get_prop table "order" = Normal order ->
         fetch req (world st) = (Resolved r, w) ->
         ok r = false ->
         for_of (table :: rest) (table_step apiUrl apiToken includeRows maxRows)
           (s, tabs) st
         = bind (read_rows apiUrl apiToken includeRows maxRows id)
             (fun '(count, rows) =>
                for_of rest (table_step apiUrl apiToken includeRows maxRows)
                  (s, (tabs ++ [mkTable id name order [] count rows])%list))
             (mkState w (trace st ++ [(req, Resolved r)]) (console st)))
  /\ (responsive ->
      forall (env : Env) (include_rows max_rows : Value) (st : State),
        env_missing env = false ->
        exists res st',
          readBaserowStructure env include_rows max_rows st = (Normal res, st'))
  /\ (forall (env : Env) (include_rows max_rows : Value) (st : State)
             (res : StructureResult) (st' : State)
             (new : list (Request * FetchOutcome)),
         readBaserowStructure env include_rows max_rows st = (Normal res, st') ->
         trace st' = (trace st ++ new)%list ->
         Forall (degrades (workspaces (structure res))) new
         /\ Forall (mirrors_workspace (default_to (VBool false) include_rows) new)
              (workspaces (structure res))
         /\ exists r rest data results items,
              new = (get_request (env_string (BASEROW_API_URL env))
                       (env_string (BASEROW_API_TOKEN env)) EpWorkspaces, Resolved r)
                    :: rest
              /\ json r = Normal data
              /\ get_prop data "results" = Normal results
              /\ iterate (js_or results (VArr [])) = Normal items
              /\ Forall2 (workspace_of (default_to (VBool false) include_rows)) items
                   (workspaces (structure res))).
Proof.
  split; [|split; [|split; [|split]]].
  - intros workspace rest S st id name r w req Gi Gn F O.
    cbn [for_of]. unfold bind at 1.
    rewrite (workspace_step_refused apiUrl apiToken includeRows maxRows workspace S st
               id name r w Gi Gn F O).
    reflexivity.
  - intros application rest s apps st id name r w req Gt Gi Gn F O.
    cbn [for_of]. unfold bind at 1.
    rewrite (application_step_refused apiUrl apiToken includeRows maxRows application
               s apps st id name r w Gt Gi Gn F O).
    reflexivity.
  - intros table rest s tabs st id name order r w req Gi Gn Go F O.
    cbn [for_of]. unfold bind at 1.
    rewrite (table_step_refused apiUrl apiToken includeRows maxRows table s tabs st
               id name order r w Gi Gn Go F O).
    unfold bind.
    destruct (read_rows apiUrl apiToken includeRows maxRows id _) as [[[count rows] | e] st1];
      reflexivity.
  - intros R env include_rows max_rows st E.
    unfold readBaserowStructure. rewrite E. unfold try_catch.
    destruct (read_structure_completes (env_string (BASEROW_API_URL env))
                (env_string (BASEROW_API_TOKEN env))
                (default_to (VBool false) include_rows)
                (default_to (VNum (Num 5)) max_rows) R st) as (res & st' & ->).
    exists res, st'. reflexivity.
  - intros env include_rows max_rows st res st' new Run T.
    apply readBaserowStructure_shape in Run
      as (r & rest & data & results & items & T0 & _ & J & Rs & It & Ofs & Mis & _ & _ & _
          & D).
    rewrite T0 in T. apply app_inv_head in T. subst new.
    split; [exact D|]. split.
    + refine (Forall_impl _ _ Mis). intro w. apply mirrors_workspace_incl.
      apply incl_tl, incl_refl.
    + exists r, rest, data, results, items.
      split; [reflexivity|]. do 3 (split; [assumption|]). exact Ofs.
Qed.

Lemma refused_listing_degrades_witness :
  responsive (H := backend)
  /\ (exists res st', backend_walk = (Normal res, st'))
  /\ (let step := workspace_step (H := backend) "https://api.baserow.io" "test_token"
                    (VBool false) (int 5) in
      let w1 := VObj [("id", int 1); ("name", VStr "W1")] in
      let w2 := VObj [("id", int 2); ("name", VStr "W2")] in
      let refused := mkResponse false 404 "Not Found"
                       (Throw (Error "Unexpected end of JSON input")) (Normal "") in
      for_of [w1; w2] step (mkStructure [] (mkSummary (int 2) zero zero zero)) backend_start
      = for_of [w2] step
          (mkStructure [mkWorkspace (int 1) (VStr "W1") []]
             (mkSummary (int 2) zero zero zero))
          (mkState (H := backend) tt
             [(get_request "https://api.baserow.io" "test_token" (EpApplications "1"),
               Resolved refused)]
             ["Failed to fetch applications for workspace 1: 404"]))
  /\ map (fun w => (ws_name w, applications w))
       (match fst backend_walk with
        | Normal res => workspaces (structure res)
        | Throw _ => []
        end)
     = [(VStr "W1", []);
        (VStr "W2",
         [mkApp (int 101) (VStr "App") (VStr "database")
            [mkTable (int 201) (VStr "Table") (int 0)
               [mkField (int 789) (VStr "image_field") (VStr "file") (VBool false)
                  VUndefined VNull
                  [("fileTypes", VNull); ("multipleFiles", VBool false)]]
               (int 0) (VArr [])]])]
  /\ Forall (degrades (H := backend) (workspaces (structure backend_result)))
       (trace (snd backend_walk)).
Proof.
  split; [exact backend_responsive|].
  split; [|split; [|split; [reflexivity|]]].
  - exact (proj1 (proj2 (proj2 (proj2
             (refused_listing_degrades (H := backend) "" "" VNull VNull))))
             backend_responsive test_env VUndefined VUndefined backend_start eq_refl).
  - exact (proj1 (refused_listing_degrades (H := backend) "https://api.baserow.io"
                    "test_token" (VBool false) (int 5))
             (VObj [("id", int 1); ("name", VStr "W1")])
             [VObj [("id", int 2); ("name", VStr "W2")]]
             (mkStructure [] (mkSummary (int 2) zero zero zero)) backend_start
             (int 1) (VStr "W1")
             (mkResponse false 404 "Not Found"
                (Throw (Error "Unexpected end of JSON input")) (Normal ""))
             tt eq_refl eq_refl eq_refl eq_refl).
  - exact (proj1 (proj2 (proj2 (proj2 (proj2
             (refused_listing_degrades (H := backend) "" "" VNull VNull))))
             test_env VUndefined VUndefined backend_start backend_result
             (snd backend_walk) (trace (snd backend_walk)) eq_refl eq_refl)).
Defined.

Lemma rows_are_read_only_on_request_witness :
  Forall (fun w => Forall (fun a => Forall bare_table (tables a)) (applications w))
    (workspaces (structure backend_result)).
Proof.
  apply Forall_forall. intros w Iw. apply Forall_forall. intros a Ia.
  apply Forall_forall. intros t It.
  exact (proj2 (rows_are_read_only_on_request (H := backend) test_env VUndefined
                  VUndefined eq_refl)
           backend_start backend_result (snd backend_walk) eq_refl w a t Iw Ia It).
Defined.

Lemma summary_counts_the_structure_witness :
  counts (structure backend_result)
  /\ read_message backend_result
     = "Found 2 workspaces, 2 applications, 1 tables, and 1 fields".
Proof.
  destruct (summary_counts_the_structure (H := backend) test_env VUndefined VUndefined
              backend_start backend_result (snd backend_walk) eq_refl) as (C & _ & M).
  split; [exact C|]. rewrite M. reflexivity.
Defined.

Lemma workspaces_follow_the_root_listing_witness :
  map ws_id (workspaces (structure backend_result)) = [int 1; int 2]
  /\ exists items,
       Forall2 (workspace_of (VBool false)) items (workspaces (structure backend_result)).
Proof.
  split; [reflexivity|].
  destruct (workspaces_follow_the_root_listing (H := backend) test_env VUndefined
              VUndefined backend_start backend_result (snd backend_walk) eq_refl)
    as (r & rest & data & results & items & _ & _ & _ & _ & _ & Ofs).
  exists items. exact Ofs.
Defined.

Lemma structure_mirrors_the_listings_witness :
  Forall (mirrors_workspace (H := backend) (VBool false) (trace (snd backend_walk)))
    (workspaces (structure backend_result)).
Proof.
  exact (structure_mirrors_the_listings (H := backend) test_env VUndefined VUndefined
           backend_start backend_result (snd backend_walk) (trace (snd backend_walk))
           eq_refl eq_refl).
Defined.

(* ================================================================== *)
(** ** Where the uploads send the token *)

Section UploadRequests.
Context {H : Host}.
Variables (apiUrl apiToken : string).

Lemma emits_backend (req : Request) :
  base_url req = apiUrl -> token req = apiToken ->
  emits (to_backend apiUrl apiToken) (do_fetch req).
Proof. intros B T. apply emits_do_fetch. intro o. split; assumption. Qed.

Lemma emits_getFieldId (tableId ref : Value) :
  emits (to_backend apiUrl apiToken) (getFieldId tableId ref apiUrl apiToken).
Proof.
  unfold getFieldId, resolve_by_name. apply emits_try_catch; [|intro; emission].
  destruct (negb (isNaN ref) || regex_digits (to_string ref)); [emission|].
  destruct ref as [| |b|n|s|l|props]; try solve [emission].
  destruct (prefixed_id s); [emission|].
  apply emits_bind; [apply emits_backend; reflexivity|intro r]. emission.
Qed.
#[local] Hint Resolve emits_getFieldId : emission.

Lemma emits_update_row (uploadResult tableId rowId fieldName : Value) :
  emits (to_backend apiUrl apiToken)
    (update_row apiUrl apiToken uploadResult tableId rowId fieldName).
Proof.
  unfold update_row.
  destruct (truthy tableId && truthy rowId && truthy fieldName); [|emission].
  apply emits_bind; [emission|intro fieldId].
  destruct (negb (truthy fieldId)); [emission|].
  apply emits_bind; [apply emits_backend; reflexivity|intro r]. emission.
Qed.
#[local] Hint Resolve emits_update_row : emission.

Lemma emits_upload_result (r : Response) :
  emits (to_backend apiUrl apiToken) (upload_result r).
Proof. unfold upload_result. emission. Qed.
#[local] Hint Resolve emits_upload_result : emission.

Lemma emits_upload_phase (req : Request) (tableId rowId fieldName : Value) :
  base_url req = apiUrl -> token req = apiToken ->
  emits (to_backend apiUrl apiToken)
    (uploadResponse <- do_fetch req ;;
     uploadResult <- upload_result uploadResponse ;;
     update_row apiUrl apiToken uploadResult tableId rowId fieldName).
Proof.
  intros B T. apply emits_bind; [apply emits_backend; assumption|intro r]. emission.
Qed.

End UploadRequests.

Section UploadCredentials.
Context {H : Host}.

(** X16. Every request of [uploadImageUrl] and of [uploadFile] goes to
    the configured base URL and carries the configured token, whatever
    the arguments and the answers: the URL given for the image is never
    requested by the program itself. *)
Theorem uploads_talk_to_the_backend_only
  (env : Env) (url : Value) (filePath : string)
  (filename tableId rowId fieldName : Value) :
  let apiUrl := env_string (BASEROW_API_URL env) in
  let apiToken := env_string (BASEROW_API_TOKEN env) in
  emits (to_backend apiUrl apiToken)
    (uploadImageUrl env url filename tableId rowId fieldName)
  /\ emits (to_backend apiUrl apiToken)
       (uploadFile env filePath filename tableId rowId fieldName).
Proof.
  intros apiUrl apiToken. split.
  - unfold uploadImageUrl. destruct (env_missing env); [apply emits_throw|].
    apply emits_try_catch; [|intro; apply emits_throw].
    apply emits_upload_phase; reflexivity.
  - unfold uploadFile. destruct (env_missing env); [apply emits_throw|].
    apply emits_try_catch; [|intro; apply emits_throw].
    destruct (negb (existsSync filePath)); [apply emits_throw|].
    apply emits_bind; [apply emits_lift|intro fileBuffer].
    apply emits_upload_phase; reflexivity.
Qed.

End UploadCredentials.

(* ================================================================== *)
(** ** The object built for a field *)

Lemma js_or_defined (a d : Value) : d <> VUndefined -> js_or a d <> VUndefined.
Proof.
  intros D. unfold js_or. destruct (truthy a) eqn:T; [|exact D].
  intro E. rewrite E in T. discriminate T.
Qed.

Lemma js_or_not_null (a d : Value) : d <> VNull -> js_or a d <> VNull.
Proof.
  intros D. unfold js_or. destruct (truthy a) eqn:T; [|exact D].
  intro E. rewrite E in T. discriminate T.
Qed.

Lemma strict_eq_string_other (v : Value) (s s' : string) :
  strict_eq_string v s = true -> (s =? s')%string = false ->
  strict_eq_string v s' = false.
Proof.
  destruct v; cbn; try discriminate. intros E N.
  apply String.eqb_eq in E. subst. exact N.
Qed.

(** X17. The object the walk builds for a field has, after its six fixed
    keys, exactly the extension keys of its type: two for a file field,
    one for a select field, two for a link field, none otherwise; and
    [primary], [description] and the extension keys are never
    [undefined]: an absent property becomes [false], [null] or the empty
    array. *)
Theorem field_keys_follow_the_type (field : Value) (info : FieldInfo) :
  field_info field = Normal info ->
  get_prop field "type" = Normal (fld_type info)
  /\ map fst (fld_extra info) = extension_keys (fld_type info)
  /\ defaults_filled info.
Proof.
  intro F.
  assert (N : entity field)
    by (unfold entity; destruct field; try reflexivity; cbn in F; discriminate F).
  revert F. unfold field_info, cbind, spread_when, extension_keys, defaults_filled.
  destruct (get_prop_entity field "id" N) as [id ->].
  destruct (get_prop_entity field "name" N) as [name ->].
  destruct (get_prop_entity field "type" N) as [type ->].
  destruct (get_prop_entity field "primary" N) as [primary ->].
  destruct (get_prop_entity field "order" N) as [order ->].
  destruct (get_prop_entity field "description" N) as [description ->].
  destruct (get_prop_entity field "file_types" N) as [file_types ->].
  destruct (get_prop_entity field "multiple_files" N) as [multiple_files ->].
  destruct (get_prop_entity field "select_options" N) as [select_options ->].
  destruct (get_prop_entity field "link_row_table" N) as [link_row_table ->].
  destruct (get_prop_entity field "link_row_table_id" N) as [link_row_table_id ->].
  intro F.
  assert (D1 : js_or primary (VBool false) <> VUndefined)
    by (apply js_or_defined; discriminate).
  assert (D2 : js_or primary (VBool false) <> VNull)
    by (apply js_or_not_null; discriminate).
  assert (D3 : js_or description VNull <> VUndefined)
    by (apply js_or_defined; discriminate).
  destruct (strict_eq_string type "file") eqn:E1.
  { rewrite (strict_eq_string_other _ _ "single_select" E1 eq_refl),
      (strict_eq_string_other _ _ "multiple_select" E1 eq_refl),
      (strict_eq_string_other _ _ "link_row" E1 eq_refl) in F.
    inversion F. cbn. rewrite E1. repeat split; try assumption.
    repeat constructor; cbn; apply js_or_defined; discriminate. }
  destruct (strict_eq_string type "single_select") eqn:E2.
  { rewrite (strict_eq_string_other _ _ "multiple_select" E2 eq_refl),
      (strict_eq_string_other _ _ "link_row" E2 eq_refl) in F.
    inversion F. cbn. rewrite E1, E2. repeat split; try assumption.
    repeat constructor; cbn; apply js_or_defined; discriminate. }
  destruct (strict_eq_string type "multiple_select") eqn:E3.
  { rewrite (strict_eq_string_other _ _ "link_row" E3 eq_refl) in F.
    inversion F. cbn. rewrite E1, E2, E3. repeat split; try assumption.
    repeat constructor; cbn; apply js_or_defined; discriminate. }
  destruct (strict_eq_string type "link_row") eqn:E4.
  { inversion F. cbn. rewrite E1, E2, E3, E4. repeat split; try assumption.
    repeat constructor; cbn; apply js_or_defined; discriminate. }
  inversion F. cbn. rewrite E1, E2, E3, E4. repeat split; try assumption. constructor.
Qed.

Lemma field_keys_follow_the_type_witness :
  exists info,
    field_info (VObj [("id", VNum (Num 2)); ("name", VStr "Image");
                      ("type", VStr "file")]) = Normal info
    /\ map fst (fld_extra info) = ["fileTypes"; "multipleFiles"]
    /\ defaults_filled info.
Proof.
  eexists. split; [reflexivity|].
  refine (proj2 (field_keys_follow_the_type
                   (VObj [("id", VNum (Num 2)); ("name", VStr "Image");
                          ("type", VStr "file")]) _ eq_refl)).
Defined.

(* ================================================================== *)
(** ** The upload tools *)

Section Tools.
Context {H : Host}.
Variable g : Glyphs.

Lemma append_assoc (a b c : string) : ((a ++ b) ++ c)%string = (a ++ b ++ c)%string.
Proof. induction a as [|x a IH]; cbn; [reflexivity|]. rewrite IH. reflexivity. Qed.

Lemma truthy_optional (o : option string) : truthy (optional o) = given o.
Proof. destruct o; reflexivity. Qed.

Lemma truthy_entity (v : Value) : truthy v = true -> entity v.
Proof. unfold entity. destruct v; cbn; intro T; try discriminate T; reflexivity. Qed.

Lemma upload_message_reports (what from : string) (rowId tableId : Value)
  (record : OperationResult) :
  exists text,
    upload_message g what from rowId tableId record = Normal text
    /\ reports g what from (Normal record) (mkToolResult text false).
Proof.
  unfold upload_message, reports. cbn [isError content_text].
  set (base := (glyph_check g ++ " Successfully uploaded " ++ what ++ " from " ++ from)%string).
  assert (First : exists r1,
             (if truthy (uploaded_file record) then
                name <~ get_prop (uploaded_file record) "name" ;;
                url <~ get_prop (uploaded_file record) "url" ;;
                Normal (base ++ nl ++ glyph_folder g ++ " File ID: " ++ to_string name
                        ++ nl ++ glyph_link g ++ " File URL: " ++ to_string url)%string
              else Normal base) = Normal (base ++ r1)%string).
  { destruct (truthy (uploaded_file record)) eqn:T.
    - apply truthy_entity in T.
      destruct (get_prop_entity _ "name" T) as [name ->].
      destruct (get_prop_entity _ "url" T) as [url ->].
      eexists. reflexivity.
    - exists EmptyString. rewrite append_empty_r. reflexivity. }
  destruct First as [r1 ->]. cbn [cbind].
  set (r2 := if truthy (row_value (updated_row record))
             then (nl ++ glyph_memo g ++ " Updated row " ++ to_string rowId
                   ++ " in table " ++ to_string tableId)%string
             else EmptyString).
  assert (Second : (if truthy (row_value (updated_row record))
                    then ((base ++ r1) ++ nl ++ glyph_memo g ++ " Updated row "
                          ++ to_string rowId ++ " in table " ++ to_string tableId)%string
                    else (base ++ r1)%string)
                   = (base ++ r1 ++ r2)%string).
  { unfold r2. destruct (truthy (row_value (updated_row record))).
    - rewrite append_assoc. reflexivity.
    - rewrite append_empty_r. reflexivity. }
  rewrite Second. clear Second.
  destruct (row_update_error record) as [cause|]; cbn [optional truthy to_string].
  - destruct (cause =? "")%string eqn:E; cbn [negb].
    + eexists. split; [reflexivity|]. split; [reflexivity|]. split; [eexists; reflexivity|].
      intros c Ec Ne. inversion Ec; subst c. apply String.eqb_eq in E. contradiction.
    + eexists. split; [reflexivity|]. split; [reflexivity|]. split.
      * exists (r1 ++ r2 ++ nl ++ glyph_warning g ++ " " ++ cause)%string.
        rewrite !append_assoc. reflexivity.
      * intros c Ec _. inversion Ec; subst c. eexists. reflexivity.
  - eexists. split; [reflexivity|]. split; [reflexivity|]. split; [eexists; reflexivity|].
    intros c Ec. discriminate Ec.
Qed.

Lemma upload_tool_reports (what : string)
  (upload : string -> Value -> Value -> Value -> Value -> M OperationResult)
  (data : UploadArgs) (st : State) :
  let run := upload (source data) (optional (arg_filename data))
               (optional (arg_tableId data)) (optional (arg_rowId data))
               (optional (arg_fieldName data)) st in
  partial_triple (optional (arg_tableId data)) (optional (arg_rowId data))
    (optional (arg_fieldName data)) = false ->
  exists result,
    upload_tool g what upload (ParseSuccess data) st = (Normal result, snd run)
    /\ reports g what (source data) (fst run) result.
Proof.
  intros run Ok. unfold upload_tool. rewrite Ok.
  unfold try_catch, bind at 1. fold run.
  destruct run as [[record | e] st1]; cbn [fst snd].
  - destruct (upload_message_reports what (source data) (optional (arg_rowId data))
                (optional (arg_tableId data)) record) as (text & Msg & Rep).
    exists (mkToolResult text false). unfold bind, lift, ret. rewrite Msg.
    split; [reflexivity|exact Rep].
  - exists (error_result g e). split; reflexivity.
Qed.

Lemma partial_triple_given (t r f : option string) :
  partial_triple (optional t) (optional r) (optional f)
  = (given t || given r || given f) && negb (given t && given r && given f).
Proof. unfold partial_triple. rewrite !truthy_optional. reflexivity. Qed.

(** X18. A call of an upload tool that gives some but not all of
    [tableId], [rowId] and [fieldName], an empty string counting as not
    given, is rejected before anything is uploaded: the handler throws and
    sends no request. *)
Theorem incomplete_row_reference_is_rejected (env : Env) (data : UploadArgs) (st : State) :
  given (arg_tableId data) || given (arg_rowId data) || given (arg_fieldName data) = true ->
  given (arg_tableId data) && given (arg_rowId data) && given (arg_fieldName data) = false ->
  upload_image_url_tool g env (ParseSuccess data) st = (Throw validation_error, st)
  /\ upload_file_tool g env (ParseSuccess data) st = (Throw validation_error, st).
Proof.
  intros Some_given Not_all.
  unfold upload_image_url_tool, upload_file_tool, upload_tool.
  rewrite partial_triple_given, Some_given, Not_all. split; reflexivity.
Qed.

(** X19. A call of an upload tool that gives all three of [tableId],
    [rowId] and [fieldName], or none of them, never throws: the tool
    performs exactly the effects of its upload function, turns an error
    thrown by it into a result flagged [isError] with the text
    [Error: ] followed by the message, and a record returned by it into a
    result that is not an error, even when the record reports that the
    row could not be updated; that report is then the last line of the
    text. *)
Theorem upload_tools_report_failures (env : Env) (data : UploadArgs) (st : State) :
  given (arg_tableId data) && given (arg_rowId data) && given (arg_fieldName data)
  = given (arg_tableId data) || given (arg_rowId data) || given (arg_fieldName data) ->
  let filename := optional (arg_filename data) in
  let tableId := optional (arg_tableId data) in
  let rowId := optional (arg_rowId data) in
  let fieldName := optional (arg_fieldName data) in
  let image := uploadImageUrl env (VStr (source data)) filename tableId rowId fieldName st in
  let file := uploadFile env (source data) filename tableId rowId fieldName st in
  (exists result,
     upload_image_url_tool g env (ParseSuccess data) st = (Normal result, snd image)
     /\ reports g "image" (source data) (fst image) result)
  /\ (exists result,
        upload_file_tool g env (ParseSuccess data) st = (Normal result, snd file)
        /\ reports g "file" (source data) (fst file) result).
Proof.
  intros All filename tableId rowId fieldName image file.
  assert (Ok : partial_triple tableId rowId fieldName = false).
  { unfold tableId, rowId, fieldName. rewrite partial_triple_given, All.
    destruct (given (arg_tableId data) || given (arg_rowId data)
              || given (arg_fieldName data)); reflexivity. }
  split.
  - exact (upload_tool_reports "image" (fun url => uploadImageUrl env (VStr url)) data st Ok).
  - exact (upload_tool_reports "file" (uploadFile env) data st Ok).
Qed.

End Tools.

Lemma incomplete_row_reference_is_rejected_witness :
  upload_image_url_tool ascii_glyphs test_env
    (ParseSuccess (mkArgs "https://example.com/image.jpg" None (Some "123") None
                     (Some "Image")))
    (start [])
  = (Throw validation_error, start []).
Proof.
  exact (proj1 (incomplete_row_reference_is_rejected (H := scripted) ascii_glyphs test_env
                  (mkArgs "https://example.com/image.jpg" None (Some "123") None
                     (Some "Image"))
                  (start []) eq_refl eq_refl)).
Defined.

Lemma upload_tools_report_failures_witness :
  fst (upload_image_url_tool ascii_glyphs test_env
         (ParseSuccess (mkArgs "https://example.com/image.jpg" None None None None))
         (start [failed 500 "Internal Server Error" "Server error"]))
  = Normal (mkToolResult
              "[x] Error: Upload failed: Upload failed: 500 Internal Server Error. Server error"
              true).
Proof.
  destruct (proj1 (upload_tools_report_failures (H := scripted) ascii_glyphs test_env
                     (mkArgs "https://example.com/image.jpg" None None None None)
                     (start [failed 500 "Internal Server Error" "Server error"]) eq_refl))
    as (result & Run & Rep).
  rewrite Run. cbn [fst]. f_equal. exact Rep.
Defined.

(* ================================================================== *)
(** ** A row update the backend refuses *)

Section PatchRefused.
Context {H : Host}.

(** X20. Once the upload has succeeded and the field reference has
    resolved to an identifier, a PATCH answered with a non-success status
    (whose text can be read) does not fail the call: [uploadImageUrl] and
    [uploadFile] return [success: true], the uploaded-file descriptor and
    the [row_update_error] [Failed to update row: <status> <statusText>]. *)
Theorem refused_patch_is_reported
  (env : Env) (tableId rowId fieldName uploadResult fieldId : Value)
  (st0 st1 : State) (r : Response) (w2 : World) (t : string) :
  let apiUrl := env_string (BASEROW_API_URL env) in
  let apiToken := env_string (BASEROW_API_TOKEN env) in
  env_missing env = false ->
  truthy tableId && truthy rowId && truthy fieldName = true ->
  getFieldId tableId fieldName apiUrl apiToken st0 = (Normal fieldId, st1) ->
  truthy fieldId = true ->
  fetch (update_request apiUrl apiToken tableId rowId fieldId uploadResult) (world st1)
  = (Resolved r, w2) ->
  ok r = false ->
  text r = Normal t ->
  let reported := mkResult true uploadResult None (Some (patch_message r)) in
  (forall (url filename : Value) (st : State) (up : Response) (w1 : World),
      let req := upload_url_request apiUrl apiToken url filename in
      fetch req (world st) = (Resolved up, w1) ->
      ok up = true ->
      json up = Normal uploadResult ->
      st0 = mkState w1 (trace st ++ [(req, Resolved up)]) (console st) ->
      fst (uploadImageUrl env url filename tableId rowId fieldName st) = Normal reported)
  /\ (forall (filePath : string) (filename : Value) (st : State)
             (fileBuffer : list Byte.byte) (up : Response) (w1 : World),
         let req := upload_file_request apiUrl apiToken fileBuffer
                      (js_or filename (VStr (basename filePath))) in
         existsSync filePath = true ->
         readFileSync filePath = Normal fileBuffer ->
         fetch req (world st) = (Resolved up, w1) ->
         ok up = true ->
         json up = Normal uploadResult ->
         st0 = mkState w1 (trace st ++ [(req, Resolved up)]) (console st) ->
         fst (uploadFile env filePath filename tableId rowId fieldName st)
         = Normal reported).
Proof.
  intros apiUrl apiToken E C G T F O Tx reported.
  assert (Phase : forall prefix,
             fst (attach_phase prefix apiUrl apiToken uploadResult tableId rowId
                    fieldName st0) = Normal reported).
  { intro prefix.
    destruct (attach_phase_outcomes prefix apiUrl apiToken uploadResult tableId rowId
                fieldName st0 C) as (fieldId' & st1' & G' & _ & P).
    rewrite G in G'. inversion G'. subst fieldId' st1'.
    rewrite (P T (Resolved r) w2 F), O, Tx. reflexivity. }
  split.
  - intros url filename st up w1 req Fu Ou Ju ->.
    rewrite (uploadImageUrl_after_upload env url filename tableId rowId fieldName st up w1
               uploadResult E Fu Ou Ju).
    apply Phase.
  - intros filePath filename st fileBuffer up w1 req Ex Rd Fu Ou Ju ->.
    rewrite (uploadFile_after_upload env filePath filename tableId rowId fieldName st
               fileBuffer up w1 uploadResult E Ex Rd Fu Ou Ju).
    apply Phase.
Qed.

End PatchRefused.

Lemma refused_patch_is_reported_witness :
  fst (uploadImageUrl test_env mockUrl VUndefined (VStr "123") (VStr "456") (VStr "789")
         (start [ok_json mockUploadData; failed 400 "Bad Request" "Invalid row"]))
  = Normal (mkResult true mockUploadData None (Some "Failed to update row: 400 Bad Request")).
Proof.
  exact (proj1 (refused_patch_is_reported (H := scripted) test_env
                  (VStr "123") (VStr "456") (VStr "789") mockUploadData (int 789)
                  (mkState (H := scripted) [failed 400 "Bad Request" "Invalid row"]
                     [(upload_url_request "https://api.baserow.io" "test_token" mockUrl
                         VUndefined, ok_json mockUploadData)] [])
                  (mkState (H := scripted) [failed 400 "Bad Request" "Invalid row"]
                     [(upload_url_request "https://api.baserow.io" "test_token" mockUrl
                         VUndefined, ok_json mockUploadData)] [])
                  (mkResponse false 400 "Bad Request"
                     (Throw (Error "Unexpected end of JSON input")) (Normal "Invalid row"))
                  [] "Invalid row"
                  eq_refl eq_refl eq_refl eq_refl eq_refl eq_refl eq_refl)
           mockUrl VUndefined
           (start [ok_json mockUploadData; failed 400 "Bad Request" "Invalid row"])
           (mkResponse true 200 "OK" (Normal mockUploadData) (Normal ""))
           [failed 400 "Bad Request" "Invalid row"]
           eq_refl eq_refl eq_refl eq_refl).
Defined.
